(** * ADF logs viewer: the failure-log workflow and the dashboard of app.py

    app.py is one Streamlit script: every user interaction re-runs it from
    the top.  One run is modelled as a computation in a small writer-and-error
    monad: the trace lists the interface elements and remote calls the run
    produces, in order, and the result is either a value or the exception
    that stopped the run.  The pandas operations the script calls are written
    out as list functions, with the exceptions pandas raises when a column
    is not of the type an operation needs (pandas 2: a column of texts is
    held as Python objects).  Loading the environment and
    building the model client (lines 11-17) are outside the model, and so
    are the pictographs of the captions. *)

From Stdlib Require Import List String Ascii Bool Arith ZArith Lia.
From Stdlib Require Import Permutation Sorted.
Import ListNotations.
Local Open Scope string_scope.
Local Open Scope list_scope.

(* ================================================================== *)
(** ** Python strings *)

(** Texts are held as their UTF-8 bytes.  [lower] acts on the ASCII letters:
    the script compares lowered texts with the words failed, succeeded,
    inprogress and queued only, and the one character outside ASCII that
    Python lowers to an ASCII letter is the Kelvin sign, to k, which none of
    the four words contains.  [strip] knows every character Python's
    [str.isspace] accepts. *)
Module PyStr.

(** [str.lower] on one character: the letters A-Z move to a-z. *)
Definition lower_ascii (c : ascii) : ascii :=
  let n := nat_of_ascii c in
  if ((65 <=? n) && (n <=? 90))%nat then ascii_of_nat (n + 32) else c.

Fixpoint lower (s : string) : string :=
  match s with
  | EmptyString => EmptyString
  | String c t => String (lower_ascii c) (lower t)
  end.

(** Whitespace characters of one byte: tab, line feed, vertical tab, form
    feed, carriage return, the separators 28-31, and the blank. *)
Definition is_space (c : ascii) : bool :=
  let n := nat_of_ascii c in
  (((9 <=? n) && (n <=? 13)) || ((28 <=? n) && (n <=? 31)) || (n =? 32))%nat.

(** Whitespace characters of two bytes: U+0085 and U+00A0. *)
Definition is_space2 (a b : ascii) : bool :=
  let x := nat_of_ascii a in
  let y := nat_of_ascii b in
  ((x =? 194) && ((y =? 133) || (y =? 160)))%nat.

(** Whitespace characters of three bytes: U+1680, U+2000 to U+200A, U+2028,
    U+2029, U+202F, U+205F and U+3000. *)
Definition is_space3 (a b c : ascii) : bool :=
  let x := nat_of_ascii a in
  let y := nat_of_ascii b in
  let z := nat_of_ascii c in
  (((x =? 225) && (y =? 154) && (z =? 128))
   || ((x =? 226) && (y =? 128)
       && (((128 <=? z) && (z <=? 138)) || (z =? 168) || (z =? 169)
           || (z =? 175)))
   || ((x =? 226) && (y =? 129) && (z =? 159))
   || ((x =? 227) && (y =? 128) && (z =? 128)))%nat.

(** A text cut into pieces: each whitespace character is one piece, marked
    [true]; every other byte is a piece of its own, marked [false]. *)
Fixpoint pieces (s : string) : list (bool * string) :=
  match s with
  | EmptyString => []
  | String a t =>
      if is_space a then (true, String a EmptyString) :: pieces t
      else
        match t with
        | String b t2 =>
            if is_space2 a b
            then (true, String a (String b EmptyString)) :: pieces t2
            else
              match t2 with
              | String c t3 =>
                  if is_space3 a b c
                  then (true, String a (String b (String c EmptyString)))
                       :: pieces t3
                  else (false, String a EmptyString) :: pieces t
              | EmptyString => (false, String a EmptyString) :: pieces t
              end
        | EmptyString => (false, String a EmptyString) :: pieces t
        end
  end.

Fixpoint drop_spaces (l : list (bool * string)) : list (bool * string) :=
  match l with
  | (true, _) :: t => drop_spaces t
  | _ => l
  end.

Fixpoint join (l : list (bool * string)) : string :=
  match l with
  | [] => EmptyString
  | (_, p) :: t => (p ++ join t)%string
  end.

(** [s.strip()]: the whitespace characters at both ends are removed. *)
Definition strip (s : string) : string :=
  join (rev (drop_spaces (rev (drop_spaces (pieces s))))).

(** The text holds whitespace characters only. *)
Definition all_space (s : string) : bool := forallb fst (pieces s).

Definition nl : string := String "010"%char EmptyString.

End PyStr.

(* ================================================================== *)
(** ** Cells, rows and data frames *)

(** A number as [pd.read_csv] holds it in a column of numbers, given by
    what the script can see of it: the text [str] makes of it and whether
    it is zero (so false for [bool]). *)
Record number : Type := mkNumber {
  num_text : string;
  num_zero : bool
}.

(** A cell of the table as [pd.read_csv] returns it: the missing value (an
    empty field is read as NaN), a text (a field of a column in which some
    field is neither empty, nor a number, nor True or False), a number, or
    a truth value (the fields True and False of a column that holds nothing
    else). *)
Inductive value : Type :=
| NaN
| Str (s : string)
| Num (n : number)
| Bool (b : bool).

(** A cell of the table after the dashboard has converted columns:
    [Timestamp ns offset] is a datetime value (the instant in nanoseconds
    since the epoch, and the offset of its own clock from UTC, zero when the
    text named none), [NaT] the missing datetime, [Date d] a
    [datetime.date] (days since 1970-01-01). *)
Inductive cell : Type :=
| Raw (v : value)
| Timestamp (ns offset : Z)
| NaT
| Date (d : Z).

Class Missing (C : Type) : Type := missing : C.
#[export] Instance value_missing : Missing value := NaN.
#[export] Instance cell_missing : Missing cell := Raw NaN.

Section Frames.

Context {C : Type} `{Missing C}.

(** One row: the cell under each column name. *)
Definition row : Type := list (string * C).

Record DataFrame : Type := mkDataFrame {
  columns : list string;
  rows : list row
}.

(** [name in df.columns] *)
Definition has_column (name : string) (df : DataFrame) : bool :=
  existsb (String.eqb name) (columns df).

Fixpoint loc (name : string) (r : row) : C :=
  match r with
  | [] => missing
  | (k, c) :: t => if String.eqb k name then c else loc name t
  end.

Fixpoint set_cell (name : string) (c : C) (r : row) : row :=
  match r with
  | [] => [(name, c)]
  | (k, c0) :: t =>
      if String.eqb k name then (k, c) :: t else (k, c0) :: set_cell name c t
  end.

(** The cells of a column, top to bottom ([df[name]] once the name is
    known to be a column). *)
Definition column_values (name : string) (df : DataFrame) : list C :=
  map (loc name) (rows df).

(** [df[mask]]: the rows at which the mask holds, in their order. *)
Fixpoint select (mask : list bool) (rs : list row) : list row :=
  match mask, rs with
  | true :: m, r :: t => r :: select m t
  | false :: m, _ :: t => select m t
  | _, _ => []
  end.

Definition boolean_index (mask : list bool) (df : DataFrame) : DataFrame :=
  {| columns := columns df; rows := select mask (rows df) |}.

Fixpoint assign_rows (name : string) (vals : list C) (rs : list row)
  : list row :=
  match vals, rs with
  | v :: vs, r :: t => set_cell name v r :: assign_rows name vs t
  | _, _ => []
  end.

(** [df[name] = vals]: overwrites the column when it exists, appends it
    otherwise. *)
Definition assign (name : string) (vals : list C) (df : DataFrame)
  : DataFrame :=
  {| columns := if has_column name df then columns df
                else columns df ++ [name];
     rows := assign_rows name vals (rows df) |}.

(** [df.empty]: no rows or no columns. *)
Definition empty (df : DataFrame) : bool :=
  match rows df, columns df with
  | [], _ => true
  | _, [] => true
  | _, _ => false
  end.

End Frames.

Arguments row : clear implicits.
Arguments DataFrame : clear implicits.

(** The as-parsed table seen as a table of general cells. *)
Definition as_cells (df : DataFrame value) : DataFrame cell :=
  {| columns := columns df;
     rows := map (map (fun kc => (fst kc, Raw (snd kc)))) (rows df) |}.

(* ================================================================== *)
(** ** Series operations *)

Definition is_str (v : value) : bool :=
  match v with
  | Str _ => true
  | _ => false
  end.

Definition is_num (v : value) : bool :=
  match v with
  | Num _ => true
  | _ => false
  end.

Definition is_bool (v : value) : bool :=
  match v with
  | Bool _ => true
  | _ => false
  end.

(** [series.isna()], one cell. *)
Definition isna (v : value) : bool :=
  match v with
  | NaN => true
  | _ => false
  end.

(** [series.notna()], one cell. *)
Definition notna (v : value) : bool :=
  match v with
  | NaN => false
  | _ => true
  end.

(** Whether pandas holds a column as Python objects (dtype object):
    [pd.read_csv] does when some field is text, and when truth values stand
    beside empty fields; a column whose fields are all empty or numbers is
    held as floats or integers, one of truth values only as booleans.  The
    columns of a table without rows are held as objects. *)
Definition is_object (col : list value) : bool :=
  match col with
  | [] => true
  | _ => existsb is_str col || (existsb is_bool col && existsb isna col)
  end.

(** Whether [series.str] exists: on a column of objects that holds a text
    or is empty. *)
Definition has_str (col : list value) : bool :=
  match col with
  | [] => true
  | _ => existsb is_str col
  end.

(** [series.str.lower()], one cell of a text column: a missing value stays
    missing, and so does whatever is not text. *)
Definition str_lower (v : value) : value :=
  match v with
  | Str s => Str (PyStr.lower s)
  | _ => NaN
  end.

(** [series == text], one cell: only that text equals it. *)
Definition eq_text (t : string) (v : value) : bool :=
  match v with
  | Str s => String.eqb s t
  | _ => false
  end.

(** [series == x] for a key [x] taken from a series of keys: NaN equals
    nothing, not even NaN. *)
Definition eq_value (x v : value) : bool :=
  match x, v with
  | Str a, Str b => String.eqb b a
  | _, _ => false
  end.

(** [df['Status'].str.lower() == 'failed'], one cell. *)
Definition is_failed (v : value) : bool := eq_text "failed" (str_lower v).

(** [series + text] on the cells of a column of objects: a missing value
    stays missing; adding a text to a number or to a truth value is a
    TypeError ([None]). *)
Fixpoint add_text (cells : list value) (t : string)
  : option (list (option string)) :=
  match cells with
  | [] => Some []
  | NaN :: r => option_map (cons None) (add_text r t)
  | Str s :: r => option_map (cons (Some (s ++ t)%string)) (add_text r t)
  | _ :: _ => None
  end.

(** [texts + series]: pandas adds where both cells are present and leaves
    the others missing; adding a number or a truth value to a text is a
    TypeError ([None]). *)
Fixpoint add_series (l : list (option string)) (r : list value)
  : option (list value) :=
  match l, r with
  | Some a :: l', Str b :: r' =>
      option_map (cons (Str (a ++ b)%string)) (add_series l' r')
  | Some _ :: _, Num _ :: _ => None
  | Some _ :: _, Bool _ :: _ => None
  | _ :: l', _ :: r' => option_map (cons NaN) (add_series l' r')
  | _, _ => Some []
  end.

(** [dropna] on a column. *)
Definition dropna (l : list value) : list value := filter notna l.

(* ================================================================== *)
(** ** Counting: [value_counts], [nlargest], [get], [groupby(...).size()] *)

(** A series of counts indexed by the values counted: [(key, count)]
    entries in order. *)
Definition counts : Type := list (value * nat).

Definition number_eqb (a b : number) : bool :=
  String.eqb (num_text a) (num_text b) && Bool.eqb (num_zero a) (num_zero b).

Definition value_eqb (a b : value) : bool :=
  match a, b with
  | NaN, NaN => true
  | Str x, Str y => String.eqb x y
  | Num x, Num y => number_eqb x y
  | Bool x, Bool y => Bool.eqb x y
  | _, _ => false
  end.

(** One more occurrence of [k]: a known key is incremented where it stands,
    a new key is appended, so keys stay in order of first appearance. *)
Fixpoint bump (k : value) (acc : counts) : counts :=
  match acc with
  | [] => [(k, 1)]
  | (k', n) :: t =>
      if value_eqb k' k then (k', S n) :: t else (k', n) :: bump k t
  end.

Fixpoint tally_from (acc : counts) (l : list value) : counts :=
  match l with
  | [] => acc
  | k :: t => tally_from (bump k acc) t
  end.

Definition tally (l : list value) : counts := tally_from [] l.

(** Whether entry [x] goes before entry [y] in a descending sort: it does
    when its count is larger; at equal counts the sort decides
    ([prefer]). *)
Definition before (prefer : value * nat -> value * nat -> bool)
           (x y : value * nat) : bool :=
  (snd y <? snd x)%nat || ((snd x =? snd y)%nat && prefer x y).

Fixpoint insert_by (prefer : value * nat -> value * nat -> bool)
         (x : value * nat) (l : counts) : counts :=
  match l with
  | [] => [x]
  | y :: t => if before prefer x y then x :: l else y :: insert_by prefer x t
  end.

(** A descending sort by count: each entry is inserted among those that
    came after it. *)
Definition sort_by (prefer : value * nat -> value * nat -> bool)
           (s : counts) : counts :=
  fold_right (insert_by prefer) [] s.

(** The descending sort of kind mergesort: entries of equal count keep the
    order they had. *)
Definition mergesort_desc (s : counts) : counts :=
  sort_by (fun _ _ => true) s.

(** [counts.get(key, default)] *)
Fixpoint get (k : value) (s : counts) (default : nat) : nat :=
  match s with
  | [] => default
  | (k', n) :: t => if value_eqb k' k then n else get k t default
  end.

(** The day of a timestamp on its own clock: [.dt.date] on one value. *)
Definition ns_per_day : Z := 86400000000000.

Definition date_of (c : cell) : cell :=
  match c with
  | Timestamp ns offset => Date ((ns + offset) / ns_per_day)
  | _ => NaT
  end.

Definition is_datetime (c : cell) : bool :=
  match c with
  | Timestamp _ _ | NaT => true
  | _ => false
  end.

(** The group keys of a column of dates: a missing date has no group. *)
Fixpoint date_keys (col : list cell) : list Z :=
  match col with
  | [] => []
  | Date d :: t => d :: date_keys t
  | _ :: t => date_keys t
  end.

(** One more row on day [d], in a list of day buckets kept in ascending
    order of the day. *)
Fixpoint bump_day (d : Z) (acc : list (Z * nat)) : list (Z * nat) :=
  match acc with
  | [] => [(d, 1)]
  | (d', n) :: t =>
      if (d =? d')%Z then (d', S n) :: t
      else if (d <? d')%Z then (d, 1) :: acc
      else (d', n) :: bump_day d t
  end.

(** [groupby(key).size()] on a column of dates: one bucket per day present,
    ascending. *)
Definition groupby_size (col : list cell) : list (Z * nat) :=
  fold_left (fun acc d => bump_day d acc) (date_keys col) [].

(* ================================================================== *)
(** ** One run of the script: trace and exceptions *)

Inductive exn : Type :=
| ParserError
| NameError (name : string)
| KeyError (name : string)
| IndexError
| AttributeError
| TypeError
| ValueError
| RemoteError.

(** What a run shows or does, in order. *)
Inductive event : Type :=
| Title (s : string)
| Header (s : string)
| Subheader (s : string)
| FileUploader
| Checkbox
| Warning (s : string)
| Info (s : string)
| Dataframe (df : DataFrame value)
| Selectbox (options : list value)
| Button
| Spinner
| Invoke (system human : string)
| Markdown (s : string)
| Metric (label : string) (n : nat)
| PieChart (data : counts)
| BarChart (data : counts)
| LineChart (data : list (Z * nat)).

Definition M (A : Type) : Type := (list event * (exn + A))%type.

Definition ret {A} (a : A) : M A := ([], inr a).

Definition raise {A} (e : exn) : M A := ([], inl e).

Definition emit (ev : event) : M unit := ([ev], inr tt).

Definition bind {A B} (m : M A) (f : A -> M B) : M B :=
  match m with
  | (t, inl e) => (t, inl e)
  | (t, inr a) => let (t', r) := f a in (t ++ t', r)
  end.

Notation "x <- c1 ;; c2" := (bind c1 (fun x => c2))
  (at level 61, c1 at next level, right associativity).
Notation "c1 ;; c2" := (bind c1 (fun _ => c2))
  (at level 61, right associativity).

Definition trace {A} (m : M A) : list event := fst m.
Definition outcome {A} (m : M A) : exn + A := snd m.

(** [df[name]]: KeyError when there is no such column. *)
Definition getitem {C} `{Missing C} (name : string) (df : DataFrame C)
  : M (list C) :=
  if has_column name df then ret (column_values name df)
  else raise (KeyError name).

(** [series.str]: AttributeError when the column has no such accessor. *)
Definition str_accessor (col : list value) : M (list value) :=
  if has_str col then ret col else raise AttributeError.

(** [series.dt.date]: the accessor exists on datetime columns only. *)
Definition dt_date (col : list cell) : M (list cell) :=
  if forallb is_datetime col then ret (map date_of col)
  else raise AttributeError.

(** The result of an addition, TypeError when it is not defined. *)
Definition added {A} (r : option A) : M A :=
  match r with
  | Some a => ret a
  | None => raise TypeError
  end.

(** [bool(x)] and [str(x)] on a cell of the as-parsed table: NaN is a
    non-zero float, so it is true, and it prints as nan. *)
Definition truthy (v : value) : bool :=
  match v with
  | NaN => true
  | Str s => negb (String.eqb s "")
  | Num n => negb (num_zero n)
  | Bool b => b
  end.

Definition py_str (v : value) : string :=
  match v with
  | NaN => "nan"
  | Str s => s
  | Num n => num_text n
  | Bool true => "True"
  | Bool false => "False"
  end.

(** The uploaded file, by what [pd.read_csv] makes of it. *)
Inductive upload : Type :=
| Malformed
| Csv (df : DataFrame value).

Definition read_csv (f : upload) : M (DataFrame value) :=
  match f with
  | Malformed => raise ParserError
  | Csv df => ret df
  end.

(** The state of the widgets during one run. *)
Record widgets : Type := mkWidgets {
  uploaded_file : option upload;
  show_failed_only : bool;
  selection : nat;
  analyze : bool
}.

(** [st.selectbox(label, options)]: the option the user picked, the first
    one by default. *)
Definition selectbox (options : list value) (i : nat) : value :=
  nth i options (hd NaN options).

(* ================================================================== *)
(** ** The script *)

Definition system_prompt : string :=
  "You are an expert Azure Data Factory and Databricks pipeline engineer. Help diagnose pipeline failures and suggest fixes.".

Definition human_prompt (selected_pipeline_key error_text : value) : string :=
  ("This is the error log for pipeline '" ++ py_str selected_pipeline_key
   ++ "':" ++ PyStr.nl ++ PyStr.nl ++ py_str error_text
   ++ PyStr.nl ++ PyStr.nl
   ++ "Please analyze and suggest what went wrong and how to fix it.")%string.

Definition no_status_warning : string := "No 'Status' column found.".
Definition no_error_notice : string :=
  "No error message available for the selected pipeline.".
Definition upload_notice : string := "Please upload a CSV file to get started.".
Definition dashboard_notice : string :=
  "Please upload a CSV file in the 'ADF CSV Analyzer' tab to view dashboard.".
Definition dashboard_warning : string :=
  "Required columns (like 'Status' and 'Pipeline name') not found in the CSV.".

(** What the script's variables hold when a run ends: the shared table [df]
    and the failed subset [failed_df] ([None]: the name is not bound). *)
Record session : Type := mkSession {
  df_final : option (DataFrame cell);
  failed_df_final : option (DataFrame value)
}.

(** A cell of a datetime column, from what the parser reads. *)
Definition datetime_cell (parse : value -> option (Z * Z)) (v : value)
  : cell :=
  match parse v with
  | Some (ns, offset) => Timestamp ns offset
  | None => NaT
  end.

Section Script.

(** The order pandas' default sort gives to entries of equal count: given
    the series being sorted, whether the first entry is put before the
    second.  pandas does not say; it is a parameter of the model. *)
Variable prefers : counts -> value * nat -> value * nat -> bool.

(** [pd.to_datetime(column, errors='coerce')] on a column with rows:
    either the reading pandas settles on for the column, which gives for a
    cell the instant in nanoseconds and the offset of its clock from UTC,
    or [None] for a cell that cannot be read as a date; or the exception
    that stops the run when pandas cannot hold the result as one column of
    datetimes (rows whose clocks differ).  The parser is a parameter of the
    model. *)
Variable to_datetime : list value -> exn + (value -> option (Z * Z)).

(** [model.invoke(messages).content], [None] when the call raises. *)
Variable model_invoke : string -> string -> option string.

(** [series.sort_values(ascending=False)] with the default kind. *)
Definition sort_values (s : counts) : counts := sort_by (prefers s) s.

(** [series.value_counts()]: missing values dropped, one entry per distinct
    value, by descending count. *)
Definition value_counts (col : list value) : counts :=
  sort_values (tally (dropna col)).

(** [counts.nlargest(n)] with the default [keep='first']: when [n] covers
    the series pandas sorts it as above and cuts; otherwise it takes the
    [n] largest with a mergesort, the earlier entry first among equal
    counts. *)
Definition nlargest (n : nat) (s : counts) : counts :=
  if (List.length s <=? n)%nat then firstn n (sort_values s)
  else firstn n (mergesort_desc s).

(** Line 143's right-hand side; a column without rows converts to a
    datetime column without rows. *)
Definition to_datetime_coerce (col : list value) : M (list cell) :=
  match col with
  | [] => ret []
  | _ :: _ =>
      match to_datetime col with
      | inl e => raise e
      | inr parse => ret (map (datetime_cell parse) col)
      end
  end.

(** Lines 38-46: the table to display, and the binding of [failed_df]. *)
Definition failure_filter (toggle : bool) (df : DataFrame value)
  : M (DataFrame value * option (DataFrame value)) :=
  if toggle then
    if has_column "Status" df then
      status <- getitem "Status" df ;;
      text <- str_accessor status ;;
      let failed_df := boolean_index (map is_failed text) df in
      ret (failed_df, Some failed_df)
    else
      emit (Warning no_status_warning) ;;
      ret (df, None)
  else ret (df, None).

(** Lines 66-79: the button and what a click does. *)
Definition analyze_button (w : widgets)
           (selected_pipeline_key error_text : value) : M unit :=
  emit Button ;;
  if analyze w then
    if negb (truthy error_text)
       || String.eqb (PyStr.strip (py_str error_text)) ""
    then emit (Info no_error_notice)
    else
      emit Spinner ;;
      emit (Invoke system_prompt
                   (human_prompt selected_pipeline_key error_text)) ;;
      match model_invoke system_prompt
              (human_prompt selected_pipeline_key error_text) with
      | None => raise RemoteError
      | Some content =>
          emit (Subheader "AI Suggestions") ;;
          emit (Markdown content)
      end
  else ret tt.

(** The right-hand side of line 57, left to right.  [failed_df] has the
    column types of [df], of which it is a selection of rows: its name
    column is held as objects when that of [df] is.  Adding the separator
    to a column that is not held as objects, or to a cell that is a number
    or a truth value, is a TypeError, raised before the Run start column
    is read. *)
Definition derive_keys (df failed_df : DataFrame value) : M (list value) :=
  name <- getitem "Pipeline name" failed_df ;;
  named <- added (if is_object (column_values "Pipeline name" df)
                  then add_text name " - " else None) ;;
  run_start <- getitem "Run start" failed_df ;;
  added (add_series named run_start).

(** Lines 54-79: key derivation, selection and diagnosis on a non-empty
    failed subset of [df]; returns [failed_df] with its new column. *)
Definition diagnose (w : widgets) (df failed_df : DataFrame value)
  : M (DataFrame value) :=
  emit (Subheader "Ask AI to Debug a Failed Pipeline") ;;
  key <- derive_keys df failed_df ;;
  let failed_df := assign "PipelineKey" key failed_df in
  pipeline_keys <- getitem "PipelineKey" failed_df ;;
  emit (Selectbox pipeline_keys) ;;
  let selected_pipeline_key := selectbox pipeline_keys (selection w) in
  keys <- getitem "PipelineKey" failed_df ;;
  let selected_row :=
    boolean_index (map (eq_value selected_pipeline_key) keys) failed_df in
  (if negb (empty selected_row) then
     errors <- getitem "Error" selected_row ;;
     match errors with
     | [] => raise IndexError
     | error_text :: _ => analyze_button w selected_pipeline_key error_text
     end
   else ret tt) ;;
  ret failed_df.

(** Line 53: the condition reads [failed_df] only when the toggle is on. *)
Definition ask_ai (w : widgets) (df : DataFrame value)
           (failed_df : option (DataFrame value))
  : M (option (DataFrame value)) :=
  if show_failed_only w then
    match failed_df with
    | None => raise (NameError "failed_df")
    | Some fd =>
        if negb (empty fd) then
          fd' <- diagnose w df fd ;; ret (Some fd')
        else ret (Some fd)
    end
  else ret failed_df.

(** Lines 27-82. Returns the bindings of [df] and [failed_df]. *)
Definition tab1 (w : widgets)
  : M (option (DataFrame value) * option (DataFrame value)) :=
  emit (Header "ADF CSV Analyzer") ;;
  emit FileUploader ;;
  match uploaded_file w with
  | Some f =>
      df <- read_csv f ;;
      emit Checkbox ;;
      shown <- failure_filter (show_failed_only w) df ;;
      emit (Subheader "Pipeline Execution Logs") ;;
      emit (Dataframe (fst shown)) ;;
      failed_df <- ask_ai w df (snd shown) ;;
      ret (Some df, failed_df)
  | None =>
      emit (Info upload_notice) ;;
      ret (None, None)
  end.

(** Lines 98-104. *)
Definition key_metrics (df : DataFrame value) : M unit :=
  status <- getitem "Status" df ;;
  text <- str_accessor status ;;
  let status_counts := value_counts (map str_lower text) in
  emit (Metric "Succeeded" (get (Str "succeeded") status_counts 0)) ;;
  emit (Metric "Failed" (get (Str "failed") status_counts 0)) ;;
  emit (Metric "In Progress" (get (Str "inprogress") status_counts 0)) ;;
  emit (Metric "Queued" (get (Str "queued") status_counts 0)).

(** Lines 124-129. *)
Definition top_failing (df : DataFrame value) : M counts :=
  status <- getitem "Status" df ;;
  text <- str_accessor status ;;
  name <- getitem "Pipeline name"
            (boolean_index (map is_failed text) df) ;;
  ret (nlargest 5 (value_counts name)).

(** Lines 107-139. *)
Definition run_summary (df : DataFrame value) : M unit :=
  if has_column "Status" df && has_column "Pipeline name" df then
    emit (Subheader "Pipeline Run Summary") ;;
    status <- getitem "Status" df ;;
    emit (PieChart (value_counts status)) ;;
    failed_counts <- top_failing df ;;
    emit (BarChart failed_counts)
  else ret tt.

(** Lines 143-145: the two column writes on [df] and the day buckets. *)
Definition daily_runs (df : DataFrame value)
  : M (DataFrame cell * list (Z * nat)) :=
  run_start <- getitem "Run start" df ;;
  parsed <- to_datetime_coerce run_start ;;
  let df := assign "Run start" parsed (as_cells df) in
  run_start <- getitem "Run start" df ;;
  date <- dt_date run_start ;;
  let df := assign "Date" date df in
  key <- getitem "Date" df ;;
  ret (df, groupby_size key).

(** Lines 142-157. *)
Definition runs_over_time (df : DataFrame value) : M (DataFrame cell) :=
  if has_column "Run start" df then
    r <- daily_runs df ;;
    emit (Subheader "Pipeline Runs Over Time (Line Chart)") ;;
    emit (LineChart (snd r)) ;;
    ret (fst r)
  else ret (as_cells df).

(** Lines 85-157. Returns the binding of [df] after the tab. *)
Definition tab2 (w : widgets) (df : option (DataFrame value))
  : M (option (DataFrame cell)) :=
  emit (Header "Pipeline Dashboard") ;;
  match uploaded_file w with
  | None =>
      emit (Info dashboard_notice) ;;
      ret (option_map as_cells df)
  | Some _ =>
      match df with
      | None => raise (NameError "df")
      | Some df =>
          if negb (has_column "Status" df)
             || negb (has_column "Pipeline name" df)
          then
            emit (Warning dashboard_warning) ;;
            ret (Some (as_cells df))
          else
            emit (Subheader "Key Metrics") ;;
            key_metrics df ;;
            run_summary df ;;
            df' <- runs_over_time df ;;
            ret (Some df')
      end
  end.

(** The whole script, lines 20-174 (the text of the About tab is cut to
    its first words). *)
Definition app (w : widgets) : M session :=
  emit (Title "Azure Data Factory Toolkit") ;;
  frames <- tab1 w ;;
  df <- tab2 w (fst frames) ;;
  emit (Header "About This App") ;;
  emit (Markdown "ADF Logs Viewer") ;;
  emit (Header "Active Failures") ;;
  ret {| df_final := df; failed_df_final := snd frames |}.

End Script.

Arguments has_column : simpl never.
Arguments value_counts : simpl never.
Arguments nlargest : simpl never.
Arguments sort_values : simpl never.
Arguments groupby_size : simpl never.

(* ================================================================== *)
(** ** Sample inputs *)

Module Sample.

(** A reader of dates for the examples.  It reads the ISO 8601 forms
    [2025-06-10], [2025-06-10T23:30:00] and [2025-06-10T23:30:00-05:00];
    the form of a column is that of its first text, and a cell in another
    form is not a date. *)
Fixpoint digits (s : string) (acc : Z) : option Z :=
  match s with
  | EmptyString => Some acc
  | String c t =>
      let n := nat_of_ascii c in
      if ((48 <=? n) && (n <=? 57))%nat
      then digits t (10 * acc + Z.of_nat (n - 48))
      else None
  end.

(** The number written at [start], [len] digits long. *)
Definition field (s : string) (start len : nat) : option Z :=
  let t := substring start len s in
  if (String.length t =? len)%nat then digits t 0 else None.

Definition sign (s : string) (at_ : nat) : option Z :=
  match String.get at_ s with
  | Some "+"%char => Some 1%Z
  | Some "-"%char => Some (-1)%Z
  | _ => None
  end.

Definition is_char (s : string) (at_ : nat) (c : ascii) : bool :=
  match String.get at_ s with
  | Some c' => Ascii.eqb c' c
  | None => false
  end.

(** Days from 1970-01-01 to a date of the Gregorian calendar. *)
Definition days_from_civil (y m d : Z) : Z :=
  let y' := if (m <=? 2)%Z then (y - 1)%Z else y in
  let era := (y' / 400)%Z in
  let yoe := (y' - era * 400)%Z in
  let mp := ((m + 9) mod 12)%Z in
  let doy := ((153 * mp + 2) / 5 + d - 1)%Z in
  let doe := (yoe * 365 + yoe / 4 - yoe / 100 + doy)%Z in
  (era * 146097 + doe - 719468)%Z.

Definition within (lo x hi : Z) : bool := ((lo <=? x) && (x <=? hi))%Z.

(** The day a text begins with. *)
Definition read_date (s : string) : option Z :=
  match field s 0 4, field s 5 2, field s 8 2 with
  | Some y, Some m, Some d =>
      if is_char s 4 "-" && is_char s 7 "-" && within 1 m 12 && within 1 d 31
      then Some (days_from_civil y m d)
      else None
  | _, _, _ => None
  end.

(** The time of day in seconds, written from position 10 on. *)
Definition read_time (s : string) : option Z :=
  match field s 11 2, field s 14 2, field s 17 2 with
  | Some h, Some m, Some sec =>
      if is_char s 10 "T" && is_char s 13 ":" && is_char s 16 ":"
         && within 0 h 23 && within 0 m 59 && within 0 sec 59
      then Some (h * 3600 + m * 60 + sec)%Z
      else None
  | _, _, _ => None
  end.

(** The offset from UTC in seconds, written from position 19 on. *)
Definition read_offset (s : string) : option Z :=
  match sign s 19, field s 20 2, field s 23 2 with
  | Some sg, Some h, Some m =>
      if is_char s 22 ":" && within 0 h 23 && within 0 m 59
      then Some (sg * (h * 3600 + m * 60))%Z
      else None
  | _, _, _ => None
  end.

Definition second : Z := 1000000000.

(** One text in the form of the given length: the instant and the offset,
    in nanoseconds. *)
Definition read (form : nat) (s : string) : option (Z * Z) :=
  if negb (String.length s =? form)%nat then None
  else
    match form with
    | 10 => option_map (fun d => ((d * 86400) * second, 0))%Z (read_date s)
    | 19 =>
        match read_date s, read_time s with
        | Some d, Some t => Some ((d * 86400 + t) * second, 0)%Z
        | _, _ => None
        end
    | 25 =>
        match read_date s, read_time s, read_offset s with
        | Some d, Some t, Some o =>
            Some ((d * 86400 + t - o) * second, o * second)%Z
        | _, _, _ => None
        end
    | _ => None
    end.

(** The length of the first text of a column. *)
Fixpoint form_of (col : list value) : nat :=
  match col with
  | [] => 0
  | Str s :: _ => String.length s
  | _ :: t => form_of t
  end.

Definition parse (col : list value) (v : value) : option (Z * Z) :=
  match v with
  | Str s => read (form_of col) s
  | _ => None
  end.

Definition to_datetime (col : list value)
  : exn + (value -> option (Z * Z)) :=
  inr (parse col).

Definition model_invoke (system human : string) : option string :=
  Some "Check the linked service credentials.".

(** Among entries of equal count, the one met later goes first. *)
Definition later_first (s : counts) (x y : value * nat) : bool := false.

(** Among entries of equal count, the one met first goes first. *)
Definition first_met (s : counts) (x y : value * nat) : bool := true.

(** Among entries of equal count, the greater name goes first. *)
Definition name_descending (s : counts) (x y : value * nat) : bool :=
  match fst x, fst y with
  | Str a, Str b => String.ltb b a
  | _, _ => false
  end.

Definition header : list string :=
  ["Pipeline name"; "Run start"; "Status"; "Error"].

Definition record (name run_start status error : value) : row value :=
  [("Pipeline name", name); ("Run start", run_start);
   ("Status", status); ("Error", error)].

Definition table (rs : list (row value)) : DataFrame value :=
  {| columns := header; rows := rs |}.

(** Three failed runs (one without error text, one with blank error
    text), one succeeded run, one run whose start is not a date. *)
Definition logs : DataFrame value :=
  table [ record (Str "copy_sales") (Str "2025-06-10") (Str "Failed") NaN;
          record (Str "load_dim") (Str "2025-06-10") (Str "Succeeded") NaN;
          record (Str "copy_sales") (Str "soon") (Str "FAILED")
                 (Str "Timeout expired");
          record (Str "load_fact") (Str "2025-06-11") (Str "failed")
                 (Str "   ");
          record (Str "load_dim") (Str "2025-06-11") (Str "Queued") NaN ].

(** A table with no Status column. *)
Definition no_status : DataFrame value :=
  {| columns := ["Pipeline name"; "Run start"];
     rows := [ [("Pipeline name", Str "copy_sales");
                ("Run start", Str "2025-06-10")] ] |}.

(** A table whose rows have the given statuses. *)
Definition of_statuses (l : list string) : DataFrame value :=
  table (map (fun s => record (Str "p") (Str "2025-06-10") (Str s) NaN) l).

(** A table of failed runs of the given pipelines. *)
Definition of_failures (l : list string) : DataFrame value :=
  table (map (fun n => record (Str n) (Str "2025-06-10") (Str "Failed")
                              (Str "boom")) l).

Definition press (df : DataFrame value) (i : nat) : widgets :=
  {| uploaded_file := Some (Csv df); show_failed_only := true;
     selection := i; analyze := true |}.

(** A run on a file that is not CSV. *)
Definition broken : widgets :=
  {| uploaded_file := Some Malformed; show_failed_only := false;
     selection := 0; analyze := false |}.

Definition view (df : DataFrame value) (toggle : bool) : widgets :=
  {| uploaded_file := Some (Csv df); show_failed_only := toggle;
     selection := 0; analyze := false |}.

End Sample.

(** Further inputs for the edge cases. *)
Module Cases.

(** Nothing uploaded; the other widgets hold values left from before. *)
Definition idle : widgets :=
  {| uploaded_file := None; show_failed_only := true;
     selection := 3; analyze := true |}.

(** A table with no Run start column. *)
Definition summary_only : DataFrame value :=
  {| columns := ["Pipeline name"; "Status"];
     rows := [ [("Pipeline name", Str "copy_sales"); ("Status", Str "Failed")];
               [("Pipeline name", Str "load_dim");
                ("Status", Str "Succeeded")] ] |}.

(** A failed run whose start is missing, above one that has it. *)
Definition unstarted : DataFrame value :=
  Sample.table
    [ Sample.record (Str "copy_sales") NaN (Str "Failed") (Str "boom");
      Sample.record (Str "load_dim") (Str "2025-06-11") (Str "Failed")
                    (Str "Timeout expired") ].

(** A table of failed runs with no Error column. *)
Definition no_error : DataFrame value :=
  {| columns := ["Pipeline name"; "Run start"; "Status"];
     rows := [ [("Pipeline name", Str "copy_sales");
                ("Run start", Str "2025-06-10"); ("Status", Str "Failed")] ] |}.

(** A table whose Status fields are all empty: pandas holds the column as
    floats. *)
Definition blank_status : DataFrame value :=
  Sample.table
    [ Sample.record (Str "copy_sales") (Str "2025-06-10") NaN (Str "boom");
      Sample.record (Str "load_dim") (Str "2025-06-11") NaN NaN ].

(** A failed run whose start is written as a number. *)
Definition numeric_start : DataFrame value :=
  Sample.table
    [ Sample.record (Str "copy_sales")
                    (Num {| num_text := "20250610"; num_zero := false |})
                    (Str "Failed") (Str "boom") ].

(** Failed runs whose Pipeline name fields are all empty. *)
Definition unnamed : DataFrame value :=
  {| columns := ["Pipeline name"; "Status"; "Error"];
     rows := [ [("Pipeline name", NaN); ("Status", Str "Failed");
                ("Error", Str "boom")] ] |}.

(** The same with no Status filter needed: unnamed failed runs that have
    a start. *)
Definition unnamed_started : DataFrame value :=
  Sample.table
    [ Sample.record NaN (Str "2025-06-10") (Str "Failed") (Str "boom") ].

(** A failed run whose error text is one no-break space (U+00A0) and an
    em space (U+2003). *)
Definition spaced : DataFrame value :=
  Sample.table
    [ Sample.record (Str "copy_sales") (Str "2025-06-10") (Str "Failed")
        (Str (String "194" (String "160" (String "226" (String "128"
               (String "131" EmptyString)))))) ].

(** Failed runs whose Error column holds numbers, the first one zero. *)
Definition zero_error : DataFrame value :=
  Sample.table
    [ Sample.record (Str "copy_sales") (Str "2025-06-10") (Str "Failed")
                    (Num {| num_text := "0"; num_zero := true |});
      Sample.record (Str "load_dim") (Str "2025-06-11") (Str "Failed")
                    (Num {| num_text := "137"; num_zero := false |}) ].

(** Runs late in the evening on a clock five hours behind UTC, and one
    just after midnight. *)
Definition evening : DataFrame value :=
  Sample.table
    [ Sample.record (Str "copy_sales") (Str "2025-06-10T23:30:00-05:00")
                    (Str "Succeeded") NaN;
      Sample.record (Str "load_dim") (Str "2025-06-10T19:00:00-05:00")
                    (Str "Succeeded") NaN;
      Sample.record (Str "load_fact") (Str "2025-06-11T00:15:00-05:00")
                    (Str "Failed") (Str "boom") ].

(** Failures of four pipelines, two of them failing twice. *)
Definition tied : DataFrame value :=
  Sample.of_failures ["C"; "D"; "A"; "B"; "C"; "D"].

(** A model that cannot be reached. *)
Definition offline (system human : string) : option string := None.

(** A parser that rejects every column. *)
Definition rejecting (col : list value) : exn + (value -> option (Z * Z)) :=
  inl ValueError.

End Cases.

(* ================================================================== *)
(** ** Notions the statements use *)

(** [after t m]: the events [t], then the run [m]. *)
Definition after {A} (t : list event) (m : M A) : M A :=
  (t ++ fst m, snd m).

(** The failed subset of a table: the rows whose status, lowercased, is
    the text failed, in the order of the table. *)
Definition failed_rows (df : DataFrame value) : list (row value) :=
  filter (fun r => is_failed (loc "Status" r)) (rows df).

Definition failed_subset (df : DataFrame value) : DataFrame value :=
  {| columns := columns df; rows := failed_rows df |}.

(** A run completes when no exception stops it. *)
Definition completes {A} (m : M A) : Prop := exists a, outcome m = inr a.

(** A trace reports a condition when it shows a warning or a notice. *)
Definition reported (t : list event) : Prop :=
  exists msg, In (Warning msg) t \/ In (Info msg) t.

(** The key of a row as the specification words it: name, separator and
    run start as read from the file; there is no key when one of the two
    is missing. *)
Definition pipeline_key (r : row value) : value :=
  match loc "Pipeline name" r, loc "Run start" r with
  | Str name, Str run_start => Str (name ++ " - " ++ run_start)
  | _, _ => NaN
  end.

(** The rows on which the two additions of line 57 are defined: the name
    is a text or missing, and a named row has no number and no truth value
    for its run start. *)
Definition addable (r : row value) : bool :=
  match loc "Pipeline name" r, loc "Run start" r with
  | NaN, _ => true
  | Str _, NaN => true
  | Str _, Str _ => true
  | _, _ => false
  end.

(** The tables on whose failed subset [fd] line 57 raises nothing: the
    name column is held as objects and every row of the subset is
    addable. *)
Definition derivable (df fd : DataFrame value) : bool :=
  is_object (column_values "Pipeline name" df) && forallb addable (rows fd).

(** The failed subset once line 57 has written its column. *)
Definition with_keys (fd : DataFrame value) : DataFrame value :=
  assign "PipelineKey" (map pipeline_key (rows fd)) fd.

(** Resolution as the specification words it: the first row, in table
    order, whose key is the selected one. *)
Definition resolve (selected : value) (fd : DataFrame value)
  : option (row value) :=
  find (fun r => eq_value selected (pipeline_key r)) (rows fd).

(** The error texts for which line 67 shows the notice: a text of
    whitespace only (the empty text too), the number zero, the truth value
    False.  A missing error text is not among them. *)
Definition unusable (error_text : value) : bool :=
  match error_text with
  | NaN => false
  | Str s => PyStr.all_space s
  | Num n => num_zero n || PyStr.all_space (num_text n)
  | Bool b => negb b
  end.

Definition is_invoke (ev : event) : bool :=
  match ev with Invoke _ _ => true | _ => false end.

Definition is_notice (ev : event) : bool :=
  match ev with Info _ => true | _ => false end.

(** The number of remote calls, and of notices, in a trace. *)
Definition invocations (t : list event) : nat :=
  List.length (filter is_invoke t).

Definition notices (t : list event) : nat :=
  List.length (filter is_notice t).

Definition is_selectbox (ev : event) : bool :=
  match ev with Selectbox _ => true | _ => false end.

Definition is_button (ev : event) : bool :=
  match ev with Button => true | _ => false end.

(** The selector, and the analyze button, appear in a trace. *)
Definition selector_offered (t : list event) : bool := existsb is_selectbox t.

Definition button_offered (t : list event) : bool := existsb is_button t.

(** A cell counts for the key [k] when it is present and equal to it. *)
Definition counted (k v : value) : bool := notna v && value_eqb v k.

(** The position of the first occurrence of a key in a list. *)
Fixpoint first_index (k : value) (l : list value) : nat :=
  match l with
  | [] => 0
  | x :: t => if value_eqb x k then 0 else S (first_index k t)
  end.

(** The order the specification asks of the ranking: a larger count first;
    at equal counts, the name met first in [names] first. *)
Definition ranks_before (names : list value) (a b : value * nat) : Prop :=
  snd b < snd a
  \/ (snd a = snd b /\ first_index (fst a) names < first_index (fst b) names).

(** The number of rows whose status, lowercased, is the text [k]. *)
Definition status_count (k : string) (df : DataFrame value) : nat :=
  List.length
    (filter (fun r => eq_text k (str_lower (loc "Status" r))) (rows df)).

(** The names of the failed rows, in table order. *)
Definition failure_names (df : DataFrame value) : list value :=
  map (loc "Pipeline name") (failed_rows df).



(** What the clock of a run showed at its start, in nanoseconds since
    1970-01-01 00:00 on that clock. *)
Definition wall_clock (reading : option (Z * Z)) : option Z :=
  option_map (fun r => (fst r + snd r)%Z) reading.


(** The calendar day of a clock reading. *)
Definition calendar_day (reading : option Z) : cell :=
  match reading with
  | Some t => Date (t / (86400 * 1000000000))
  | None => NaT
  end.


(** The reading pandas settles on for a column is [parse]: the conversion
    of the column raises nothing. *)
Definition reads (to_datetime : list value -> exn + (value -> option (Z * Z)))
           (col : list value) (parse : value -> option (Z * Z)) : Prop :=
  col = [] \/ to_datetime col = inr parse.

Section DailyNotions.

Variable parse : value -> option (Z * Z).

(** The clock reading of a row's run start, if the run start can be
    parsed. *)
Definition run_time (r : row value) : option Z :=
  wall_clock (parse (loc "Run start" r)).



(** The table after lines 143-144. *)
Definition converted (df : DataFrame value) : DataFrame cell :=
  let parsed := map (datetime_cell parse) (column_values "Run start" df) in
  assign "Date" (map date_of parsed)
         (assign "Run start" parsed (as_cells df)).

(** The day buckets of a table. *)
Definition day_buckets (df : DataFrame value) : list (Z * nat) :=
  groupby_size
    (map date_of (map (datetime_cell parse) (column_values "Run start" df))).

End DailyNotions.

(* ================================================================== *)
(** ** Python strings *)

Lemma pieces_nonempty (n : nat) (s : string) :
  String.length s <= n ->
  Forall (fun p => snd p <> EmptyString) (PyStr.pieces s).
Proof.
  revert s. induction n as [|n IH]; intros s Hlen.
  - destruct s; [constructor | simpl in Hlen; lia].
  - destruct s as [|a t]; [constructor|]. simpl in Hlen. simpl.
    destruct (PyStr.is_space a).
    { constructor; [discriminate | apply IH; lia]. }
    destruct t as [|b t2].
    { constructor; [discriminate | constructor]. }
    destruct (PyStr.is_space2 a b).
    { constructor; [discriminate | apply IH; simpl in Hlen; lia]. }
    destruct t2 as [|c t3].
    { constructor; [discriminate | apply IH; simpl in *; lia]. }
    destruct (PyStr.is_space3 a b c).
    { constructor; [discriminate | apply IH; simpl in *; lia]. }
    constructor; [discriminate | apply IH; simpl in *; lia].
Qed.

Lemma join_empty (l : list (bool * string)) :
  Forall (fun p => snd p <> EmptyString) l ->
  PyStr.join l = EmptyString -> l = [].
Proof.
  destruct l as [|[b p] t]; [reflexivity|].
  intros Hall Hj. inversion Hall as [|x l' Hp _]; subst. simpl in Hp.
  simpl in Hj. destruct p; [congruence | discriminate Hj].
Qed.

Lemma drop_spaces_all (l : list (bool * string)) :
  PyStr.drop_spaces l = [] <-> forallb fst l = true.
Proof.
  induction l as [|[b p] t IH]; simpl; [tauto|].
  destruct b; simpl; [exact IH|]. split; discriminate.
Qed.

Lemma drop_spaces_Forall (P : bool * string -> Prop)
      (l : list (bool * string)) :
  Forall P l -> Forall P (PyStr.drop_spaces l).
Proof.
  induction 1 as [|[b p] t Hp Ht IH]; simpl; [constructor|].
  destruct b; [exact IH | constructor; assumption].
Qed.

Lemma drop_spaces_head (l : list (bool * string)) :
  match PyStr.drop_spaces l with
  | [] => True
  | p :: _ => fst p = false
  end.
Proof.
  induction l as [|[b p] t IH]; simpl; [exact I|].
  destruct b; [exact IH | reflexivity].
Qed.

Lemma forallb_rev {A} (f : A -> bool) (l : list A) :
  forallb f (rev l) = forallb f l.
Proof.
  induction l as [|x t IH]; simpl; [reflexivity|].
  rewrite forallb_app, IH. simpl. rewrite andb_true_r. apply andb_comm.
Qed.

(** [strip] leaves the empty text exactly when the text holds whitespace
    only. *)
Lemma strip_empty_iff (s : string) :
  PyStr.strip s = "" <-> PyStr.all_space s = true.
Proof.
  unfold PyStr.strip, PyStr.all_space.
  pose proof (pieces_nonempty (String.length s) s (le_n _)) as Hne.
  split.
  - intros Hj. apply join_empty in Hj.
    + assert (Hr : PyStr.drop_spaces (rev (PyStr.drop_spaces (PyStr.pieces s)))
                   = []).
      { rewrite <- (rev_involutive (PyStr.drop_spaces _)), Hj. reflexivity. }
      apply drop_spaces_all in Hr. rewrite forallb_rev in Hr.
      pose proof (drop_spaces_head (PyStr.pieces s)) as Hh.
      destruct (PyStr.drop_spaces (PyStr.pieces s)) as [|[b p] t] eqn:E.
      * apply drop_spaces_all. exact E.
      * simpl in Hh, Hr. subst b. discriminate Hr.
    + apply Forall_rev, drop_spaces_Forall, Forall_rev, drop_spaces_Forall.
      exact Hne.
  - intros Hall. apply drop_spaces_all in Hall. rewrite Hall. reflexivity.
Qed.

Lemma strip_eqb (s : string) :
  String.eqb (PyStr.strip s) "" = PyStr.all_space s.
Proof.
  destruct (String.eqb_spec (PyStr.strip s) "") as [E|E].
  - symmetry. apply strip_empty_iff. exact E.
  - destruct (PyStr.all_space s) eqn:Ha; [|reflexivity].
    apply strip_empty_iff in Ha. congruence.
Qed.

Lemma all_space_empty_text (s : string) :
  s = "" -> PyStr.all_space s = true.
Proof. intros ->. reflexivity. Qed.

(** The whitespace characters, byte by byte: the one-byte ones among all
    bytes, the two-byte ones among all pairs of bytes, the three-byte ones
    among all three-byte sequences of UTF-8. *)
Example whitespace_of_one_byte :
  filter (fun n => PyStr.is_space (ascii_of_nat n)) (seq 0 256)
  = [9; 10; 11; 12; 13; 28; 29; 30; 31; 32].
Proof. vm_compute. reflexivity. Qed.

Example whitespace_of_two_bytes :
  flat_map
    (fun a =>
       map (fun b => (a, b))
           (filter (fun b => PyStr.is_space2 (ascii_of_nat a)
                                             (ascii_of_nat b))
                   (seq 0 256)))
    (seq 0 256)
  = [(194, 133); (194, 160)].
Proof. vm_compute. reflexivity. Qed.

Example whitespace_of_three_bytes :
  flat_map
    (fun a =>
       flat_map
         (fun b =>
            map (fun c => (a, b, c))
                (filter (fun c => PyStr.is_space3 (ascii_of_nat a)
                                                  (ascii_of_nat b)
                                                  (ascii_of_nat c))
                        (seq 128 64)))
         (seq 128 64))
    (seq 224 16)
  = [(225, 154, 128);
     (226, 128, 128); (226, 128, 129); (226, 128, 130); (226, 128, 131);
     (226, 128, 132); (226, 128, 133); (226, 128, 134); (226, 128, 135);
     (226, 128, 136); (226, 128, 137); (226, 128, 138);
     (226, 128, 168); (226, 128, 169); (226, 128, 175);
     (226, 129, 159); (227, 128, 128)].
Proof. vm_compute. reflexivity. Qed.

(** [strip] removes whitespace at both ends only; the zero-width space
    (U+200B) is not whitespace. *)
Example strip_both_ends :
  PyStr.strip
    (String "009" (String "194" (String "160" (String " "
       (String "a" (String " " (String "227" (String "128" (String "128"
          (String "b" (String "226" (String "128" (String "131"
             (String "010" EmptyString))))))))))))))
  = String "a" (String " " (String "227" (String "128" (String "128"
      (String "b" EmptyString)))))
  /\ PyStr.all_space (String "226" (String "128" (String "139" EmptyString)))
     = false
  /\ PyStr.strip "" = ""
  /\ PyStr.strip "  Timeout expired  " = "Timeout expired".
Proof. repeat split. Qed.

Example lower_letters :
  PyStr.lower "ABCDEFGHIJKLMNOPQRSTUVWXYZ @[`{ az09"
  = "abcdefghijklmnopqrstuvwxyz @[`{ az09".
Proof. reflexivity. Qed.

(** How [pd.read_csv] holds columns: an empty one, fields all empty,
    numbers, numbers beside empty fields, truth values, truth values
    beside empty fields, texts beside empty fields. *)
Example column_types :
  map is_object
      [ [];
        [NaN; NaN];
        [Num {| num_text := "1"; num_zero := false |}];
        [Num {| num_text := "1.0"; num_zero := false |}; NaN];
        [Bool true; Bool false];
        [Bool true; NaN];
        [Str "a"; NaN] ]
  = [true; false; false; false; false; true; true]
  /\ map has_str
         [ [];
           [NaN; NaN];
           [Num {| num_text := "1"; num_zero := false |}];
           [Num {| num_text := "1.0"; num_zero := false |}; NaN];
           [Bool true; Bool false];
           [Bool true; NaN];
           [Str "a"; NaN] ]
     = [true; false; false; false; false; false; true].
Proof. split; reflexivity. Qed.

(* ================================================================== *)
(** ** Values *)

Lemma number_eqb_eq (a b : number) : number_eqb a b = true <-> a = b.
Proof.
  destruct a as [ta za], b as [tb zb]. unfold number_eqb. simpl.
  rewrite andb_true_iff, String.eqb_eq, Bool.eqb_true_iff.
  split; [intros [-> ->]; reflexivity | intros [= -> ->]; auto].
Qed.

Lemma value_eqb_eq (a b : value) : value_eqb a b = true <-> a = b.
Proof.
  destruct a as [|x|x|x], b as [|y|y|y]; simpl;
    try (split; [discriminate | intros E; discriminate E]);
    try tauto.
  - rewrite String.eqb_eq. split; [intros ->; reflexivity | intros [= ->]; auto].
  - rewrite number_eqb_eq. split; [intros ->; reflexivity | intros [= ->]; auto].
  - rewrite Bool.eqb_true_iff.
    split; [intros ->; reflexivity | intros [= ->]; auto].
Qed.

Lemma value_eqb_refl (a : value) : value_eqb a a = true.
Proof. apply value_eqb_eq. reflexivity. Qed.

Lemma value_eqb_neq (a b : value) : value_eqb a b = false <-> a <> b.
Proof.
  rewrite <- value_eqb_eq. destruct (value_eqb a b); split; congruence.
Qed.

Lemma value_eqb_sym (a b : value) : value_eqb a b = value_eqb b a.
Proof.
  destruct (value_eqb a b) eqn:E.
  - apply value_eqb_eq in E. subst. symmetry. apply value_eqb_refl.
  - symmetry. apply value_eqb_neq. apply value_eqb_neq in E. congruence.
Qed.

Lemma counted_text (s : string) (v : value) :
  counted (Str s) v = eq_text s v.
Proof. destruct v; reflexivity. Qed.

Section FrameFacts.

Context {C : Type} `{Missing C}.

Lemma select_map (f : row C -> bool) (rs : list (row C)) :
  select (map f rs) rs = filter f rs.
Proof.
  induction rs as [|r t IH]; simpl; [reflexivity|].
  destruct (f r); rewrite IH; reflexivity.
Qed.

(** A mask computed from one column selects the rows the test accepts. *)
Lemma boolean_index_column (g : C -> bool) (name : string)
      (df : DataFrame C) :
  boolean_index (map g (column_values name df)) df
  = {| columns := columns df;
       rows := filter (fun r => g (loc name r)) (rows df) |}.
Proof.
  unfold boolean_index, column_values. rewrite map_map, select_map.
  reflexivity.
Qed.

Lemma loc_set_cell (name : string) (c : C) (r : row C) :
  loc name (set_cell name c r) = c.
Proof.
  induction r as [|[k c0] t IH]; simpl.
  - rewrite String.eqb_refl. reflexivity.
  - destruct (String.eqb k name) eqn:E; simpl; rewrite E; auto.
Qed.

Lemma loc_set_cell_other (name other : string) (c : C) (r : row C) :
  other <> name -> loc other (set_cell name c r) = loc other r.
Proof.
  intros Hne. induction r as [|[k c0] t IH]; simpl.
  - destruct (String.eqb_spec name other); [congruence | reflexivity].
  - destruct (String.eqb_spec k name) as [->|Hk]; simpl.
    + destruct (String.eqb_spec name other); [congruence | reflexivity].
    + rewrite IH. reflexivity.
Qed.

Lemma assign_rows_map (name : string) (f : row C -> C) (rs : list (row C)) :
  assign_rows name (map f rs) rs
  = map (fun r => set_cell name (f r) r) rs.
Proof.
  induction rs as [|r t IH]; simpl; [reflexivity|]. rewrite IH. reflexivity.
Qed.

(** Reading a column back after it has been written from a per-row
    computation. *)
Lemma column_values_assign (name : string) (f : row C -> C)
      (df : DataFrame C) :
  column_values name (assign name (map f (rows df)) df) = map f (rows df).
Proof.
  unfold column_values, assign. simpl. rewrite assign_rows_map, map_map.
  apply map_ext. intros r. apply loc_set_cell.
Qed.

Lemma column_values_assign_other (name other : string) (f : row C -> C)
      (df : DataFrame C) :
  other <> name ->
  column_values other (assign name (map f (rows df)) df)
  = column_values other df.
Proof.
  intros Hne. unfold column_values, assign. simpl.
  rewrite assign_rows_map, map_map.
  apply map_ext. intros r. apply loc_set_cell_other. exact Hne.
Qed.

Lemma has_column_In (name : string) (df : DataFrame C) :
  has_column name df = true <-> In name (columns df).
Proof.
  unfold has_column. rewrite existsb_exists. split.
  - intros [x [Hx E]]. apply String.eqb_eq in E. subst. exact Hx.
  - intros Hx. exists name. split; [exact Hx | apply String.eqb_refl].
Qed.

Lemma has_column_assign (name : string) (vals : list C) (df : DataFrame C) :
  has_column name (assign name vals df) = true.
Proof.
  apply has_column_In. unfold assign. simpl.
  destruct (has_column name df) eqn:E.
  - apply has_column_In. exact E.
  - apply in_or_app. right. left. reflexivity.
Qed.

Lemma has_column_assign_other (name other : string) (vals : list C)
      (df : DataFrame C) :
  has_column other df = true ->
  has_column other (assign name vals df) = true.
Proof.
  intros Ho. apply has_column_In. apply has_column_In in Ho.
  unfold assign. simpl.
  destruct (has_column name df); [exact Ho|].
  apply in_or_app. left. exact Ho.
Qed.

Lemma has_column_nonempty (name : string) (df : DataFrame C) :
  has_column name df = true -> columns df <> [].
Proof.
  intros Hc E. apply has_column_In in Hc. rewrite E in Hc. exact Hc.
Qed.

(** With a column present, a frame is empty exactly when it has no
    rows. *)
Lemma empty_rows (name : string) (df : DataFrame C) :
  has_column name df = true ->
  empty df = match rows df with [] => true | _ => false end.
Proof.
  intros Hc. apply has_column_nonempty in Hc. unfold empty.
  destruct (rows df); [reflexivity|].
  destruct (columns df); [congruence | reflexivity].
Qed.

Lemma getitem_present (name : string) (df : DataFrame C) :
  has_column name df = true ->
  getitem name df = ret (column_values name df).
Proof. intros Hc. unfold getitem. rewrite Hc. reflexivity. Qed.

Lemma getitem_absent (name : string) (df : DataFrame C) :
  has_column name df = false -> getitem name df = raise (KeyError name).
Proof. intros Hc. unfold getitem. rewrite Hc. reflexivity. Qed.

End FrameFacts.

Lemma has_column_as_cells (name : string) (df : DataFrame value) :
  has_column name (as_cells df) = has_column name df.
Proof. reflexivity. Qed.

Lemma loc_as_cells (name : string) (r : row value) :
  loc name (map (fun kc => (fst kc, Raw (snd kc))) r) = Raw (loc name r).
Proof.
  induction r as [|[k c] t IH]; simpl; [reflexivity|].
  destruct (String.eqb k name); auto.
Qed.

Lemma column_values_as_cells (name : string) (df : DataFrame value) :
  column_values name (as_cells df) = map Raw (column_values name df).
Proof.
  unfold column_values, as_cells. simpl. rewrite !map_map.
  apply map_ext. intros r. apply loc_as_cells.
Qed.

(** The monad laws the proofs rewrite with. *)
Lemma bind_ret_l {A B} (a : A) (f : A -> M B) : bind (ret a) f = f a.
Proof. unfold bind, ret. destruct (f a). reflexivity. Qed.

Lemma bind_raise {A B} (e : exn) (f : A -> M B) : bind (raise e) f = raise e.
Proof. reflexivity. Qed.

Lemma bind_emit {B} (ev : event) (f : unit -> M B) :
  bind (emit ev) f = after [ev] (f tt).
Proof. unfold bind, emit, after. destruct (f tt). reflexivity. Qed.

Lemma after_after {A} (t t' : list event) (m : M A) :
  after t (after t' m) = after (t ++ t') m.
Proof. unfold after. simpl. rewrite app_assoc. reflexivity. Qed.

Lemma bind_after {A B} (t : list event) (m : M A) (f : A -> M B) :
  bind (after t m) f = after t (bind m f).
Proof.
  unfold after. destruct m as [t' [e|a]]; simpl; [reflexivity|].
  destruct (f a). simpl. rewrite app_assoc. reflexivity.
Qed.

Lemma bind_done {A B} (t : list event) (a : A) (f : A -> M B) :
  bind (t, inr a) f = after t (f a).
Proof. unfold bind, after. destruct (f a). reflexivity. Qed.

Lemma after_nil {A} (m : M A) : after [] m = m.
Proof. destruct m. reflexivity. Qed.

Lemma trace_after {A} (t : list event) (m : M A) :
  trace (after t m) = t ++ trace m.
Proof. reflexivity. Qed.

Lemma outcome_after {A} (t : list event) (m : M A) :
  outcome (after t m) = outcome m.
Proof. reflexivity. Qed.

Lemma bind_assoc {A B D} (m : M A) (f : A -> M B) (g : B -> M D) :
  bind (bind m f) g = bind m (fun a => bind (f a) g).
Proof.
  destruct m as [t [e|a]]; simpl; [reflexivity|].
  destruct (f a) as [t' [e|b]]; simpl; [reflexivity|].
  destruct (g b) as [t'' r]. rewrite app_assoc. reflexivity.
Qed.

Lemma trace_bind {A B} (m : M A) (f : A -> M B) :
  trace (bind m f)
  = match outcome m with
    | inl _ => trace m
    | inr a => trace m ++ trace (f a)
    end.
Proof.
  destruct m as [t [e|a]]; simpl; [reflexivity|].
  destruct (f a). reflexivity.
Qed.

Lemma outcome_bind {A B} (m : M A) (f : A -> M B) :
  outcome (bind m f)
  = match outcome m with
    | inl e => inl e
    | inr a => outcome (f a)
    end.
Proof.
  destruct m as [t [e|a]]; simpl; [reflexivity|].
  destruct (f a). reflexivity.
Qed.

(** Symbolic execution of the steps whose effect is known. *)
Ltac run :=
  repeat (first [ rewrite bind_emit | rewrite bind_ret_l | rewrite bind_raise
                | rewrite bind_after | rewrite after_after
                | rewrite bind_done ];
          cbv beta).


(* ================================================================== *)
(** ** The failure filter (lines 38-46) and the gate of line 53 *)

Lemma is_failed_iff (v : value) :
  is_failed v = true <-> exists s, v = Str s /\ PyStr.lower s = "failed".
Proof.
  unfold is_failed. destruct v as [|s|n|b]; simpl;
    try (split; [discriminate | intros [s' [E _]]; discriminate]).
  rewrite String.eqb_eq. split.
  - intros E. exists s. auto.
  - intros [s' [E Hs]]. injection E as ->. exact Hs.
Qed.

(** [.str] exists exactly on a column without rows or with a text in
    it. *)
Lemma has_str_iff (col : list value) :
  has_str col = true <-> col = [] \/ exists s, In (Str s) col.
Proof.
  unfold has_str. destruct col as [|v t]; [split; auto|].
  rewrite existsb_exists. split.
  - intros [x [Hin Hx]]. right. destruct x; try discriminate. eauto.
  - intros [E|[s Hin]]; [discriminate|]. exists (Str s). auto.
Qed.

Lemma has_str_nil : has_str [] = true.
Proof. reflexivity. Qed.

Lemma str_accessor_text (col : list value) :
  has_str col = true -> str_accessor col = ret col.
Proof. intros Hc. unfold str_accessor. rewrite Hc. reflexivity. Qed.

Lemma str_accessor_other (col : list value) :
  has_str col = false -> str_accessor col = raise AttributeError.
Proof. intros Hc. unfold str_accessor. rewrite Hc. reflexivity. Qed.

Lemma failure_filter_on (df : DataFrame value) :
  has_column "Status" df = true ->
  has_str (column_values "Status" df) = true ->
  failure_filter true df = ret (failed_subset df, Some (failed_subset df)).
Proof.
  intros Hs Ht. unfold failure_filter.
  rewrite Hs, (getitem_present _ _ Hs). rewrite bind_ret_l.
  rewrite (str_accessor_text _ Ht), bind_ret_l, boolean_index_column.
  reflexivity.
Qed.

Lemma failure_filter_not_text (df : DataFrame value) :
  has_column "Status" df = true ->
  has_str (column_values "Status" df) = false ->
  failure_filter true df = raise AttributeError.
Proof.
  intros Hs Ht. unfold failure_filter.
  rewrite Hs, (getitem_present _ _ Hs). rewrite bind_ret_l.
  rewrite (str_accessor_other _ Ht). reflexivity.
Qed.

Lemma failure_filter_no_status (df : DataFrame value) :
  has_column "Status" df = false ->
  failure_filter true df = ([Warning no_status_warning], inr (df, None)).
Proof. intros Hs. unfold failure_filter. rewrite Hs. reflexivity. Qed.

(** The first tab on an uploaded table, up to the table view. *)
Lemma tab1_csv (mi : string -> string -> option string) (w : widgets)
      (df : DataFrame value) :
  uploaded_file w = Some (Csv df) ->
  tab1 mi w
  = (emit (Header "ADF CSV Analyzer") ;;
     emit FileUploader ;;
     emit Checkbox ;;
     shown <- failure_filter (show_failed_only w) df ;;
     emit (Subheader "Pipeline Execution Logs") ;;
     emit (Dataframe (fst shown)) ;;
     failed_df <- ask_ai mi w df (snd shown) ;;
     ret (Some df, failed_df)).
Proof.
  intros Hup. unfold tab1. rewrite Hup. simpl read_csv.
  run. reflexivity.
Qed.

(** The first tab stops at the checkbox when the toggle is on and the
    Status column has no [.str]. *)
Lemma tab1_status_not_text (mi : string -> string -> option string)
      (w : widgets) (df : DataFrame value) :
  uploaded_file w = Some (Csv df) ->
  show_failed_only w = true ->
  has_column "Status" df = true ->
  has_str (column_values "Status" df) = false ->
  tab1 mi w
  = ([Header "ADF CSV Analyzer"; FileUploader; Checkbox],
     inl AttributeError).
Proof.
  intros Hup Hon Hs Ht. rewrite (tab1_csv mi w df Hup), Hon.
  rewrite (failure_filter_not_text df Hs Ht). reflexivity.
Qed.

(** C1, as the code has it. On a table with a Status column that pandas
    holds as text (it has a text, or the table has no rows), the failure
    filter with the toggle on yields exactly the rows whose status,
    lowercased, is the text failed, in the order of the table (same
    columns, no warning), and the table view of the first tab shows them;
    on any other Status column line 40 raises AttributeError.  With the
    toggle off the filter yields the table itself. *)
Theorem failure_filter_spec (df : DataFrame value) :
  has_column "Status" df = true ->
  (has_str (column_values "Status" df) = true ->
   failure_filter true df = ret (failed_subset df, Some (failed_subset df)))
  /\ (has_str (column_values "Status" df) = false ->
      failure_filter true df = raise AttributeError)
  /\ rows (failed_subset df)
     = filter (fun r => is_failed (loc "Status" r)) (rows df)
  /\ (forall r, In r (rows (failed_subset df)) <->
                In r (rows df) /\
                exists s, loc "Status" r = Str s /\ PyStr.lower s = "failed")
  /\ columns (failed_subset df) = columns df
  /\ failure_filter false df = ret (df, None)
  /\ (forall mi w, uploaded_file w = Some (Csv df) ->
        show_failed_only w = false
        \/ has_str (column_values "Status" df) = true ->
        In (Dataframe (if show_failed_only w then failed_subset df else df))
           (trace (tab1 mi w))).
Proof.
  intros Hs. split; [apply failure_filter_on; exact Hs|].
  split; [apply failure_filter_not_text; exact Hs|].
  split; [reflexivity|]. split.
  - intros r. simpl. unfold failed_rows. rewrite filter_In, is_failed_iff.
    reflexivity.
  - split; [reflexivity|]. split; [reflexivity|].
    intros mi w Hup Hcase. rewrite (tab1_csv mi w df Hup).
    destruct (show_failed_only w).
    + destruct Hcase as [Hoff|Ht]; [discriminate Hoff|].
      rewrite (failure_filter_on df Hs Ht). run. simpl fst. run.
      rewrite trace_after. apply in_or_app. left. simpl. tauto.
    + unfold failure_filter. run. simpl fst. run.
      rewrite trace_after. apply in_or_app. left. simpl. tauto.
Qed.

Lemma failure_filter_spec_witness :
  has_column "Status" Sample.logs = true
  /\ rows (failed_subset Sample.logs)
     = [ Sample.record (Str "copy_sales") (Str "2025-06-10") (Str "Failed")
                       NaN;
         Sample.record (Str "copy_sales") (Str "soon") (Str "FAILED")
                       (Str "Timeout expired");
         Sample.record (Str "load_fact") (Str "2025-06-11") (Str "failed")
                       (Str "   ") ]
  /\ failure_filter true Sample.logs
     = ret (failed_subset Sample.logs, Some (failed_subset Sample.logs)).
Proof.
  split; [reflexivity|]. split; [reflexivity|].
  apply (failure_filter_spec Sample.logs); reflexivity.
Defined.

(** C1, as stated, fails: the table below has a Status column, but every
    Status field is empty, so pandas holds the column as floats; with the
    toggle on, line 40 raises AttributeError where the specification has the filter
    return the rows whose status is failed (here none), and the run ends
    before the table view. *)
Lemma status_not_text_filter_raises :
  has_column "Status" Cases.blank_status = true
  /\ failed_rows Cases.blank_status = []
  /\ failure_filter true Cases.blank_status = ([], inl AttributeError)
  /\ app Sample.first_met Sample.to_datetime Sample.model_invoke
         (Sample.view Cases.blank_status true)
     = ([Title "Azure Data Factory Toolkit"; Header "ADF CSV Analyzer";
         FileUploader; Checkbox],
        inl AttributeError).
Proof. repeat split. Qed.

(** C6. On a table without a Status column and with the toggle on, the
    filter warns and keeps the whole table, which the first tab shows; the
    gate of line 53 then reads [failed_df], which this path never bound, and
    the run stops there with NameError: the dashboard is not rendered. *)
Theorem missing_status_run_stops
        (pf : counts -> value * nat -> value * nat -> bool)
        (td : list value -> exn + (value -> option (Z * Z)))
        (mi : string -> string -> option string)
        (w : widgets) (df : DataFrame value) :
  uploaded_file w = Some (Csv df) ->
  show_failed_only w = true ->
  has_column "Status" df = false ->
  failure_filter true df = ([Warning no_status_warning], inr (df, None))
  /\ tab1 mi w
     = ([Header "ADF CSV Analyzer"; FileUploader; Checkbox;
         Warning no_status_warning; Subheader "Pipeline Execution Logs";
         Dataframe df],
        inl (NameError "failed_df"))
  /\ app pf td mi w
     = ([Title "Azure Data Factory Toolkit"; Header "ADF CSV Analyzer";
         FileUploader; Checkbox; Warning no_status_warning;
         Subheader "Pipeline Execution Logs"; Dataframe df],
        inl (NameError "failed_df")).
Proof.
  intros Hup Hon Hs.
  assert (Ht : tab1 mi w
               = ([Header "ADF CSV Analyzer"; FileUploader; Checkbox;
                   Warning no_status_warning;
                   Subheader "Pipeline Execution Logs"; Dataframe df],
                  inl (NameError "failed_df"))).
  { rewrite (tab1_csv mi w df Hup), Hon, (failure_filter_no_status _ Hs).
    unfold ask_ai. rewrite Hon. reflexivity. }
  split; [apply failure_filter_no_status; exact Hs|].
  split; [exact Ht|].
  unfold app. rewrite Ht. reflexivity.
Qed.

Lemma missing_status_run_stops_witness :
  outcome (app Sample.first_met Sample.to_datetime Sample.model_invoke
               (Sample.view Sample.no_status true))
  = inl (NameError "failed_df").
Proof.
  pose proof (missing_status_run_stops Sample.first_met Sample.to_datetime
                Sample.model_invoke
                (Sample.view Sample.no_status true) Sample.no_status
                eq_refl eq_refl eq_refl) as [_ [_ Happ]].
  rewrite Happ. reflexivity.
Defined.

(** C8, as the code has it. On a file that [pd.read_csv] rejects, the
    parser's exception leaves line 33 uncaught and stops the run: only the
    page title, the first tab's header and the uploader have been rendered,
    the script has shown no warning or notice of its own, and no table is
    bound (neither a new nor an earlier one). *)
Theorem malformed_upload_run_stops
        (pf : counts -> value * nat -> value * nat -> bool)
        (td : list value -> exn + (value -> option (Z * Z)))
        (mi : string -> string -> option string) (w : widgets) :
  uploaded_file w = Some Malformed ->
  app pf td mi w
  = ([Title "Azure Data Factory Toolkit"; Header "ADF CSV Analyzer";
      FileUploader],
     inl ParserError).
Proof.
  intros Hup. unfold app, tab1. rewrite Hup. reflexivity.
Qed.

Lemma malformed_upload_run_stops_witness :
  app Sample.first_met Sample.to_datetime Sample.model_invoke Sample.broken
  = ([Title "Azure Data Factory Toolkit"; Header "ADF CSV Analyzer";
      FileUploader],
     inl ParserError).
Proof.
  apply (malformed_upload_run_stops Sample.first_met Sample.to_datetime
           Sample.model_invoke Sample.broken).
  reflexivity.
Defined.

(** C8, as stated, fails: on a file that is not CSV the run does not
    complete, and its trace reports nothing. *)
Lemma malformed_upload_not_reported :
  ~ completes (app Sample.first_met Sample.to_datetime Sample.model_invoke
                   Sample.broken)
  /\ ~ reported (trace (app Sample.first_met Sample.to_datetime
                            Sample.model_invoke Sample.broken)).
Proof.
  split.
  - intros [s Hs]. discriminate Hs.
  - intros [msg [Hin|Hin]]; simpl in Hin;
      repeat (destruct Hin as [Hin|Hin]; [discriminate Hin|]); exact Hin.
Qed.

(* ================================================================== *)
(** ** Key derivation, selection and the analyze button (lines 54-79) *)

Lemma append_assoc3 (a b c : string) :
  ((a ++ b) ++ c)%string = (a ++ b ++ c)%string.
Proof.
  induction a as [|x a IH]; simpl; [reflexivity|]. rewrite IH. reflexivity.
Qed.

(** The two additions of line 57 on the rows of a subset: the keys of the
    rows when every row is addable, a TypeError otherwise. *)
Lemma add_rows (l : list (row value)) :
  match add_text (map (loc "Pipeline name") l) " - " with
  | Some named => add_series named (map (loc "Run start") l)
  | None => None
  end
  = if forallb addable l then Some (map pipeline_key l) else None.
Proof.
  induction l as [|r t IH]; [reflexivity|].
  simpl map. simpl forallb. unfold addable at 1, pipeline_key at 1.
  destruct (loc "Pipeline name" r) as [|name|n|b]; simpl add_text;
    try (simpl; reflexivity);
    destruct (add_text (map (loc "Pipeline name") t) " - ") as [named|];
    simpl option_map; cbv iota.
  - destruct (loc "Run start" r); simpl add_series; rewrite IH;
      destruct (forallb addable t); reflexivity.
  - destruct (forallb addable t); [discriminate IH | reflexivity].
  - destruct (loc "Run start" r) as [|s|n|b]; simpl add_series;
      try reflexivity; rewrite IH; destruct (forallb addable t);
        simpl; try reflexivity.
    rewrite append_assoc3. reflexivity.
  - destruct (forallb addable t); [discriminate IH|].
    rewrite andb_false_r. reflexivity.
Qed.

(** Line 57's right-hand side on a subset that has both columns. *)
Lemma derive_keys_eq (df fd : DataFrame value) :
  has_column "Pipeline name" fd = true ->
  has_column "Run start" fd = true ->
  derive_keys df fd
  = if derivable df fd then ret (map pipeline_key (rows fd))
    else raise TypeError.
Proof.
  intros Hn Hr. unfold derive_keys, derivable.
  rewrite (getitem_present _ _ Hn), bind_ret_l.
  destruct (is_object (column_values "Pipeline name" df)); simpl andb;
    [|reflexivity].
  pose proof (add_rows (rows fd)) as Hadd. unfold column_values.
  destruct (add_text (map (loc "Pipeline name") (rows fd)) " - ")
    as [named|].
  - simpl added. rewrite bind_ret_l, (getitem_present _ _ Hr), bind_ret_l.
    unfold column_values. rewrite Hadd.
    destruct (forallb addable (rows fd)); reflexivity.
  - destruct (forallb addable (rows fd)); [discriminate Hadd|reflexivity].
Qed.

(** The name column is read and added to before the Run start column is
    looked up. *)
Lemma derive_keys_no_name (df fd : DataFrame value) :
  has_column "Pipeline name" fd = false ->
  derive_keys df fd = raise (KeyError "Pipeline name").
Proof.
  intros Hn. unfold derive_keys. rewrite (getitem_absent _ _ Hn).
  reflexivity.
Qed.

Lemma derive_keys_no_start (df fd : DataFrame value) :
  has_column "Pipeline name" fd = true ->
  has_column "Run start" fd = false ->
  derive_keys df fd
  = if is_object (column_values "Pipeline name" df)
       && forallb (fun v => is_str v || isna v)
                  (column_values "Pipeline name" fd)
    then raise (KeyError "Run start") else raise TypeError.
Proof.
  intros Hn Hr. unfold derive_keys.
  rewrite (getitem_present _ _ Hn), bind_ret_l.
  destruct (is_object (column_values "Pipeline name" df)); simpl andb;
    [|reflexivity].
  assert (Hadd : forall l,
             match add_text l " - " with
             | Some _ => forallb (fun v => is_str v || isna v) l = true
             | None => forallb (fun v => is_str v || isna v) l = false
             end).
  { induction l as [|v t IH]; [reflexivity|].
    destruct v; simpl; try reflexivity;
      destruct (add_text t " - "); simpl; exact IH. }
  specialize (Hadd (column_values "Pipeline name" fd)).
  destruct (add_text (column_values "Pipeline name" fd) " - "); rewrite Hadd.
  - simpl added. rewrite bind_ret_l, (getitem_absent _ _ Hr). reflexivity.
  - reflexivity.
Qed.

(** The rows line 61 selects, against the first match in the subset. *)
Lemma selected_rows_resolve (selected : value) (l : list (row value)) :
  let chosen :=
    filter (fun r => eq_value selected (loc "PipelineKey" r))
           (map (fun r => set_cell "PipelineKey" (pipeline_key r) r) l) in
  match find (fun r => eq_value selected (pipeline_key r)) l with
  | Some r => exists r' t, chosen = r' :: t /\ loc "Error" r' = loc "Error" r
  | None => chosen = []
  end.
Proof.
  induction l as [|r t IH]; simpl; [reflexivity|].
  rewrite loc_set_cell.
  destruct (eq_value selected (pipeline_key r)).
  - eexists. eexists. split; [reflexivity|].
    apply loc_set_cell_other. discriminate.
  - exact IH.
Qed.

(** The test of line 67 holds exactly for the unusable error texts. *)
Lemma guard_unusable (error_text : value) :
  negb (truthy error_text)
  || String.eqb (PyStr.strip (py_str error_text)) ""
  = unusable error_text.
Proof.
  destruct error_text as [|s|n|[|]]; simpl truthy; simpl py_str;
    simpl unusable; try reflexivity.
  - rewrite negb_involutive, strip_eqb.
    destruct (String.eqb_spec s "") as [->|_]; reflexivity.
  - rewrite negb_involutive, strip_eqb. reflexivity.
Qed.

Section Diagnose.

Variable model_invoke : string -> string -> option string.

(** What the button handler does, case by case. *)
Lemma analyze_button_idle (w : widgets) (key error_text : value) :
  analyze w = false ->
  analyze_button model_invoke w key error_text = ([Button], inr tt).
Proof. intros Hw. unfold analyze_button. rewrite Hw. reflexivity. Qed.

Lemma analyze_button_notice (w : widgets) (key error_text : value) :
  analyze w = true -> unusable error_text = true ->
  analyze_button model_invoke w key error_text
  = ([Button; Info no_error_notice], inr tt).
Proof.
  intros Hw He. unfold analyze_button. rewrite Hw, guard_unusable, He.
  reflexivity.
Qed.

Lemma analyze_button_call (w : widgets) (key error_text : value) :
  analyze w = true -> unusable error_text = false ->
  analyze_button model_invoke w key error_text
  = after [Button; Spinner;
           Invoke system_prompt (human_prompt key error_text)]
      match model_invoke system_prompt (human_prompt key error_text) with
      | None => raise RemoteError
      | Some content =>
          ([Subheader "AI Suggestions"; Markdown content], inr tt)
      end.
Proof.
  intros Hw He. unfold analyze_button. rewrite Hw, guard_unusable, He. run.
  destruct (model_invoke system_prompt (human_prompt key error_text));
    reflexivity.
Qed.

(** Lines 54-79 once the keys are derived: the keys offered are the keys
    of the rows, and the handler receives the error text of the row the
    selection resolves to. *)
Lemma diagnose_resolve (w : widgets) (df fd : DataFrame value) :
  has_column "Pipeline name" fd = true ->
  has_column "Run start" fd = true ->
  has_column "Error" fd = true ->
  derivable df fd = true ->
  let keys := map pipeline_key (rows fd) in
  let selected := selectbox keys (selection w) in
  diagnose model_invoke w df fd
  = after [Subheader "Ask AI to Debug a Failed Pipeline"; Selectbox keys]
      (match resolve selected fd with
       | Some r => analyze_button model_invoke w selected (loc "Error" r)
       | None => ret tt
       end ;;
       ret (with_keys fd)).
Proof.
  intros Hn Hr He Hd keys selected. unfold diagnose.
  rewrite (derive_keys_eq df fd Hn Hr), Hd. run.
  fold (with_keys fd).
  assert (Hk : has_column "PipelineKey" (with_keys fd) = true)
    by apply has_column_assign.
  rewrite (getitem_present _ _ Hk). run.
  rewrite boolean_index_column.
  assert (Hcol : column_values "PipelineKey" (with_keys fd) = keys)
    by apply column_values_assign.
  rewrite Hcol. fold selected.
  assert (He' : has_column "Error" (with_keys fd) = true)
    by (apply has_column_assign_other; exact He).
  set (chosen := filter (fun r => eq_value selected (loc "PipelineKey" r))
                        (rows (with_keys fd))).
  set (selected_row := {| columns := columns (with_keys fd);
                          rows := chosen |}).
  assert (He'' : has_column "Error" selected_row = true) by exact He'.
  rewrite (empty_rows _ _ He''), (getitem_present _ _ He'').
  unfold column_values. simpl rows.
  pose proof (selected_rows_resolve selected (rows fd)) as Hsel.
  cbv zeta in Hsel. unfold resolve.
  assert (Hrows : rows (with_keys fd)
                  = map (fun r => set_cell "PipelineKey" (pipeline_key r) r)
                        (rows fd))
    by apply assign_rows_map.
  unfold chosen. rewrite Hrows.
  destruct (find (fun r => eq_value selected (pipeline_key r)) (rows fd))
    as [r|].
  - destruct Hsel as [r' [t [-> Herr]]]. simpl. run. rewrite Herr.
    destruct (analyze_button model_invoke w selected (loc "Error" r))
      as [t0 [e|u]]; reflexivity.
  - rewrite Hsel. simpl. run. reflexivity.
Qed.

(** Lines 54-57 when an addition is not defined: the section title is
    shown, then TypeError. *)
Lemma diagnose_type_error (w : widgets) (df fd : DataFrame value) :
  has_column "Pipeline name" fd = true ->
  has_column "Run start" fd = true ->
  derivable df fd = false ->
  diagnose model_invoke w df fd
  = ([Subheader "Ask AI to Debug a Failed Pipeline"], inl TypeError).
Proof.
  intros Hn Hr Hd. unfold diagnose.
  rewrite (derive_keys_eq df fd Hn Hr), Hd. reflexivity.
Qed.

End Diagnose.

Lemma find_first {A} (f : A -> bool) (l : list A) (a : A) :
  find f l = Some a ->
  exists l1 l2, l = l1 ++ a :: l2 /\ f a = true
                /\ Forall (fun x => f x = false) l1.
Proof.
  induction l as [|x t IH]; simpl; [discriminate|].
  destruct (f x) eqn:E.
  - intros [= ->]. exists [], t. auto.
  - intros Hf. destruct (IH Hf) as [l1 [l2 [-> [Ha Hl1]]]].
    exists (x :: l1), l2. auto.
Qed.

Lemma find_unique {A} (f : A -> bool) (l : list A) (a : A) :
  In a l -> f a = true ->
  (forall x, In x l -> f x = true -> x = a) ->
  find f l = Some a.
Proof.
  induction l as [|x t IH]; simpl; [tauto|].
  intros Hin Ha Hu. destruct (f x) eqn:E.
  - f_equal. apply Hu; auto.
  - destruct Hin as [->|Hin]; [congruence|]. apply IH; auto.
Qed.

Lemma selectbox_In (options : list value) (i : nat) :
  options <> [] -> In (selectbox options i) options.
Proof.
  intros Hne. unfold selectbox.
  destruct (Nat.lt_ge_cases i (List.length options)) as [Hlt|Hge].
  - apply nth_In. exact Hlt.
  - rewrite nth_overflow by exact Hge.
    destruct options; [congruence | left; reflexivity].
Qed.

(** C3, as the code has it. On a failed subset whose rows are addable (the
    name column is held as objects with texts or nothing for names, and no
    named row has a number or truth value for its run start)
    line 57 derives for each row its pipeline name, the separator and its
    run start exactly as read from the file, and no key for a row that
    lacks one of the two; these keys are what the column and the selector
    hold, in row order.  The selected key resolves to the first row, in
    table order, whose key equals it, and the handler works on that row's
    error text; when one row only has the key, that row is the one. *)
Theorem pipeline_key_resolution
        (mi : string -> string -> option string)
        (w : widgets) (df fd : DataFrame value) :
  has_column "Pipeline name" fd = true ->
  has_column "Run start" fd = true ->
  has_column "Error" fd = true ->
  derivable df fd = true ->
  let keys := map pipeline_key (rows fd) in
  let selected := selectbox keys (selection w) in
  derive_keys df fd = ret keys
  /\ (forall r name run_start,
        loc "Pipeline name" r = Str name ->
        loc "Run start" r = Str run_start ->
        pipeline_key r = Str (name ++ " - " ++ run_start)%string)
  /\ (forall r,
        loc "Pipeline name" r = NaN \/ loc "Run start" r = NaN ->
        pipeline_key r = NaN)
  /\ column_values "PipelineKey" (with_keys fd) = keys
  /\ diagnose mi w df fd
     = after [Subheader "Ask AI to Debug a Failed Pipeline"; Selectbox keys]
         (match resolve selected fd with
          | Some r => analyze_button mi w selected (loc "Error" r)
          | None => ret tt
          end ;;
          ret (with_keys fd))
  /\ (forall r, resolve selected fd = Some r ->
        exists above below,
          rows fd = above ++ r :: below
          /\ eq_value selected (pipeline_key r) = true
          /\ Forall (fun r' => eq_value selected (pipeline_key r') = false)
                    above)
  /\ (forall r, In r (rows fd) ->
        eq_value selected (pipeline_key r) = true ->
        (forall r', In r' (rows fd) ->
                    eq_value selected (pipeline_key r') = true -> r' = r) ->
        resolve selected fd = Some r).
Proof.
  intros Hn Hr He Hd keys selected.
  split.
  { rewrite (derive_keys_eq df fd Hn Hr), Hd. reflexivity. }
  split.
  { intros r name run_start En Er. unfold pipeline_key.
    rewrite En, Er. reflexivity. }
  split.
  { intros r [E|E]; unfold pipeline_key; rewrite E;
      [reflexivity | destruct (loc "Pipeline name" r); reflexivity]. }
  split; [apply column_values_assign|].
  split; [apply diagnose_resolve; assumption|].
  split.
  - intros r Hres. apply find_first in Hres. exact Hres.
  - intros r Hin Hsel Huniq. apply find_unique; assumption.
Qed.

Lemma pipeline_key_resolution_witness :
  map pipeline_key (rows (failed_subset Sample.logs))
  = [Str "copy_sales - 2025-06-10"; Str "copy_sales - soon";
     Str "load_fact - 2025-06-11"]
  /\ trace (diagnose Sample.model_invoke (Sample.press Sample.logs 1)
                     Sample.logs (failed_subset Sample.logs))
     = [Subheader "Ask AI to Debug a Failed Pipeline";
        Selectbox [Str "copy_sales - 2025-06-10"; Str "copy_sales - soon";
                   Str "load_fact - 2025-06-11"];
        Button; Spinner;
        Invoke system_prompt
               (human_prompt (Str "copy_sales - soon")
                             (Str "Timeout expired"));
        Subheader "AI Suggestions";
        Markdown "Check the linked service credentials."].
Proof.
  split; [reflexivity|].
  pose proof (pipeline_key_resolution Sample.model_invoke
                (Sample.press Sample.logs 1) Sample.logs
                (failed_subset Sample.logs)
                eq_refl eq_refl eq_refl eq_refl) as [_ [_ [_ [_ [Hd _]]]]].
  rewrite Hd. reflexivity.
Defined.

(** C3, as stated, fails: the failed row below has a name and a run start,
    but the run start is written as a number, so pandas holds the column
    as integers and line 57 raises TypeError: no key is derived and no
    selector is shown.  So does a failed subset whose name fields are all
    empty. *)
Lemma numeric_run_start_no_key :
  failed_rows Cases.numeric_start = rows Cases.numeric_start
  /\ derive_keys Cases.numeric_start (failed_subset Cases.numeric_start)
     = ([], inl TypeError)
  /\ tab1 Sample.model_invoke (Sample.press Cases.numeric_start 0)
     = ([Header "ADF CSV Analyzer"; FileUploader; Checkbox;
         Subheader "Pipeline Execution Logs";
         Dataframe Cases.numeric_start;
         Subheader "Ask AI to Debug a Failed Pipeline"],
        inl TypeError)
  /\ outcome (tab1 Sample.model_invoke
                   (Sample.press Cases.unnamed_started 0))
     = inl TypeError.
Proof. repeat split. Qed.

(** A key that two failed rows share resolves to the upper one. *)
Example duplicate_key_resolves_to_first :
  resolve (Str "copy_sales - 2025-06-10")
          (Sample.of_failures ["copy_sales"; "load_dim"; "copy_sales"])
  = nth_error (rows (Sample.of_failures
                       ["copy_sales"; "load_dim"; "copy_sales"])) 0.
Proof. reflexivity. Qed.

(** The parts of the handler's contract that hold: no click, no call; a
    click on an empty or blank error text shows the notice and calls
    nothing; a click on an error text with a visible character calls the
    model once. *)
Lemma no_click_no_call (mi : string -> string -> option string)
      (w : widgets) (key error_text : value) :
  analyze w = false ->
  invocations (trace (analyze_button mi w key error_text)) = 0.
Proof. intros Hw. rewrite analyze_button_idle by exact Hw. reflexivity. Qed.

Lemma blank_error_no_call (mi : string -> string -> option string)
      (w : widgets) (key : value) (s : string) :
  analyze w = true -> PyStr.all_space s = true ->
  invocations (trace (analyze_button mi w key (Str s))) = 0
  /\ In (Info no_error_notice) (trace (analyze_button mi w key (Str s))).
Proof.
  intros Hw Hs. rewrite analyze_button_notice by assumption.
  split; [reflexivity | simpl; tauto].
Qed.

Lemma call_counted_once (mi : string -> string -> option string)
      (key error_text : value) :
  let m := after [Button; Spinner;
                  Invoke system_prompt (human_prompt key error_text)]
             match mi system_prompt (human_prompt key error_text) with
             | None => raise RemoteError
             | Some content =>
                 ([Subheader "AI Suggestions"; Markdown content], inr tt)
             end in
  invocations (trace m) = 1 /\ notices (trace m) = 0.
Proof.
  simpl. destruct (mi system_prompt (human_prompt key error_text));
    split; reflexivity.
Qed.

Lemma error_text_one_call (mi : string -> string -> option string)
      (w : widgets) (key : value) (s : string) :
  analyze w = true -> PyStr.all_space s = false ->
  invocations (trace (analyze_button mi w key (Str s))) = 1
  /\ notices (trace (analyze_button mi w key (Str s))) = 0.
Proof.
  intros Hw Hs. rewrite analyze_button_call; [apply call_counted_once|exact Hw|].
  exact Hs.
Qed.

(** C2, where the code departs from it. When the selected row has no error
    text (the cell is missing), a click does not show the notice: NaN is
    neither false nor blank for the test of line 67, so the handler calls
    the model once, with a prompt whose error log is the text nan. *)
Theorem missing_error_text_calls_model
        (mi : string -> string -> option string)
        (w : widgets) (key : value) :
  analyze w = true ->
  let t := trace (analyze_button mi w key NaN) in
  invocations t = 1
  /\ notices t = 0
  /\ In (Invoke system_prompt (human_prompt key NaN)) t
  /\ human_prompt key NaN
     = ("This is the error log for pipeline '" ++ py_str key ++ "':"
        ++ PyStr.nl ++ PyStr.nl ++ "nan" ++ PyStr.nl ++ PyStr.nl
        ++ "Please analyze and suggest what went wrong and how to fix it."
       )%string.
Proof.
  intros Hw t. unfold t.
  rewrite analyze_button_call; [|exact Hw|reflexivity].
  destruct (call_counted_once mi key NaN) as [Hc Hn].
  split; [exact Hc|]. split; [exact Hn|].
  split; [|reflexivity].
  rewrite trace_after. apply in_or_app. left. simpl. tauto.
Qed.

Lemma missing_error_text_calls_model_witness :
  invocations (trace (analyze_button Sample.model_invoke
                        (Sample.press Sample.logs 0)
                        (Str "copy_sales - 2025-06-10") NaN)) = 1.
Proof.
  apply (missing_error_text_calls_model Sample.model_invoke
           (Sample.press Sample.logs 0) (Str "copy_sales - 2025-06-10")).
  reflexivity.
Defined.

(** The same on a whole run: the first failed row of the sample table has
    no error text; selecting it and clicking sends nan to the model. *)
Example missing_error_text_sent :
  In (Invoke system_prompt
             (human_prompt (Str "copy_sales - 2025-06-10") NaN))
     (trace (app Sample.first_met Sample.to_datetime Sample.model_invoke
                 (Sample.press Sample.logs 0)))
  /\ notices (trace (app Sample.first_met Sample.to_datetime
                         Sample.model_invoke
                         (Sample.press Sample.logs 0))) = 0.
Proof. vm_compute. tauto. Qed.

(* ================================================================== *)
(** ** When the diagnosis component is offered (line 53) *)

Lemma tab1_with_status (mi : string -> string -> option string)
      (w : widgets) (df : DataFrame value) :
  uploaded_file w = Some (Csv df) ->
  has_column "Status" df = true ->
  show_failed_only w = false
  \/ has_str (column_values "Status" df) = true ->
  tab1 mi w
  = after [Header "ADF CSV Analyzer"; FileUploader; Checkbox;
           Subheader "Pipeline Execution Logs";
           Dataframe (if show_failed_only w then failed_subset df else df)]
      (failed_df <- ask_ai mi w df (if show_failed_only w
                                    then Some (failed_subset df) else None) ;;
       ret (Some df, failed_df)).
Proof.
  intros Hup Hs Hcase. rewrite (tab1_csv mi w df Hup).
  destruct (show_failed_only w).
  - destruct Hcase as [Hoff|Ht]; [discriminate Hoff|].
    rewrite (failure_filter_on df Hs Ht). run. reflexivity.
  - unfold failure_filter. run. reflexivity.
Qed.

Lemma existsb_app_false {A} (f : A -> bool) (l1 l2 : list A) :
  existsb f l1 = false -> existsb f (l1 ++ l2) = existsb f l2.
Proof. intros H1. rewrite existsb_app, H1. reflexivity. Qed.

(** With the toggle off the first tab stops at the table view, whatever
    the uploaded table holds. *)
Lemma toggle_off_run (mi : string -> string -> option string)
      (w : widgets) (df : DataFrame value) :
  uploaded_file w = Some (Csv df) ->
  show_failed_only w = false ->
  tab1 mi w
  = ([Header "ADF CSV Analyzer"; FileUploader; Checkbox;
      Subheader "Pipeline Execution Logs"; Dataframe df],
     inr (Some df, None)).
Proof.
  intros Hup Hoff. rewrite (tab1_csv mi w df Hup), Hoff.
  unfold failure_filter, ask_ai. rewrite Hoff. reflexivity.
Qed.

(** A selected key that is a text resolves to a row. *)
Lemma resolve_text (fd : DataFrame value) (i : nat) :
  rows fd <> [] ->
  let selected := selectbox (map pipeline_key (rows fd)) i in
  selected <> NaN <-> resolve selected fd <> None.
Proof.
  intros Hne selected.
  assert (Hin : In selected (map pipeline_key (rows fd))).
  { apply selectbox_In. destruct (rows fd); [congruence | discriminate]. }
  apply in_map_iff in Hin as [r [Hkey Hr]].
  unfold resolve. split.
  - intros Hsel Hnone. apply (find_none _ _ Hnone) in Hr.
    rewrite Hkey in Hr. unfold pipeline_key in Hkey.
    destruct selected as [|s|n|b]; try congruence; simpl in Hr.
    + rewrite String.eqb_refl in Hr. discriminate Hr.
    + destruct (loc "Pipeline name" r); try discriminate Hkey;
        destruct (loc "Run start" r); discriminate Hkey.
    + destruct (loc "Pipeline name" r); try discriminate Hkey;
        destruct (loc "Run start" r); discriminate Hkey.
  - intros Hsome Hsel. apply Hsome. rewrite Hsel.
    clear. induction (rows fd) as [|r t IH]; [reflexivity | exact IH].
Qed.

(** C9, as the code has it. On a table with the columns the first tab
    reads, the selector is offered exactly when the toggle is on, the
    Status column is text, the failed subset has a row and its keys can be
    derived; the analyze button is offered exactly when, besides, the
    selected key is not missing (a failed row without name or run start has
    no key, and a missing key matches no row).  With the toggle off nothing
    is offered and no call is made, even when the table has failed rows. *)
Theorem diagnosis_offered_iff
        (mi : string -> string -> option string)
        (w : widgets) (df : DataFrame value) :
  uploaded_file w = Some (Csv df) ->
  has_column "Status" df = true ->
  has_column "Pipeline name" df = true ->
  has_column "Run start" df = true ->
  has_column "Error" df = true ->
  let t := trace (tab1 mi w) in
  let selected :=
    selectbox (map pipeline_key (failed_rows df)) (selection w) in
  (selector_offered t = true <->
   show_failed_only w = true
   /\ has_str (column_values "Status" df) = true
   /\ failed_rows df <> []
   /\ derivable df (failed_subset df) = true)
  /\ (button_offered t = true <->
      show_failed_only w = true
      /\ has_str (column_values "Status" df) = true
      /\ failed_rows df <> []
      /\ derivable df (failed_subset df) = true
      /\ selected <> NaN)
  /\ (show_failed_only w = false ->
      selector_offered t = false /\ button_offered t = false
      /\ invocations t = 0).
Proof.
  intros Hup Hs Hn Hr He t selected. unfold t.
  destruct (show_failed_only w) eqn:Hon.
  2:{ rewrite (toggle_off_run mi w df Hup Hon).
      split; [split; [discriminate | intros [Hf _]; discriminate]|].
      split; [split; [discriminate | intros [Hf _]; discriminate]|].
      intros _. repeat split. }
  destruct (has_str (column_values "Status" df)) eqn:Ht.
  2:{ rewrite (tab1_status_not_text mi w df Hup Hon Hs Ht).
      split; [split; [discriminate | intros [_ [Hf _]]; discriminate]|].
      split; [split; [discriminate | intros [_ [Hf _]]; discriminate]|].
      discriminate. }
  rewrite (tab1_with_status mi w df Hup Hs (or_intror Ht)), Hon.
  unfold ask_ai. rewrite Hon.
  assert (Hempty : empty (failed_subset df)
                   = match failed_rows df with [] => true | _ => false end).
  { apply (empty_rows "Status"). exact Hs. }
  rewrite Hempty.
  destruct (failed_rows df) as [|r0 rest] eqn:Hrows.
  { simpl. run.
    split; [split; [discriminate | intros [_ [_ [Hf _]]]; congruence]|].
    split; [split; [discriminate | intros [_ [_ [Hf _]]]; congruence]|].
    discriminate. }
  simpl negb. cbv iota.
  assert (Hne : rows (failed_subset df) <> [])
    by (simpl; rewrite Hrows; discriminate).
  destruct (derivable df (failed_subset df)) eqn:Hd.
  2:{ rewrite (diagnose_type_error mi w df (failed_subset df) Hn Hr Hd).
      split; [split; [discriminate | intros [_ [_ [_ Hf]]]; discriminate]|].
      split; [split; [discriminate | intros [_ [_ [_ [Hf _]]]]; discriminate]|].
      discriminate. }
  rewrite (diagnose_resolve mi w df (failed_subset df) Hn Hr He Hd). run.
  unfold selector_offered, button_offered. rewrite !trace_after.
  split.
  { split; [intros _; repeat split; discriminate | intros _; reflexivity]. }
  split; [|discriminate].
  rewrite existsb_app_false by reflexivity.
  pose proof (resolve_text (failed_subset df) (selection w) Hne) as Hres.
  cbv zeta in Hres. simpl rows in Hres. rewrite Hrows in Hres.
  simpl rows. rewrite Hrows. fold selected in Hres |- *.
  destruct (resolve selected (failed_subset df)) as [r1|] eqn:Hfind.
  - split; [intros _; repeat split; try discriminate|].
    + apply Hres. discriminate.
    + intros _. unfold analyze_button. run. rewrite trace_after.
      reflexivity.
  - split; [discriminate|]. intros [_ [_ [_ [_ Hsel]]]].
    apply Hres in Hsel. congruence.
Qed.

Lemma diagnosis_offered_iff_witness :
  selector_offered
    (trace (tab1 Sample.model_invoke (Sample.view Sample.logs true))) = true
  /\ button_offered
       (trace (tab1 Sample.model_invoke (Sample.view Sample.logs true)))
     = true.
Proof.
  destruct (diagnosis_offered_iff Sample.model_invoke
              (Sample.view Sample.logs true) Sample.logs
              eq_refl eq_refl eq_refl eq_refl eq_refl) as [Hsel [Hbut _]].
  split.
  - apply Hsel. repeat split; discriminate.
  - apply Hbut. repeat split; discriminate.
Defined.

(** C9, as stated, fails: on the table below the toggle is on and the
    failed subset has two rows, yet the analyze button is not offered.  The
    first failed row has no run start, so its key is missing; the selector
    shows it selected, no row matches it, and line 63 skips the button. *)
Lemma selector_without_button :
  show_failed_only (Sample.view Cases.unstarted true) = true
  /\ List.length (failed_rows Cases.unstarted) = 2
  /\ selector_offered
       (trace (tab1 Sample.model_invoke (Sample.view Cases.unstarted true)))
     = true
  /\ button_offered
       (trace (tab1 Sample.model_invoke (Sample.view Cases.unstarted true)))
     = false
  /\ tab1 Sample.model_invoke (Sample.view Cases.unstarted true)
     = ([Header "ADF CSV Analyzer"; FileUploader; Checkbox;
         Subheader "Pipeline Execution Logs"; Dataframe Cases.unstarted;
         Subheader "Ask AI to Debug a Failed Pipeline";
         Selectbox [NaN; Str "load_dim - 2025-06-11"]],
        inr (Some Cases.unstarted,
             Some (with_keys (failed_subset Cases.unstarted)))).
Proof. repeat split. Qed.

(** Failed rows are in the table, yet nothing is offered with the toggle
    off. *)
Example toggle_off_nothing_offered :
  failed_rows Sample.logs <> []
  /\ selector_offered
       (trace (tab1 Sample.model_invoke (Sample.view Sample.logs false)))
     = false.
Proof. split; [discriminate | reflexivity]. Qed.

(* ================================================================== *)
(** ** Facts about counting *)

Lemma value_eq_dec (a b : value) : {a = b} + {a <> b}.
Proof.
  destruct (value_eqb a b) eqn:E.
  - left. apply value_eqb_eq. exact E.
  - right. apply value_eqb_neq. exact E.
Qed.

Section CountFacts.

Lemma get_bump (k k' : value) (acc : counts) :
  get k' (bump k acc) 0
  = get k' acc 0 + (if value_eqb k k' then 1 else 0).
Proof.
  induction acc as [|[k0 n] t IH]; simpl.
  - destruct (value_eqb k k'); reflexivity.
  - destruct (value_eq_dec k0 k) as [->|Hk].
    + rewrite value_eqb_refl. simpl. destruct (value_eqb k k'); lia.
    + rewrite (proj2 (value_eqb_neq k0 k) Hk). simpl.
      destruct (value_eq_dec k0 k') as [->|Hk'].
      * rewrite value_eqb_refl.
        rewrite (proj2 (value_eqb_neq k k')); [lia | congruence].
      * rewrite (proj2 (value_eqb_neq k0 k') Hk'). exact IH.
Qed.

Lemma keys_bump_in (k : value) (acc : counts) :
  In k (map fst acc) -> map fst (bump k acc) = map fst acc.
Proof.
  induction acc as [|[k0 n] t IH]; simpl; [tauto|].
  intros Hin. destruct (value_eq_dec k0 k) as [->|Hk].
  - rewrite value_eqb_refl. reflexivity.
  - rewrite (proj2 (value_eqb_neq k0 k) Hk). simpl. f_equal. apply IH.
    destruct Hin; [congruence | assumption].
Qed.

Lemma keys_bump_new (k : value) (acc : counts) :
  ~ In k (map fst acc) -> map fst (bump k acc) = map fst acc ++ [k].
Proof.
  induction acc as [|[k0 n] t IH]; simpl; [reflexivity|].
  intros Hin. destruct (value_eq_dec k0 k) as [->|Hk]; [tauto|].
  rewrite (proj2 (value_eqb_neq k0 k) Hk). simpl. f_equal. apply IH. tauto.
Qed.

Lemma tally_from_snoc (acc : counts) (l : list value) (x : value) :
  tally_from acc (l ++ [x]) = bump x (tally_from acc l).
Proof.
  revert acc. induction l as [|y t IH]; simpl; intros acc; [reflexivity|].
  apply IH.
Qed.

Lemma tally_snoc (l : list value) (x : value) :
  tally (l ++ [x]) = bump x (tally l).
Proof. apply tally_from_snoc. Qed.

(** The count recorded for a key is its number of occurrences. *)
Lemma get_tally (k : value) (l : list value) :
  get k (tally l) 0 = List.length (filter (fun v => value_eqb v k) l).
Proof.
  induction l as [|x l IH] using rev_ind; [reflexivity|].
  rewrite tally_snoc, get_bump, IH, filter_app, length_app. simpl.
  destruct (value_eqb x k); reflexivity.
Qed.

Lemma keys_tally (k : value) (l : list value) :
  In k (map fst (tally l)) <-> In k l.
Proof.
  induction l as [|x l IH] using rev_ind; [reflexivity|].
  rewrite tally_snoc, in_app_iff. simpl.
  destruct (in_dec value_eq_dec x (map fst (tally l))) as [Hin|Hnin].
  - rewrite (keys_bump_in _ _ Hin), IH. split; [tauto|].
    intros [Hk|[<-|[]]]; [exact Hk | apply IH; exact Hin].
  - rewrite (keys_bump_new _ _ Hnin), in_app_iff, IH. simpl. tauto.
Qed.

Lemma NoDup_keys_tally (l : list value) : NoDup (map fst (tally l)).
Proof.
  induction l as [|x l IH] using rev_ind; [constructor|].
  rewrite tally_snoc.
  destruct (in_dec value_eq_dec x (map fst (tally l))) as [Hin|Hnin].
  - rewrite (keys_bump_in _ _ Hin). exact IH.
  - rewrite (keys_bump_new _ _ Hnin).
    apply NoDup_app; [exact IH | repeat constructor; simpl; tauto |].
    intros a Ha [<-|[]]. exact (Hnin Ha).
Qed.

Lemma get_In (k : value) (n d : nat) (s : counts) :
  NoDup (map fst s) -> In (k, n) s -> get k s d = n.
Proof.
  induction s as [|[k0 n0] t IH]; simpl; [tauto|].
  intros Hnd [E|Hin].
  - injection E as -> ->. rewrite value_eqb_refl. reflexivity.
  - inversion Hnd as [|? ? Hk0 Ht]; subst.
    destruct (value_eq_dec k0 k) as [->|Hk].
    + exfalso. apply Hk0. apply (in_map fst) in Hin. exact Hin.
    + rewrite (proj2 (value_eqb_neq k0 k) Hk). auto.
Qed.

Lemma get_absent (k : value) (d : nat) (s : counts) :
  ~ In k (map fst s) -> get k s d = d.
Proof.
  induction s as [|[k0 n0] t IH]; simpl; [reflexivity|].
  intros Hnin. destruct (value_eq_dec k0 k) as [->|Hk]; [tauto|].
  rewrite (proj2 (value_eqb_neq k0 k) Hk). apply IH. tauto.
Qed.

Lemma In_get (k : value) (d : nat) (s : counts) :
  In k (map fst s) -> In (k, get k s d) s.
Proof.
  induction s as [|[k0 n0] t IH]; simpl; [tauto|].
  intros Hin. destruct (value_eq_dec k0 k) as [->|Hk].
  - rewrite value_eqb_refl. now left.
  - rewrite (proj2 (value_eqb_neq k0 k) Hk). right. apply IH.
    destruct Hin; [congruence | assumption].
Qed.

(** [get] reads the same on two series with the same entries and no
    repeated key. *)
Lemma get_Permutation (k : value) (d : nat) (s s' : counts) :
  Permutation s s' -> NoDup (map fst s) -> get k s d = get k s' d.
Proof.
  intros Hp Hnd.
  assert (Hnd' : NoDup (map fst s')).
  { eapply Permutation_NoDup; [apply Permutation_map; exact Hp | exact Hnd]. }
  destruct (in_dec value_eq_dec k (map fst s)) as [Hin|Hnin].
  - apply (In_get k d) in Hin. symmetry. apply get_In; [exact Hnd'|].
    eapply Permutation_in; [exact Hp | exact Hin].
  - rewrite (get_absent k d s Hnin). symmetry. apply get_absent.
    intros Hin. apply Hnin.
    eapply Permutation_in; [apply Permutation_map; symmetry; exact Hp|].
    exact Hin.
Qed.

End CountFacts.

Section SortFacts.

Variable prefer : value * nat -> value * nat -> bool.

Lemma insert_by_Permutation (x : value * nat) (s : counts) :
  Permutation (insert_by prefer x s) (x :: s).
Proof.
  induction s as [|y t IH]; simpl; [reflexivity|].
  destruct (before prefer x y); [reflexivity|].
  rewrite IH. apply perm_swap.
Qed.

Lemma sort_by_Permutation (s : counts) : Permutation (sort_by prefer s) s.
Proof.
  induction s as [|x t IH]; simpl; [reflexivity|].
  rewrite insert_by_Permutation, IH. reflexivity.
Qed.

Lemma before_count (x y : value * nat) :
  before prefer x y = true -> snd y <= snd x.
Proof.
  unfold before. rewrite orb_true_iff, andb_true_iff, Nat.ltb_lt, Nat.eqb_eq.
  lia.
Qed.

Lemma not_before_count (x y : value * nat) :
  before prefer x y = false -> snd x <= snd y.
Proof.
  unfold before. rewrite orb_false_iff, Nat.ltb_ge. lia.
Qed.

(** Whatever the sort does with equal counts, larger counts come first. *)
Lemma insert_by_sorted (x : value * nat) (s : counts) :
  StronglySorted (fun a b => snd b <= snd a) s ->
  StronglySorted (fun a b => snd b <= snd a) (insert_by prefer x s).
Proof.
  intros Hs. induction Hs as [|y t Ht IH Hy]; simpl.
  - repeat constructor.
  - destruct (before prefer x y) eqn:Hb.
    + apply before_count in Hb. constructor; [constructor; assumption|].
      constructor; [exact Hb|].
      rewrite Forall_forall in *. intros z Hz. specialize (Hy z Hz). lia.
    + apply not_before_count in Hb. constructor; [exact IH|].
      eapply Permutation_Forall.
      * symmetry. apply insert_by_Permutation.
      * constructor; assumption.
Qed.

Lemma sort_by_sorted (s : counts) :
  StronglySorted (fun a b => snd b <= snd a) (sort_by prefer s).
Proof.
  induction s as [|x t IH]; simpl; [constructor|].
  apply insert_by_sorted. exact IH.
Qed.

End SortFacts.

(** Two descending arrangements of the same entries are equal when no two
    entries have the same count. *)
Lemma sorted_unique (l l' : counts) :
  Permutation l l' ->
  StronglySorted (fun a b => snd b <= snd a) l ->
  StronglySorted (fun a b => snd b <= snd a) l' ->
  NoDup (map snd l) ->
  l = l'.
Proof.
  revert l'. induction l as [|x t IH]; intros l' Hp Hs Hs' Hnd.
  - apply Permutation_nil in Hp. congruence.
  - destruct l' as [|y t'].
    { symmetry in Hp. apply Permutation_nil in Hp. discriminate Hp. }
    assert (Hxy : x = y).
    { assert (Hx : In x (y :: t'))
        by (eapply Permutation_in; [exact Hp | now left]).
      assert (Hy : In y (x :: t))
        by (eapply Permutation_in; [symmetry; exact Hp | now left]).
      destruct Hx as [E|Hx]; [congruence|].
      destruct Hy as [E|Hy]; [congruence|].
      apply StronglySorted_inv in Hs as [_ Hxt].
      apply StronglySorted_inv in Hs' as [_ Hyt].
      rewrite Forall_forall in Hxt, Hyt.
      specialize (Hxt y Hy). specialize (Hyt x Hx).
      inversion Hnd as [|? ? Hnin _]; subst. exfalso. apply Hnin.
      replace (snd x) with (snd y) by lia. apply in_map. exact Hy. }
    subst y. f_equal. apply IH.
    + apply Permutation_cons_inv in Hp. exact Hp.
    + apply StronglySorted_inv in Hs. tauto.
    + apply StronglySorted_inv in Hs'. tauto.
    + inversion Hnd; assumption.
Qed.

Lemma StronglySorted_weaken {A} (R R' : A -> A -> Prop) (l : list A) :
  (forall a b, In a l -> In b l -> R a b -> R' a b) ->
  StronglySorted R l -> StronglySorted R' l.
Proof.
  intros Himp Hs. induction Hs as [|a l Hs IH Hall]; constructor.
  - apply IH. intros x y Hx Hy. apply Himp; now right.
  - rewrite Forall_forall in *. intros b Hb.
    apply Himp; [now left | now right | auto].
Qed.






Lemma length_filter_map {A B} (f : B -> bool) (g : A -> B) (l : list A) :
  List.length (filter f (map g l))
  = List.length (filter (fun x => f (g x)) l).
Proof.
  induction l as [|a t IH]; simpl; [reflexivity|].
  destruct (f (g a)); simpl; rewrite IH; reflexivity.
Qed.

Lemma filter_dropna (k : value) (col : list value) :
  List.length (filter (fun v => value_eqb v k) (dropna col))
  = List.length (filter (counted k) col).
Proof.
  unfold dropna, counted. induction col as [|v t IH]; [reflexivity|].
  simpl. destruct (notna v); simpl; [|exact IH].
  destruct (value_eqb v k); simpl; rewrite IH; reflexivity.
Qed.



(* ================================================================== *)
(** ** Counting and ranking under any order of equal counts *)

Section Ranking.

Variable pf : counts -> value * nat -> value * nat -> bool.

(** What [value_counts] returns on a column: one entry per value present,
    holding its number of occurrences, larger counts first. *)
Lemma value_counts_spec (col : list value) :
  Permutation (value_counts pf col) (tally (dropna col))
  /\ NoDup (map fst (value_counts pf col))
  /\ (forall k, In k (map fst (value_counts pf col)) <-> In k (dropna col))
  /\ (forall k, get k (value_counts pf col) 0
                = List.length (filter (counted k) col))
  /\ StronglySorted (fun a b => snd b <= snd a) (value_counts pf col).
Proof.
  unfold value_counts, sort_values.
  set (t := tally (dropna col)).
  pose proof (sort_by_Permutation (pf t) t) as Hp.
  assert (Hnd : NoDup (map fst (sort_by (pf t) t))).
  { eapply Permutation_NoDup;
      [apply Permutation_map; symmetry; exact Hp | apply NoDup_keys_tally]. }
  split; [exact Hp|]. split; [exact Hnd|]. split; [|split].
  - intros k. split; intros Hk.
    + apply (proj1 (keys_tally k (dropna col))).
      eapply Permutation_in; [apply Permutation_map; exact Hp | exact Hk].
    + apply (proj2 (keys_tally k (dropna col))) in Hk.
      eapply Permutation_in;
        [apply Permutation_map; symmetry; exact Hp | exact Hk].
  - intros k. rewrite (get_Permutation k 0 _ _ Hp Hnd). unfold t.
    rewrite get_tally. apply filter_dropna.
  - apply sort_by_sorted.
Qed.

(** [nlargest] keeps the first entries of a descending arrangement of the
    series. *)
Lemma nlargest_sorted (n : nat) (s : counts) :
  exists l, nlargest pf n s = firstn n l
            /\ Permutation l s
            /\ StronglySorted (fun a b => snd b <= snd a) l.
Proof.
  unfold nlargest, sort_values, mergesort_desc.
  destruct (List.length s <=? n)%nat.
  - exists (sort_by (pf s) s).
    split; [reflexivity|].
    split; [apply sort_by_Permutation | apply sort_by_sorted].
  - exists (sort_by (fun _ _ => true) s).
    split; [reflexivity|].
    split; [apply sort_by_Permutation | apply sort_by_sorted].
Qed.

Lemma nlargest_value_counts (n : nat) (col : list value) :
  exists l, nlargest pf n (value_counts pf col) = firstn n l
            /\ Permutation l (tally (dropna col))
            /\ StronglySorted (fun a b => snd b <= snd a) l.
Proof.
  destruct (nlargest_sorted n (value_counts pf col)) as [l [E [Hp Hs]]].
  exists l. split; [exact E|]. split; [|exact Hs].
  rewrite Hp. apply value_counts_spec.
Qed.

(* ================================================================== *)
(** ** The dashboard's key metrics (lines 98-104) *)

Lemma get_status_counts (k : string) (df : DataFrame value) :
  get (Str k) (value_counts pf (map str_lower (column_values "Status" df))) 0
  = status_count k df.
Proof.
  destruct (value_counts_spec (map str_lower (column_values "Status" df)))
    as [_ [_ [_ [Hget _]]]].
  rewrite Hget. unfold column_values, status_count.
  rewrite map_map, length_filter_map.
  f_equal. apply filter_ext. intros r. apply counted_text.
Qed.

Lemma key_metrics_eq (df : DataFrame value) :
  has_column "Status" df = true ->
  has_str (column_values "Status" df) = true ->
  key_metrics pf df
  = ([Metric "Succeeded" (status_count "succeeded" df);
      Metric "Failed" (status_count "failed" df);
      Metric "In Progress" (status_count "inprogress" df);
      Metric "Queued" (status_count "queued" df)],
     inr tt).
Proof.
  intros Hs Ht. unfold key_metrics. rewrite (getitem_present _ _ Hs). run.
  rewrite (str_accessor_text _ Ht). run.
  rewrite !get_status_counts. reflexivity.
Qed.

Lemma key_metrics_not_text (df : DataFrame value) :
  has_column "Status" df = true ->
  has_str (column_values "Status" df) = false ->
  key_metrics pf df = raise AttributeError.
Proof.
  intros Hs Ht. unfold key_metrics. rewrite (getitem_present _ _ Hs). run.
  rewrite (str_accessor_other _ Ht). reflexivity.
Qed.

(* ================================================================== *)
(** ** The top failing pipelines (lines 124-129) *)

Lemma top_failing_eq (df : DataFrame value) :
  has_column "Status" df = true ->
  has_column "Pipeline name" df = true ->
  has_str (column_values "Status" df) = true ->
  top_failing pf df
  = ret (nlargest pf 5 (value_counts pf (failure_names df))).
Proof.
  intros Hs Hn Ht. unfold top_failing. rewrite (getitem_present _ _ Hs). run.
  rewrite (str_accessor_text _ Ht). run.
  rewrite boolean_index_column.
  change {| columns := columns df;
            rows := filter (fun r => is_failed (loc "Status" r)) (rows df) |}
    with (failed_subset df).
  assert (Hn' : has_column "Pipeline name" (failed_subset df) = true)
    by exact Hn.
  rewrite (getitem_present _ _ Hn'). run. reflexivity.
Qed.

Lemma top_failing_not_text (df : DataFrame value) :
  has_column "Status" df = true ->
  has_str (column_values "Status" df) = false ->
  top_failing pf df = raise AttributeError.
Proof.
  intros Hs Ht. unfold top_failing. rewrite (getitem_present _ _ Hs). run.
  rewrite (str_accessor_other _ Ht). reflexivity.
Qed.



End Ranking.

(** Without ties the ranking does not depend on the sort. *)
Lemma top_failing_unique
      (pf pf' : counts -> value * nat -> value * nat -> bool)
      (df : DataFrame value) :
  has_column "Status" df = true ->
  has_column "Pipeline name" df = true ->
  NoDup (map snd (tally (dropna (failure_names df)))) ->
  top_failing pf df = top_failing pf' df.
Proof.
  intros Hs Hn Hnd.
  destruct (has_str (column_values "Status" df)) eqn:Ht.
  - rewrite (top_failing_eq pf df Hs Hn Ht), (top_failing_eq pf' df Hs Hn Ht).
    destruct (nlargest_value_counts pf 5 (failure_names df))
      as [l [-> [Hp Hsorted]]].
    destruct (nlargest_value_counts pf' 5 (failure_names df))
      as [l' [-> [Hp' Hsorted']]].
    f_equal. f_equal. apply sorted_unique; try assumption.
    + rewrite Hp, Hp'. reflexivity.
    + eapply Permutation_NoDup; [|exact Hnd].
      apply Permutation_map. symmetry. exact Hp.
  - rewrite (top_failing_not_text pf df Hs Ht).
    rewrite (top_failing_not_text pf' df Hs Ht). reflexivity.
Qed.

(** C5, as the code has it. On a table whose Status column pandas holds as
    text the four metrics are the numbers of rows whose status, lowercased,
    is succeeded, failed, inprogress and queued; a status no row has gives
    zero, and nothing is raised; the dashboard shows these four metrics
    first.  On any other Status column line 98 raises AttributeError. *)
Theorem key_metrics_spec
        (pf : counts -> value * nat -> value * nat -> bool)
        (df : DataFrame value) :
  has_column "Status" df = true ->
  (has_str (column_values "Status" df) = true ->
   key_metrics pf df
   = ([Metric "Succeeded" (status_count "succeeded" df);
       Metric "Failed" (status_count "failed" df);
       Metric "In Progress" (status_count "inprogress" df);
       Metric "Queued" (status_count "queued" df)],
      inr tt))
  /\ (has_str (column_values "Status" df) = false ->
      key_metrics pf df = raise AttributeError)
  /\ (forall k,
        (forall r, In r (rows df) ->
                   eq_text k (str_lower (loc "Status" r)) = false) ->
        status_count k df = 0)
  /\ (forall td w f,
        uploaded_file w = Some f ->
        has_column "Pipeline name" df = true ->
        has_str (column_values "Status" df) = true ->
        exists rest,
          trace (tab2 pf td w (Some df))
          = [Header "Pipeline Dashboard"; Subheader "Key Metrics";
             Metric "Succeeded" (status_count "succeeded" df);
             Metric "Failed" (status_count "failed" df);
             Metric "In Progress" (status_count "inprogress" df);
             Metric "Queued" (status_count "queued" df)] ++ rest).
Proof.
  intros Hs. split; [apply key_metrics_eq; exact Hs|].
  split; [apply key_metrics_not_text; exact Hs|]. split.
  - intros k Hnone. unfold status_count.
    rewrite (proj2 (List.length_zero_iff_nil _)); [reflexivity|].
    induction (rows df) as [|r t IH]; simpl; [reflexivity|].
    rewrite (Hnone r (or_introl eq_refl)). apply IH.
    intros r' Hr'. apply Hnone. now right.
  - intros td w f Hup Hn Ht. unfold tab2. rewrite Hup, Hs, Hn. simpl negb.
    simpl orb. cbv iota. rewrite (key_metrics_eq pf df Hs Ht). run.
    eexists. rewrite trace_after. reflexivity.
Qed.

Lemma key_metrics_spec_witness :
  key_metrics Sample.name_descending
    (Sample.of_statuses
       ["Succeeded"; "Failed"; "Failed"; "Queued"; "succeeded"])
  = ([Metric "Succeeded" 2; Metric "Failed" 2; Metric "In Progress" 0;
      Metric "Queued" 1],
     inr tt).
Proof.
  destruct (key_metrics_spec Sample.name_descending
              (Sample.of_statuses
                 ["Succeeded"; "Failed"; "Failed"; "Queued"; "succeeded"])
              eq_refl) as [Hk _].
  rewrite Hk; reflexivity.
Defined.

(** C5, as stated, fails: the table below has a Status column whose fields
    are all empty; the specification has every metric count zero, but line 98
    raises AttributeError and the dashboard stops under its first
    subheader. *)
Lemma status_not_text_metrics_raise :
  has_column "Status" Cases.blank_status = true
  /\ key_metrics Sample.first_met Cases.blank_status
     = ([], inl AttributeError)
  /\ tab2 Sample.first_met Sample.to_datetime
          (Sample.view Cases.blank_status false) (Some Cases.blank_status)
     = ([Header "Pipeline Dashboard"; Subheader "Key Metrics"],
        inl AttributeError).
Proof. repeat split. Qed.



(** The example of the specification: three failures of A, two of B, one
    of C.  The counts differ, so every sort gives this ranking. *)
Example top_failing_example
        (pf : counts -> value * nat -> value * nat -> bool) :
  top_failing pf (Sample.of_failures ["A"; "B"; "A"; "C"; "A"; "B"])
  = ret [(Str "A", 3); (Str "B", 2); (Str "C", 1)].
Proof.
  rewrite (top_failing_unique pf Sample.first_met);
    [reflexivity | reflexivity | reflexivity|].
  vm_compute. repeat constructor; simpl; intuition discriminate.
Qed.

(** Only five entries are kept. *)
Example top_failing_truncated :
  top_failing Sample.first_met
    (Sample.of_failures ["a"; "b"; "c"; "d"; "e"; "f"; "f"])
  = ret [(Str "f", 2); (Str "a", 1); (Str "b", 1); (Str "c", 1);
         (Str "d", 1)].
Proof. reflexivity. Qed.


(* ================================================================== *)
(** ** Daily runs (lines 142-145) *)

Section AssignFacts.

Context {C : Type} `{Missing C}.

Lemma assign_rows_length (name : string) (vals : list C)
      (rs : list (row C)) :
  List.length vals = List.length rs ->
  List.length (assign_rows name vals rs) = List.length rs.
Proof.
  revert vals. induction rs as [|r t IH]; intros [|v vs]; simpl;
    try discriminate; try reflexivity.
  intros [= Hl]. rewrite IH by exact Hl. reflexivity.
Qed.

Lemma column_values_written (name : string) (vals : list C)
      (df : DataFrame C) :
  List.length vals = List.length (rows df) ->
  column_values name (assign name vals df) = vals.
Proof.
  unfold column_values, assign. simpl. generalize (rows df) as rs.
  induction vals as [|v vs IH]; intros [|r t]; simpl;
    try discriminate; try reflexivity.
  intros [= Hl]. rewrite loc_set_cell, IH by exact Hl. reflexivity.
Qed.

Lemma column_values_kept (name other : string) (vals : list C)
      (df : DataFrame C) :
  other <> name ->
  List.length vals = List.length (rows df) ->
  column_values other (assign name vals df) = column_values other df.
Proof.
  intros Hne. unfold column_values, assign. simpl.
  generalize (rows df) as rs.
  induction vals as [|v vs IH]; intros [|r t]; simpl;
    try discriminate; try reflexivity.
  intros [= Hl]. rewrite loc_set_cell_other, IH by assumption. reflexivity.
Qed.

End AssignFacts.

Section DayFacts.








End DayFacts.

(** The day pandas gives for a datetime cell is the calendar day of the
    reading of the run's own clock. *)
Lemma date_of_datetime_cell (parse : value -> option (Z * Z)) (v : value) :
  date_of (datetime_cell parse v) = calendar_day (wall_clock (parse v)).
Proof.
  unfold datetime_cell, wall_clock. destruct (parse v) as [[ns offset]|];
    reflexivity.
Qed.



Section Daily.

Variable pf : counts -> value * nat -> value * nat -> bool.
Variable to_datetime : list value -> exn + (value -> option (Z * Z)).
Variable parse : value -> option (Z * Z).

Lemma to_datetime_coerce_reads (col : list value) :
  reads to_datetime col parse ->
  to_datetime_coerce to_datetime col = ret (map (datetime_cell parse) col).
Proof.
  unfold to_datetime_coerce. destruct col as [|v t]; [reflexivity|].
  intros [E|E]; [discriminate E|]. rewrite E. reflexivity.
Qed.

Lemma to_datetime_coerce_rejects (col : list value) (e : exn) :
  col <> [] -> to_datetime col = inl e ->
  to_datetime_coerce to_datetime col = raise e.
Proof.
  unfold to_datetime_coerce. destruct col as [|v t]; [congruence|].
  intros _ E. rewrite E. reflexivity.
Qed.

Lemma datetime_cells (col : list value) :
  forallb is_datetime (map (datetime_cell parse) col) = true.
Proof.
  apply forallb_forall. intros c Hc. apply in_map_iff in Hc as [v [<- _]].
  unfold datetime_cell. destruct (parse v) as [[ns offset]|]; reflexivity.
Qed.

Lemma rows_as_cells_length (df : DataFrame value) :
  List.length (rows (as_cells df)) = List.length (rows df).
Proof. apply length_map. Qed.

Lemma column_values_length {C} `{Missing C} (name : string)
      (df : DataFrame C) :
  List.length (column_values name df) = List.length (rows df).
Proof. apply length_map. Qed.

Lemma parsed_length (df : DataFrame value) :
  List.length (map (datetime_cell parse) (column_values "Run start" df))
  = List.length (rows (as_cells df)).
Proof.
  rewrite length_map, rows_as_cells_length. apply column_values_length.
Qed.

Lemma daily_runs_eq (df : DataFrame value) :
  has_column "Run start" df = true ->
  reads to_datetime (column_values "Run start" df) parse ->
  daily_runs to_datetime df
  = ret (converted parse df, day_buckets parse df).
Proof.
  intros Hr Hread. unfold daily_runs. rewrite (getitem_present _ _ Hr). run.
  rewrite (to_datetime_coerce_reads _ Hread). run.
  set (parsed := map (datetime_cell parse) (column_values "Run start" df)).
  pose proof (parsed_length df) as Hlen. fold parsed in Hlen.
  rewrite (getitem_present "Run start"
             (assign "Run start" parsed (as_cells df)))
    by apply has_column_assign.
  run. rewrite (column_values_written _ _ _ Hlen).
  unfold dt_date. unfold parsed at 1.
  rewrite datetime_cells. run.
  rewrite (getitem_present "Date") by apply has_column_assign.
  run. rewrite column_values_written; [reflexivity|].
  rewrite length_map. simpl rows.
  rewrite (assign_rows_length _ _ _ Hlen). exact Hlen.
Qed.

(** When pandas rejects the column, line 143 stops the run. *)
Lemma daily_runs_rejected (df : DataFrame value) (e : exn) :
  has_column "Run start" df = true ->
  rows df <> [] ->
  to_datetime (column_values "Run start" df) = inl e ->
  daily_runs to_datetime df = raise e.
Proof.
  intros Hr Hrows He. unfold daily_runs. rewrite (getitem_present _ _ Hr).
  run. rewrite (to_datetime_coerce_rejects _ e); [reflexivity | | exact He].
  unfold column_values. destruct (rows df); [congruence | discriminate].
Qed.



Lemma run_summary_pie (df : DataFrame value) :
  has_column "Status" df = true ->
  has_column "Pipeline name" df = true ->
  In (PieChart (value_counts pf (column_values "Status" df)))
     (trace (run_summary pf df)).
Proof.
  intros Hs Hn. unfold run_summary. rewrite Hs, Hn. simpl andb. cbv iota.
  rewrite (getitem_present _ _ Hs). run. rewrite trace_after.
  apply in_or_app. left. simpl. tauto.
Qed.

Lemma run_summary_eq (df : DataFrame value) :
  has_column "Status" df = true ->
  has_column "Pipeline name" df = true ->
  has_str (column_values "Status" df) = true ->
  run_summary pf df
  = ([Subheader "Pipeline Run Summary";
      PieChart (value_counts pf (column_values "Status" df));
      BarChart (nlargest pf 5 (value_counts pf (failure_names df)))],
     inr tt).
Proof.
  intros Hs Hn Ht. unfold run_summary. rewrite Hs, Hn. simpl andb. cbv iota.
  rewrite (getitem_present _ _ Hs), (top_failing_eq pf df Hs Hn Ht). run.
  reflexivity.
Qed.

(** The dashboard up to the line chart, on a table with the two columns
    the summary reads and a Status column held as text. *)
Lemma tab2_summary (w : widgets) (f : upload) (df : DataFrame value) :
  uploaded_file w = Some f ->
  has_column "Status" df = true ->
  has_column "Pipeline name" df = true ->
  has_str (column_values "Status" df) = true ->
  tab2 pf to_datetime w (Some df)
  = after [Header "Pipeline Dashboard"; Subheader "Key Metrics";
           Metric "Succeeded" (status_count "succeeded" df);
           Metric "Failed" (status_count "failed" df);
           Metric "In Progress" (status_count "inprogress" df);
           Metric "Queued" (status_count "queued" df);
           Subheader "Pipeline Run Summary";
           PieChart (value_counts pf (column_values "Status" df));
           BarChart (nlargest pf 5 (value_counts pf (failure_names df)))]
      (df' <- runs_over_time to_datetime df ;; ret (Some df')).
Proof.
  intros Hup Hs Hn Ht. unfold tab2. rewrite Hup, Hs, Hn. simpl negb.
  simpl orb. cbv iota.
  rewrite (key_metrics_eq pf df Hs Ht), (run_summary_eq df Hs Hn Ht).
  run. reflexivity.
Qed.

(** The dashboard on a Status column that is not text: it stops under its
    first subheader. *)
Lemma tab2_status_not_text (w : widgets) (f : upload) (df : DataFrame value) :
  uploaded_file w = Some f ->
  has_column "Status" df = true ->
  has_column "Pipeline name" df = true ->
  has_str (column_values "Status" df) = false ->
  tab2 pf to_datetime w (Some df)
  = ([Header "Pipeline Dashboard"; Subheader "Key Metrics"],
     inl AttributeError).
Proof.
  intros Hup Hs Hn Ht. unfold tab2. rewrite Hup, Hs, Hn. simpl negb.
  simpl orb. cbv iota.
  rewrite (key_metrics_not_text pf df Hs Ht). reflexivity.
Qed.

(** The whole dashboard on a table with the three columns it reads. *)
Lemma tab2_eq (w : widgets) (f : upload) (df : DataFrame value) :
  uploaded_file w = Some f ->
  has_column "Status" df = true ->
  has_column "Pipeline name" df = true ->
  has_column "Run start" df = true ->
  has_str (column_values "Status" df) = true ->
  reads to_datetime (column_values "Run start" df) parse ->
  tab2 pf to_datetime w (Some df)
  = ([Header "Pipeline Dashboard"; Subheader "Key Metrics";
      Metric "Succeeded" (status_count "succeeded" df);
      Metric "Failed" (status_count "failed" df);
      Metric "In Progress" (status_count "inprogress" df);
      Metric "Queued" (status_count "queued" df);
      Subheader "Pipeline Run Summary";
      PieChart (value_counts pf (column_values "Status" df));
      BarChart (nlargest pf 5 (value_counts pf (failure_names df)));
      Subheader "Pipeline Runs Over Time (Line Chart)";
      LineChart (day_buckets parse df)],
     inr (Some (converted parse df))).
Proof.
  intros Hup Hs Hn Hr Ht Hread.
  rewrite (tab2_summary w f df Hup Hs Hn Ht).
  unfold runs_over_time. rewrite Hr, (daily_runs_eq df Hr Hread). run.
  reflexivity.
Qed.


End Daily.


(** Five rows, one of them with a run start that is not a date: four runs
    in the buckets, two on 10 June 2025 and two on 11 June 2025. *)
Example daily_runs_example :
  outcome (daily_runs Sample.to_datetime Sample.logs)
  = inr (converted (Sample.parse (column_values "Run start" Sample.logs))
                   Sample.logs,
         [(20249%Z, 2); (20250%Z, 2)])
  /\ Sample.days_from_civil 2025 6 10 = 20249%Z.
Proof. split; reflexivity. Qed.

(** The day is that of the run's own clock.  The first two runs below
    start on the evening of 10 June on a clock five hours behind UTC, when
    the day in UTC is already 11 June: they are counted on 10 June. *)
Example daily_runs_local_day :
  day_buckets (Sample.parse (column_values "Run start" Cases.evening))
              Cases.evening
  = [(20249%Z, 2); (20250%Z, 1)]
  /\ map (fun r =>
            option_map (fun i => (fst i / ns_per_day)%Z)
              (Sample.parse (column_values "Run start" Cases.evening)
                            (loc "Run start" r)))
         (rows Cases.evening)
     = [Some 20250%Z; Some 20250%Z; Some 20250%Z]
  /\ In (LineChart [(20249%Z, 2); (20250%Z, 1)])
        (trace (tab2 Sample.first_met Sample.to_datetime
                     (Sample.view Cases.evening false)
                     (Some Cases.evening))).
Proof. split; [reflexivity|]. split; [reflexivity|]. vm_compute. tauto. Qed.

(** A column that pandas rejects stops the dashboard at line 143, after
    the summary. *)
Example daily_runs_rejected_example :
  tab2 Sample.first_met Cases.rejecting (Sample.view Sample.no_status false)
       (Some (Sample.of_failures ["A"]))
  = ([Header "Pipeline Dashboard"; Subheader "Key Metrics";
      Metric "Succeeded" 0; Metric "Failed" 1; Metric "In Progress" 0;
      Metric "Queued" 0; Subheader "Pipeline Run Summary";
      PieChart [(Str "Failed", 1)]; BarChart [(Str "A", 1)]],
     inl ValueError).
Proof. reflexivity. Qed.

(* ================================================================== *)
(** ** What a run writes into its tables (lines 57 and 143-144) *)

Lemma has_column_assign_kept {C} `{Missing C} (name other : string)
      (vals : list C) (df : DataFrame C) :
  other <> name ->
  has_column other (assign name vals df) = has_column other df.
Proof.
  intros Hne. unfold assign, has_column at 1. simpl.
  destruct (has_column name df); [reflexivity|].
  rewrite existsb_app. simpl. unfold has_column.
  destruct (String.eqb_spec other name); [congruence|].
  rewrite !orb_false_r. reflexivity.
Qed.

(** Lines 54-79 once the keys are derived; the Error column is read only
    once a row has been selected. *)
Lemma diagnose_steps (mi : string -> string -> option string)
      (w : widgets) (df fd : DataFrame value) :
  has_column "Pipeline name" fd = true ->
  has_column "Run start" fd = true ->
  derivable df fd = true ->
  let keys := map pipeline_key (rows fd) in
  let selected := selectbox keys (selection w) in
  diagnose mi w df fd
  = after [Subheader "Ask AI to Debug a Failed Pipeline"; Selectbox keys]
      (match resolve selected fd with
       | Some r =>
           if has_column "Error" fd
           then analyze_button mi w selected (loc "Error" r)
           else raise (KeyError "Error")
       | None => ret tt
       end ;;
       ret (with_keys fd)).
Proof.
  intros Hn Hr Hd keys selected. unfold diagnose.
  rewrite (derive_keys_eq df fd Hn Hr), Hd. run.
  fold (with_keys fd).
  assert (Hk : has_column "PipelineKey" (with_keys fd) = true)
    by apply has_column_assign.
  rewrite (getitem_present _ _ Hk). run.
  rewrite boolean_index_column.
  assert (Hcol : column_values "PipelineKey" (with_keys fd) = keys)
    by apply column_values_assign.
  rewrite Hcol. fold selected.
  set (chosen := filter (fun r => eq_value selected (loc "PipelineKey" r))
                        (rows (with_keys fd))).
  set (selected_row := {| columns := columns (with_keys fd);
                          rows := chosen |}).
  assert (Hk' : has_column "PipelineKey" selected_row = true) by exact Hk.
  rewrite (empty_rows _ _ Hk'). simpl rows.
  assert (He : has_column "Error" selected_row = has_column "Error" fd).
  { change (has_column "Error" selected_row)
      with (has_column "Error" (with_keys fd)).
    apply has_column_assign_kept. discriminate. }
  pose proof (selected_rows_resolve selected (rows fd)) as Hsel.
  cbv zeta in Hsel. unfold resolve.
  assert (Hrows : rows (with_keys fd)
                  = map (fun r => set_cell "PipelineKey" (pipeline_key r) r)
                        (rows fd))
    by apply assign_rows_map.
  unfold getitem. rewrite He. unfold chosen. rewrite Hrows.
  destruct (find (fun r => eq_value selected (pipeline_key r)) (rows fd))
    as [r|].
  - destruct Hsel as [r' [t [Hchosen Herr]]]. rewrite Hchosen. simpl negb.
    cbv iota. destruct (has_column "Error" fd).
    + run. unfold column_values, selected_row, chosen. simpl rows.
      rewrite assign_rows_map, Hchosen. simpl map. cbv iota. rewrite Herr.
      destruct (analyze_button mi w selected (loc "Error" r))
        as [t0 [e|u]]; reflexivity.
    + run. reflexivity.
  - rewrite Hsel. simpl. run. reflexivity.
Qed.

(** The first tab with the toggle on and a failed row: the table view,
    then lines 54-79 on the failed subset. *)
Lemma tab1_diagnose (mi : string -> string -> option string)
      (w : widgets) (df : DataFrame value) :
  uploaded_file w = Some (Csv df) ->
  show_failed_only w = true ->
  has_column "Status" df = true ->
  has_str (column_values "Status" df) = true ->
  failed_rows df <> [] ->
  tab1 mi w
  = after [Header "ADF CSV Analyzer"; FileUploader; Checkbox;
           Subheader "Pipeline Execution Logs"; Dataframe (failed_subset df)]
      (fd' <- diagnose mi w df (failed_subset df) ;;
       ret (Some df, Some fd')).
Proof.
  intros Hup Hon Hs Ht Hrows.
  rewrite (tab1_with_status mi w df Hup Hs (or_intror Ht)), Hon.
  unfold ask_ai. rewrite Hon.
  assert (Hempty : empty (failed_subset df) = false).
  { rewrite (empty_rows "Status" (failed_subset df) Hs). simpl rows.
    destruct (failed_rows df); [congruence | reflexivity]. }
  rewrite Hempty. simpl negb. cbv iota.
  destruct (diagnose mi w df (failed_subset df)) as [t [e|fd']];
    [reflexivity|].
  unfold after, bind, ret. simpl. rewrite !app_nil_r. reflexivity.
Qed.

Lemma outcome_then_ret {A B} (m : M A) (b b' : B) :
  outcome (m ;; ret b) = inr b' -> b' = b.
Proof.
  destruct m as [t [e|a]]; simpl; [discriminate|]. intros [= ->].
  reflexivity.
Qed.

Section Writes.

Variable pf : counts -> value * nat -> value * nat -> bool.
Variable to_datetime : list value -> exn + (value -> option (Z * Z)).
Variable model_invoke : string -> string -> option string.
Variable parse : value -> option (Z * Z).

Lemma converted_run_start (df : DataFrame value) :
  column_values "Run start" (converted parse df)
  = map (datetime_cell parse) (column_values "Run start" df).
Proof.
  unfold converted. pose proof (parsed_length parse df) as Hlen.
  rewrite column_values_kept.
  - apply column_values_written. exact Hlen.
  - discriminate.
  - rewrite length_map. simpl rows.
    rewrite (assign_rows_length _ _ _ Hlen). exact Hlen.
Qed.

Lemma converted_date (df : DataFrame value) :
  column_values "Date" (converted parse df)
  = map (fun r => calendar_day (run_time parse r)) (rows df).
Proof.
  unfold converted. pose proof (parsed_length parse df) as Hlen.
  rewrite column_values_written.
  - unfold column_values. rewrite !map_map. apply map_ext. intros r.
    apply date_of_datetime_cell.
  - rewrite length_map. simpl rows.
    rewrite (assign_rows_length _ _ _ Hlen). exact Hlen.
Qed.

Lemma converted_other (name : string) (df : DataFrame value) :
  name <> "Run start" -> name <> "Date" ->
  column_values name (converted parse df)
  = map Raw (column_values name df).
Proof.
  intros Hr Hd. unfold converted.
  pose proof (parsed_length parse df) as Hlen.
  rewrite column_values_kept.
  - rewrite column_values_kept by assumption.
    apply column_values_as_cells.
  - exact Hd.
  - rewrite length_map. simpl rows.
    rewrite (assign_rows_length _ _ _ Hlen). exact Hlen.
Qed.

Lemma converted_columns (df : DataFrame value) :
  has_column "Run start" df = true ->
  columns (converted parse df)
  = if has_column "Date" df then columns df else columns df ++ ["Date"].
Proof.
  intros Hr. unfold converted. cbv zeta. unfold assign at 1. simpl columns.
  rewrite has_column_assign_kept by discriminate.
  rewrite has_column_as_cells.
  unfold assign. simpl columns. rewrite has_column_as_cells, Hr.
  reflexivity.
Qed.

Lemma converted_differs (df : DataFrame value) :
  rows df <> [] -> converted parse df <> as_cells df.
Proof.
  intros Hrows Heq.
  assert (Hcol : column_values "Run start" (converted parse df)
                 = column_values "Run start" (as_cells df))
    by (rewrite Heq; reflexivity).
  rewrite converted_run_start, column_values_as_cells in Hcol.
  unfold column_values in Hcol.
  destruct (rows df) as [|r t]; [congruence|]. simpl in Hcol.
  injection Hcol as Hhead _. unfold datetime_cell in Hhead.
  destruct (parse _) as [[ns offset]|]; discriminate.
Qed.

End Writes.

(** C10. A run does not leave its tables as parsed.  The dashboard, on a
    table with the columns it reads, a Status column held as text and a
    Run start column pandas converts, completes and hands on a table whose
    Run start column holds the parsed datetimes (NaT where the text does
    not parse) instead of the texts, with a Date column holding the
    calendar days of the runs' own clocks, every other column being as it
    was: a table with at least one row is no longer the as-parsed table.
    In the first tab, with the toggle on and a failed subset whose keys can
    be derived, every run that completes hands on the uploaded table as it
    was and the failed subset with a PipelineKey column holding the
    derived keys; the run completes when the Error column is there and the
    button is not clicked. *)
Theorem views_write_columns
        (pf : counts -> value * nat -> value * nat -> bool)
        (td : list value -> exn + (value -> option (Z * Z)))
        (mi : string -> string -> option string) :
  (forall w f df parse,
      uploaded_file w = Some f ->
      has_column "Status" df = true ->
      has_column "Pipeline name" df = true ->
      has_column "Run start" df = true ->
      has_str (column_values "Status" df) = true ->
      reads td (column_values "Run start" df) parse ->
      exists df',
        outcome (tab2 pf td w (Some df)) = inr (Some df')
        /\ column_values "Run start" df'
           = map (datetime_cell parse) (column_values "Run start" df)
        /\ (forall i v,
              nth_error (column_values "Run start" df) i = Some v ->
              parse v = None ->
              nth_error (column_values "Run start" df') i = Some NaT)
        /\ has_column "Date" df' = true
        /\ column_values "Date" df'
           = map (fun r => calendar_day (run_time parse r)) (rows df)
        /\ (forall name,
              name <> "Run start" -> name <> "Date" ->
              column_values name df' = map Raw (column_values name df))
        /\ (rows df <> [] -> df' <> as_cells df))
  /\ (forall w df,
        uploaded_file w = Some (Csv df) ->
        show_failed_only w = true ->
        has_column "Status" df = true ->
        has_column "Pipeline name" df = true ->
        has_column "Run start" df = true ->
        has_str (column_values "Status" df) = true ->
        failed_rows df <> [] ->
        derivable df (failed_subset df) = true ->
        (forall r, outcome (tab1 mi w) = inr r ->
                   r = (Some df, Some (with_keys (failed_subset df))))
        /\ has_column "PipelineKey" (with_keys (failed_subset df)) = true
        /\ column_values "PipelineKey" (with_keys (failed_subset df))
           = map pipeline_key (failed_rows df)
        /\ (has_column "Error" df = true -> analyze w = false ->
            outcome (tab1 mi w)
            = inr (Some df, Some (with_keys (failed_subset df))))).
Proof.
  split.
  - intros w f df parse Hup Hs Hn Hr Ht Hread. exists (converted parse df).
    split; [rewrite (tab2_eq pf td parse w f df Hup Hs Hn Hr Ht Hread);
            reflexivity|].
    split; [apply converted_run_start|].
    split.
    { intros i v Hi Hv. rewrite converted_run_start.
      rewrite nth_error_map, Hi. simpl.
      unfold datetime_cell. rewrite Hv. reflexivity. }
    split; [apply has_column_assign|].
    split; [apply converted_date|].
    split; [intros name; apply converted_other | apply converted_differs].
  - intros w df Hup Hon Hs Hn Hr Ht Hrows Hd.
    pose proof (tab1_diagnose mi w df Hup Hon Hs Ht Hrows) as Htab.
    pose proof (diagnose_steps mi w df (failed_subset df) Hn Hr Hd) as Hdiag.
    cbv zeta in Hdiag. rewrite Hdiag in Htab. clear Hdiag.
    split.
    { intros r Hout. rewrite Htab in Hout.
      match type of Hout with
      | context [bind ?m (fun _ => ret (with_keys _))] =>
          destruct m as [t0 [e|u]]
      end; simpl in Hout; [discriminate Hout|].
      injection Hout as <-. reflexivity. }
    split; [apply has_column_assign|].
    split; [apply column_values_assign|].
    intros He Hw. rewrite Htab. run. rewrite !outcome_after.
    change (has_column "Error" (failed_subset df))
      with (has_column "Error" df). rewrite He.
    destruct (resolve _ (failed_subset df)); [|reflexivity].
    rewrite analyze_button_idle by exact Hw. reflexivity.
Qed.

Lemma views_write_columns_witness :
  exists df',
    outcome (tab2 Sample.first_met Sample.to_datetime
                  (Sample.view Sample.logs true) (Some Sample.logs))
    = inr (Some df')
    /\ column_values "Run start" df'
       = [Timestamp 1749513600000000000 0; Timestamp 1749513600000000000 0;
          NaT; Timestamp 1749600000000000000 0;
          Timestamp 1749600000000000000 0]
    /\ column_values "Date" df'
       = [Date 20249; Date 20249; NaT; Date 20250; Date 20250]
    /\ df' <> as_cells Sample.logs.
Proof.
  destruct (views_write_columns Sample.first_met Sample.to_datetime
              Sample.model_invoke) as [Hdash _].
  destruct (Hdash (Sample.view Sample.logs true) (Csv Sample.logs)
                  Sample.logs
                  (Sample.parse (column_values "Run start" Sample.logs))
                  eq_refl eq_refl eq_refl eq_refl eq_refl
                  (or_intror eq_refl))
    as [df' [Hout [Hrun [_ [_ [Hdate [_ Hdiff]]]]]]].
  exists df'. split; [exact Hout|]. split; [|split].
  - rewrite Hrun. reflexivity.
  - rewrite Hdate. reflexivity.
  - apply Hdiff. discriminate.
Defined.

(** The same run of the first tab, on the sample table: the failed subset
    handed on has the keys, the uploaded table is handed on as read. *)
Example key_column_written :
  outcome (tab1 Sample.model_invoke (Sample.view Sample.logs true))
  = inr (Some Sample.logs, Some (with_keys (failed_subset Sample.logs)))
  /\ column_values "PipelineKey" (with_keys (failed_subset Sample.logs))
     = [Str "copy_sales - 2025-06-10"; Str "copy_sales - soon";
        Str "load_fact - 2025-06-11"]
  /\ has_column "PipelineKey" Sample.logs = false.
Proof. repeat split. Qed.

(* ================================================================== *)
(** ** Runs without a table, and the dashboard's guards (lines 81-93, 142) *)

(** X1. Without an uploaded file the run completes: each of the first two tabs
    shows its notice, no table, metric or chart is rendered, no call is
    made, and no table is bound, whatever the other widgets hold. *)
Theorem no_upload_run
        (pf : counts -> value * nat -> value * nat -> bool)
        (td : list value -> exn + (value -> option (Z * Z)))
        (mi : string -> string -> option string) (w : widgets) :
  uploaded_file w = None ->
  app pf td mi w
  = ([Title "Azure Data Factory Toolkit"; Header "ADF CSV Analyzer";
      FileUploader; Info upload_notice; Header "Pipeline Dashboard";
      Info dashboard_notice; Header "About This App";
      Markdown "ADF Logs Viewer"; Header "Active Failures"],
     inr {| df_final := None; failed_df_final := None |}).
Proof.
  intros Hup. unfold app, tab1, tab2. rewrite Hup. reflexivity.
Qed.

Lemma no_upload_run_witness :
  invocations
    (trace (app Sample.first_met Sample.to_datetime Sample.model_invoke
                Cases.idle)) = 0.
Proof.
  rewrite (no_upload_run Sample.first_met Sample.to_datetime
             Sample.model_invoke Cases.idle eq_refl).
  reflexivity.
Defined.

(** X2. When the Status or the Pipeline name column is missing, the dashboard
    shows its warning and nothing else: no metric, no chart, and the table
    is handed on as parsed, even if it has a Run start column. *)
Theorem dashboard_requires_columns
        (pf : counts -> value * nat -> value * nat -> bool)
        (td : list value -> exn + (value -> option (Z * Z)))
        (w : widgets) (f : upload) (df : DataFrame value) :
  uploaded_file w = Some f ->
  has_column "Status" df = false \/ has_column "Pipeline name" df = false ->
  tab2 pf td w (Some df)
  = ([Header "Pipeline Dashboard"; Warning dashboard_warning],
     inr (Some (as_cells df))).
Proof.
  intros Hup Hmiss. unfold tab2. rewrite Hup.
  assert (Hguard : negb (has_column "Status" df)
                   || negb (has_column "Pipeline name" df) = true).
  { destruct Hmiss as [-> | ->]; [reflexivity | apply orb_true_r]. }
  rewrite Hguard. reflexivity.
Qed.

Lemma dashboard_requires_columns_witness :
  tab2 Sample.first_met Sample.to_datetime
       (Sample.view Sample.no_status false) (Some Sample.no_status)
  = ([Header "Pipeline Dashboard"; Warning dashboard_warning],
     inr (Some (as_cells Sample.no_status))).
Proof.
  apply (dashboard_requires_columns Sample.first_met Sample.to_datetime
           (Sample.view Sample.no_status false) (Csv Sample.no_status)).
  - reflexivity.
  - left. reflexivity.
Defined.

(** X3. With the Status and Pipeline name columns but no Run start column,
    and a Status column held as text, the dashboard completes with the
    metrics and the two charts of the summary, draws no line chart, and
    hands the table on as parsed (no Date column is added); the parser is
    not called. *)
Theorem dashboard_without_run_start
        (pf : counts -> value * nat -> value * nat -> bool)
        (td : list value -> exn + (value -> option (Z * Z)))
        (w : widgets) (f : upload) (df : DataFrame value) :
  uploaded_file w = Some f ->
  has_column "Status" df = true ->
  has_column "Pipeline name" df = true ->
  has_column "Run start" df = false ->
  has_str (column_values "Status" df) = true ->
  tab2 pf td w (Some df)
  = ([Header "Pipeline Dashboard"; Subheader "Key Metrics";
      Metric "Succeeded" (status_count "succeeded" df);
      Metric "Failed" (status_count "failed" df);
      Metric "In Progress" (status_count "inprogress" df);
      Metric "Queued" (status_count "queued" df);
      Subheader "Pipeline Run Summary";
      PieChart (value_counts pf (column_values "Status" df));
      BarChart (nlargest pf 5 (value_counts pf (failure_names df)))],
     inr (Some (as_cells df))).
Proof.
  intros Hup Hs Hn Hr Ht. rewrite (tab2_summary pf td w f df Hup Hs Hn Ht).
  unfold runs_over_time. rewrite Hr. run. reflexivity.
Qed.

Lemma dashboard_without_run_start_witness :
  outcome (tab2 Sample.first_met Cases.rejecting
                (Sample.view Cases.summary_only false)
                (Some Cases.summary_only))
  = inr (Some (as_cells Cases.summary_only)).
Proof.
  rewrite (dashboard_without_run_start Sample.first_met Cases.rejecting
             (Sample.view Cases.summary_only false)
             (Csv Cases.summary_only) Cases.summary_only
             eq_refl eq_refl eq_refl eq_refl eq_refl).
  reflexivity.
Defined.

(** X4. On a table that has the columns but no row, the dashboard completes:
    the four metrics are zero and the three charts are empty. *)
Theorem dashboard_of_empty_table
        (pf : counts -> value * nat -> value * nat -> bool)
        (td : list value -> exn + (value -> option (Z * Z)))
        (w : widgets) (f : upload) (df : DataFrame value) :
  uploaded_file w = Some f ->
  has_column "Status" df = true ->
  has_column "Pipeline name" df = true ->
  has_column "Run start" df = true ->
  rows df = [] ->
  trace (tab2 pf td w (Some df))
  = [Header "Pipeline Dashboard"; Subheader "Key Metrics";
     Metric "Succeeded" 0; Metric "Failed" 0; Metric "In Progress" 0;
     Metric "Queued" 0; Subheader "Pipeline Run Summary"; PieChart [];
     BarChart []; Subheader "Pipeline Runs Over Time (Line Chart)";
     LineChart []]
  /\ exists df', outcome (tab2 pf td w (Some df)) = inr (Some df')
                 /\ rows df' = [].
Proof.
  intros Hup Hs Hn Hr Hrows.
  assert (Hcol : forall name, column_values name df = []).
  { intros name. unfold column_values. rewrite Hrows. reflexivity. }
  assert (Ht : has_str (column_values "Status" df) = true)
    by (rewrite Hcol; reflexivity).
  assert (Hread : reads td (column_values "Run start" df) (fun _ => None))
    by (left; apply Hcol).
  rewrite (tab2_eq pf td (fun _ => None) w f df Hup Hs Hn Hr Ht Hread).
  split.
  - unfold status_count, failure_names, failed_rows, day_buckets.
    rewrite !Hcol, Hrows. reflexivity.
  - exists (converted (fun _ => None) df). split; [reflexivity|].
    unfold converted, as_cells. rewrite Hcol, Hrows. reflexivity.
Qed.

Lemma dashboard_of_empty_table_witness :
  trace (tab2 Sample.first_met Cases.rejecting
              (Sample.view (Sample.table []) false)
              (Some (Sample.table [])))
  = [Header "Pipeline Dashboard"; Subheader "Key Metrics";
     Metric "Succeeded" 0; Metric "Failed" 0; Metric "In Progress" 0;
     Metric "Queued" 0; Subheader "Pipeline Run Summary"; PieChart [];
     BarChart []; Subheader "Pipeline Runs Over Time (Line Chart)";
     LineChart []].
Proof.
  apply (dashboard_of_empty_table Sample.first_met Cases.rejecting
           (Sample.view (Sample.table []) false) (Csv (Sample.table []))
           (Sample.table []) eq_refl eq_refl eq_refl eq_refl eq_refl).
Defined.

(* ================================================================== *)
(** ** The diagnosis path when a column or a key is missing (lines 57-64) *)

Lemma resolve_selected (fd : DataFrame value) (i : nat) :
  rows fd <> [] ->
  selectbox (map pipeline_key (rows fd)) i <> NaN ->
  exists r, resolve (selectbox (map pipeline_key (rows fd)) i) fd = Some r.
Proof.
  intros Hrows Hsel. apply (resolve_text fd i Hrows) in Hsel.
  destruct (resolve _ fd) as [r|]; [eexists; reflexivity | congruence].
Qed.

Lemma resolve_missing (fd : DataFrame value) : resolve NaN fd = None.
Proof.
  unfold resolve. induction (rows fd) as [|r t IH]; [reflexivity | exact IH].
Qed.

(** X5. With the toggle on and a failed row in a table whose Status column
    is text, line 57 stops the run when a column it reads is missing: with
    KeyError on the Pipeline name column when that one is missing; when
    only Run start is missing, with KeyError on it if the separator could
    be added to the names (the name column is held as objects and the
    failed rows have texts or nothing for a name), and with TypeError
    otherwise, since the names are added to before Run start is looked
    up.  The table view and the section title have been rendered, the
    selector and the button have not. *)
Theorem key_column_missing
        (mi : string -> string -> option string)
        (w : widgets) (df : DataFrame value) :
  uploaded_file w = Some (Csv df) ->
  show_failed_only w = true ->
  has_column "Status" df = true ->
  has_str (column_values "Status" df) = true ->
  failed_rows df <> [] ->
  (has_column "Pipeline name" df = false ->
   tab1 mi w
   = ([Header "ADF CSV Analyzer"; FileUploader; Checkbox;
       Subheader "Pipeline Execution Logs"; Dataframe (failed_subset df);
       Subheader "Ask AI to Debug a Failed Pipeline"],
      inl (KeyError "Pipeline name")))
  /\ (has_column "Pipeline name" df = true ->
      has_column "Run start" df = false ->
      tab1 mi w
      = ([Header "ADF CSV Analyzer"; FileUploader; Checkbox;
          Subheader "Pipeline Execution Logs"; Dataframe (failed_subset df);
          Subheader "Ask AI to Debug a Failed Pipeline"],
         inl (if is_object (column_values "Pipeline name" df)
                 && forallb (fun v => is_str v || isna v)
                            (map (loc "Pipeline name") (failed_rows df))
              then KeyError "Run start" else TypeError))).
Proof.
  intros Hup Hon Hs Ht Hrows.
  rewrite (tab1_diagnose mi w df Hup Hon Hs Ht Hrows).
  unfold diagnose. split.
  - intros Hn.
    rewrite (derive_keys_no_name df (failed_subset df) Hn). reflexivity.
  - intros Hn Hr.
    rewrite (derive_keys_no_start df (failed_subset df) Hn Hr).
    change (column_values "Pipeline name" (failed_subset df))
      with (map (loc "Pipeline name") (failed_rows df)).
    destruct (is_object (column_values "Pipeline name" df)
              && forallb (fun v => is_str v || isna v)
                         (map (loc "Pipeline name") (failed_rows df)));
      reflexivity.
Qed.

Lemma key_column_missing_witness :
  outcome (tab1 Sample.model_invoke (Sample.view Cases.summary_only true))
  = inl (KeyError "Run start").
Proof.
  destruct (key_column_missing Sample.model_invoke
              (Sample.view Cases.summary_only true) Cases.summary_only
              eq_refl eq_refl eq_refl eq_refl) as [_ Hrun].
  - discriminate.
  - rewrite Hrun; reflexivity.
Defined.

(** Failed runs without names, in a table without Run start: the addition
    to the names fails before Run start is looked up. *)
Example unnamed_before_run_start :
  has_column "Run start" Cases.unnamed = false
  /\ outcome (tab1 Sample.model_invoke (Sample.view Cases.unnamed true))
     = inl TypeError.
Proof. split; reflexivity. Qed.

(** X6. With the toggle on, a failed subset whose keys can be derived and a
    selected key that is not missing, a table without the Error column
    stops the run at line 64 with KeyError: the selector has been
    rendered, the button has not, whether or not a click is pending. *)
Theorem error_column_missing
        (mi : string -> string -> option string)
        (w : widgets) (df : DataFrame value) :
  uploaded_file w = Some (Csv df) ->
  show_failed_only w = true ->
  has_column "Status" df = true ->
  has_column "Pipeline name" df = true ->
  has_column "Run start" df = true ->
  has_column "Error" df = false ->
  has_str (column_values "Status" df) = true ->
  failed_rows df <> [] ->
  derivable df (failed_subset df) = true ->
  selectbox (map pipeline_key (failed_rows df)) (selection w) <> NaN ->
  tab1 mi w
  = ([Header "ADF CSV Analyzer"; FileUploader; Checkbox;
      Subheader "Pipeline Execution Logs"; Dataframe (failed_subset df);
      Subheader "Ask AI to Debug a Failed Pipeline";
      Selectbox (map pipeline_key (failed_rows df))],
     inl (KeyError "Error")).
Proof.
  intros Hup Hon Hs Hn Hr He Ht Hrows Hd Hsel.
  rewrite (tab1_diagnose mi w df Hup Hon Hs Ht Hrows).
  rewrite (diagnose_steps mi w df (failed_subset df) Hn Hr Hd).
  destruct (resolve_selected (failed_subset df) (selection w) Hrows Hsel)
    as [r Hres].
  simpl rows in *. rewrite Hres.
  change (has_column "Error" (failed_subset df))
    with (has_column "Error" df).
  rewrite He. run. reflexivity.
Qed.

Lemma error_column_missing_witness :
  outcome (tab1 Sample.model_invoke (Sample.view Cases.no_error true))
  = inl (KeyError "Error").
Proof.
  rewrite (error_column_missing Sample.model_invoke
             (Sample.view Cases.no_error true) Cases.no_error
             eq_refl eq_refl eq_refl eq_refl eq_refl eq_refl eq_refl).
  - reflexivity.
  - discriminate.
  - reflexivity.
  - discriminate.
Defined.

Lemma pipeline_key_missing (r : row value) :
  pipeline_key r = NaN
  <-> ~ (exists name run_start,
           loc "Pipeline name" r = Str name
           /\ loc "Run start" r = Str run_start).
Proof.
  unfold pipeline_key.
  destruct (loc "Pipeline name" r) as [|n|n|b];
    destruct (loc "Run start" r) as [|s|s|c]; split; intros Hk;
    try reflexivity;
    try (intros [name [run_start [E1 E2]]]; discriminate);
    try discriminate.
  exfalso. apply Hk. eauto.
Qed.

(** X7. A failed row has no key exactly when its pipeline name or its run
    start is not a text.  When the keys can be derived and the selected
    key is a missing one, it matches no row: the selector is rendered, the
    button is not, nothing is sent, the Error column is not read (it may
    even be absent), and the first tab completes. *)
Theorem missing_key_selected
        (mi : string -> string -> option string)
        (w : widgets) (df : DataFrame value) :
  uploaded_file w = Some (Csv df) ->
  show_failed_only w = true ->
  has_column "Status" df = true ->
  has_column "Pipeline name" df = true ->
  has_column "Run start" df = true ->
  has_str (column_values "Status" df) = true ->
  failed_rows df <> [] ->
  derivable df (failed_subset df) = true ->
  selectbox (map pipeline_key (failed_rows df)) (selection w) = NaN ->
  (forall r, pipeline_key r = NaN
             <-> ~ (exists name run_start,
                      loc "Pipeline name" r = Str name
                      /\ loc "Run start" r = Str run_start))
  /\ tab1 mi w
     = ([Header "ADF CSV Analyzer"; FileUploader; Checkbox;
         Subheader "Pipeline Execution Logs"; Dataframe (failed_subset df);
         Subheader "Ask AI to Debug a Failed Pipeline";
         Selectbox (map pipeline_key (failed_rows df))],
        inr (Some df, Some (with_keys (failed_subset df)))).
Proof.
  intros Hup Hon Hs Hn Hr Ht Hrows Hd Hsel.
  split; [apply pipeline_key_missing|].
  rewrite (tab1_diagnose mi w df Hup Hon Hs Ht Hrows).
  rewrite (diagnose_steps mi w df (failed_subset df) Hn Hr Hd).
  simpl rows. rewrite Hsel, resolve_missing. run. reflexivity.
Qed.

Lemma missing_key_selected_witness :
  tab1 Sample.model_invoke (Sample.press Cases.unstarted 0)
  = ([Header "ADF CSV Analyzer"; FileUploader; Checkbox;
      Subheader "Pipeline Execution Logs";
      Dataframe (failed_subset Cases.unstarted);
      Subheader "Ask AI to Debug a Failed Pipeline";
      Selectbox [NaN; Str "load_dim - 2025-06-11"]],
     inr (Some Cases.unstarted, Some (with_keys (failed_subset Cases.unstarted)))).
Proof.
  destruct (missing_key_selected Sample.model_invoke
              (Sample.press Cases.unstarted 0) Cases.unstarted
              eq_refl eq_refl eq_refl eq_refl eq_refl eq_refl)
    as [_ Hrun].
  - discriminate.
  - reflexivity.
  - reflexivity.
  - rewrite Hrun. reflexivity.
Defined.

(* ================================================================== *)
(** ** The remote call and its result (lines 66-79) *)

Lemma resolve_nonempty (selected : value) (fd : DataFrame value)
      (r : row value) :
  resolve selected fd = Some r -> rows fd <> [].
Proof.
  unfold resolve. destruct (rows fd); [discriminate | discriminate].
Qed.

(** The first tab on a click, when the selection resolves to a row whose
    error text passes the test of line 67. *)
Lemma tab1_call (mi : string -> string -> option string)
      (w : widgets) (df : DataFrame value) (r : row value) :
  uploaded_file w = Some (Csv df) ->
  show_failed_only w = true ->
  analyze w = true ->
  has_column "Status" df = true ->
  has_column "Pipeline name" df = true ->
  has_column "Run start" df = true ->
  has_column "Error" df = true ->
  has_str (column_values "Status" df) = true ->
  derivable df (failed_subset df) = true ->
  let keys := map pipeline_key (failed_rows df) in
  let selected := selectbox keys (selection w) in
  resolve selected (failed_subset df) = Some r ->
  unusable (loc "Error" r) = false ->
  tab1 mi w
  = after [Header "ADF CSV Analyzer"; FileUploader; Checkbox;
           Subheader "Pipeline Execution Logs"; Dataframe (failed_subset df);
           Subheader "Ask AI to Debug a Failed Pipeline"; Selectbox keys;
           Button; Spinner;
           Invoke system_prompt (human_prompt selected (loc "Error" r))]
      match mi system_prompt (human_prompt selected (loc "Error" r)) with
      | None => raise RemoteError
      | Some content =>
          ([Subheader "AI Suggestions"; Markdown content],
           inr (Some df, Some (with_keys (failed_subset df))))
      end.
Proof.
  intros Hup Hon Hw Hs Hn Hr He Ht Hd keys selected Hres Htext.
  pose proof (resolve_nonempty _ _ _ Hres) as Hrows. simpl rows in Hrows.
  rewrite (tab1_diagnose mi w df Hup Hon Hs Ht Hrows).
  rewrite (diagnose_resolve mi w df (failed_subset df) Hn Hr He Hd).
  simpl rows. fold keys. fold selected. rewrite Hres.
  rewrite (analyze_button_call mi w selected (loc "Error" r) Hw Htext). run.
  destruct (mi system_prompt (human_prompt selected (loc "Error" r)));
    reflexivity.
Qed.

(** X8. When the call to the model raises, the run stops there: one call has
    been made and is not repeated, no suggestion is rendered, and the
    dashboard and the later tabs are not rendered either.  The call is
    made for a selected row whose error text is missing, a text with a
    character that is not whitespace, a number other than zero, or True. *)
Theorem remote_failure_stops_run
        (pf : counts -> value * nat -> value * nat -> bool)
        (td : list value -> exn + (value -> option (Z * Z)))
        (mi : string -> string -> option string)
        (w : widgets) (df : DataFrame value) (r : row value) :
  uploaded_file w = Some (Csv df) ->
  show_failed_only w = true ->
  analyze w = true ->
  has_column "Status" df = true ->
  has_column "Pipeline name" df = true ->
  has_column "Run start" df = true ->
  has_column "Error" df = true ->
  has_str (column_values "Status" df) = true ->
  derivable df (failed_subset df) = true ->
  let keys := map pipeline_key (failed_rows df) in
  let selected := selectbox keys (selection w) in
  resolve selected (failed_subset df) = Some r ->
  unusable (loc "Error" r) = false ->
  mi system_prompt (human_prompt selected (loc "Error" r)) = None ->
  app pf td mi w
  = ([Title "Azure Data Factory Toolkit"; Header "ADF CSV Analyzer";
      FileUploader; Checkbox; Subheader "Pipeline Execution Logs";
      Dataframe (failed_subset df);
      Subheader "Ask AI to Debug a Failed Pipeline"; Selectbox keys;
      Button; Spinner;
      Invoke system_prompt (human_prompt selected (loc "Error" r))],
     inl RemoteError).
Proof.
  intros Hup Hon Hw Hs Hn Hr He Ht Hd keys selected Hres Htext Hfail.
  unfold app.
  rewrite (tab1_call mi w df r Hup Hon Hw Hs Hn Hr He Ht Hd Hres Htext).
  fold keys. fold selected. rewrite Hfail. reflexivity.
Qed.

Lemma remote_failure_stops_run_witness :
  outcome (app Sample.first_met Sample.to_datetime Cases.offline
               (Sample.press Sample.logs 1))
  = inl RemoteError
  /\ invocations
       (trace (app Sample.first_met Sample.to_datetime Cases.offline
                   (Sample.press Sample.logs 1))) = 1.
Proof.
  rewrite (remote_failure_stops_run Sample.first_met Sample.to_datetime
             Cases.offline
             (Sample.press Sample.logs 1) Sample.logs
             (Sample.record (Str "copy_sales") (Str "soon") (Str "FAILED")
                            (Str "Timeout expired"))
             eq_refl eq_refl eq_refl eq_refl eq_refl eq_refl eq_refl
             eq_refl eq_refl eq_refl eq_refl eq_refl).
  split; reflexivity.
Defined.

(** X9. When the call returns, the prompt that was sent has the fixed system
    part and a human part that quotes the selected key and the error text
    as they are, the answer is rendered as it is under its own title, and
    the first tab completes with the table untouched and the failed subset
    carrying its keys.  This is for an error text with a character that is
    not whitespace. *)
Theorem diagnosis_rendered
        (mi : string -> string -> option string)
        (w : widgets) (df : DataFrame value) (r : row value)
        (key text content : string) :
  uploaded_file w = Some (Csv df) ->
  show_failed_only w = true ->
  analyze w = true ->
  has_column "Status" df = true ->
  has_column "Pipeline name" df = true ->
  has_column "Run start" df = true ->
  has_column "Error" df = true ->
  has_str (column_values "Status" df) = true ->
  derivable df (failed_subset df) = true ->
  let keys := map pipeline_key (failed_rows df) in
  selectbox keys (selection w) = Str key ->
  resolve (Str key) (failed_subset df) = Some r ->
  loc "Error" r = Str text ->
  PyStr.all_space text = false ->
  let human :=
    ("This is the error log for pipeline '" ++ key ++ "':"
     ++ PyStr.nl ++ PyStr.nl ++ text ++ PyStr.nl ++ PyStr.nl
     ++ "Please analyze and suggest what went wrong and how to fix it."
    )%string in
  mi system_prompt human = Some content ->
  tab1 mi w
  = ([Header "ADF CSV Analyzer"; FileUploader; Checkbox;
      Subheader "Pipeline Execution Logs"; Dataframe (failed_subset df);
      Subheader "Ask AI to Debug a Failed Pipeline"; Selectbox keys;
      Button; Spinner; Invoke system_prompt human;
      Subheader "AI Suggestions"; Markdown content],
     inr (Some df, Some (with_keys (failed_subset df)))).
Proof.
  intros Hup Hon Hw Hs Hn Hr He Ht Hd keys Hsel Hres Htext Hvis human Hok.
  assert (Hres' : resolve (selectbox (map pipeline_key (failed_rows df))
                                     (selection w))
                          (failed_subset df) = Some r).
  { fold keys. rewrite Hsel. exact Hres. }
  rewrite (tab1_call mi w df r Hup Hon Hw Hs Hn Hr He Ht Hd Hres').
  - fold keys. rewrite Hsel, Htext.
    change (human_prompt (Str key) (Str text)) with human.
    rewrite Hok. reflexivity.
  - rewrite Htext. exact Hvis.
Qed.

Lemma diagnosis_rendered_witness :
  In (Markdown "Check the linked service credentials.")
     (trace (tab1 Sample.model_invoke (Sample.press Sample.logs 1))).
Proof.
  rewrite (diagnosis_rendered Sample.model_invoke
             (Sample.press Sample.logs 1) Sample.logs
             (Sample.record (Str "copy_sales") (Str "soon") (Str "FAILED")
                            (Str "Timeout expired"))
             "copy_sales - soon" "Timeout expired"
             "Check the linked service credentials."
             eq_refl eq_refl eq_refl eq_refl eq_refl eq_refl eq_refl
             eq_refl eq_refl eq_refl eq_refl eq_refl eq_refl eq_refl).
  simpl. tauto.
Defined.

(** X10. A click does exactly one of two things: it calls the model once, or it
    shows the notice once.  It shows the notice exactly when the error is a
    text made of whitespace only (the empty text included, and whitespace
    outside ASCII too), a number that is zero, or the truth value False; a
    missing error text is not among these. *)
Theorem click_calls_or_notifies
        (mi : string -> string -> option string)
        (w : widgets) (key error_text : value) :
  analyze w = true ->
  let t := trace (analyze_button mi w key error_text) in
  invocations t + notices t = 1
  /\ (notices t = 1 <->
      (exists s, error_text = Str s /\ PyStr.all_space s = true)
      \/ (exists n, error_text = Num n
                    /\ (num_zero n = true
                        \/ PyStr.all_space (num_text n) = true))
      \/ error_text = Bool false).
Proof.
  intros Hw t. unfold t.
  assert (Hcase :
            unusable error_text = true <->
            (exists s, error_text = Str s /\ PyStr.all_space s = true)
            \/ (exists n, error_text = Num n
                          /\ (num_zero n = true
                              \/ PyStr.all_space (num_text n) = true))
            \/ error_text = Bool false).
  { destruct error_text as [|s|n|[|]]; simpl; split;
      try discriminate; try tauto.
    - intros [[s [E _]]|[[n [E _]]|E]]; discriminate.
    - intros Hs. left. eauto.
    - intros [[s' [[= <-] Hs]]|[[n [E _]]|E]];
        [exact Hs | discriminate | discriminate].
    - rewrite orb_true_iff. intros Hn. right. left. eauto.
    - rewrite orb_true_iff.
      intros [[s [E _]]|[[n' [[= <-] Hn]]|E]];
        [discriminate | exact Hn | discriminate].
    - intros [[s [E _]]|[[n [E _]]|E]]; discriminate. }
  destruct (unusable error_text) eqn:Hu.
  - rewrite (analyze_button_notice mi w key error_text Hw Hu).
    split; [reflexivity|]. split; [intros _; apply Hcase; reflexivity|].
    reflexivity.
  - rewrite (analyze_button_call mi w key error_text Hw Hu).
    destruct (call_counted_once mi key error_text) as [Hc Hn].
    split; [lia|]. split.
    + intros H1. exfalso. lia.
    + intros Hyes. apply Hcase in Hyes. discriminate Hyes.
Qed.

Lemma click_calls_or_notifies_witness :
  notices (trace (analyze_button Sample.model_invoke
                    (Sample.press Sample.logs 2)
                    (Str "load_fact - 2025-06-11") (Str "   "))) = 1.
Proof.
  destruct (click_calls_or_notifies Sample.model_invoke
              (Sample.press Sample.logs 2) (Str "load_fact - 2025-06-11")
              (Str "   ") eq_refl) as [_ Hiff].
  apply Hiff. left. exists "   ". split; reflexivity.
Defined.

(** An error text of a no-break space and an em space, and an Error cell
    that is the number zero: the notice, and no call. *)
Example whitespace_outside_ascii :
  trace (tab1 Sample.model_invoke (Sample.press Cases.spaced 0))
  = [Header "ADF CSV Analyzer"; FileUploader; Checkbox;
     Subheader "Pipeline Execution Logs"; Dataframe Cases.spaced;
     Subheader "Ask AI to Debug a Failed Pipeline";
     Selectbox [Str "copy_sales - 2025-06-10"]; Button;
     Info no_error_notice]
  /\ invocations
       (trace (tab1 Sample.model_invoke (Sample.press Cases.zero_error 0)))
     = 0
  /\ notices
       (trace (tab1 Sample.model_invoke (Sample.press Cases.zero_error 0)))
     = 1
  /\ invocations
       (trace (tab1 Sample.model_invoke (Sample.press Cases.zero_error 1)))
     = 1.
Proof. repeat split. Qed.

(* ================================================================== *)
(** ** How the dashboard's numbers relate (lines 98-130) *)

Lemma bump_total (k : value) (acc : counts) :
  list_sum (map snd (bump k acc)) = S (list_sum (map snd acc)).
Proof.
  induction acc as [|[k0 n] t IH]; simpl; [reflexivity|].
  destruct (value_eqb k0 k); simpl; [reflexivity|]. rewrite IH. lia.
Qed.

Lemma tally_total (l : list value) :
  list_sum (map snd (tally l)) = List.length l.
Proof.
  induction l as [|x l IH] using rev_ind; [reflexivity|].
  rewrite tally_snoc, bump_total, IH, length_app. simpl. lia.
Qed.

Lemma list_sum_Permutation (l l' : list nat) :
  Permutation l l' -> list_sum l = list_sum l'.
Proof.
  intros Hp. induction Hp; simpl; lia.
Qed.

Lemma value_counts_total
      (pf : counts -> value * nat -> value * nat -> bool)
      (col : list value) :
  list_sum (map snd (value_counts pf col)) = List.length (dropna col).
Proof.
  destruct (value_counts_spec pf col) as [Hp _].
  rewrite (list_sum_Permutation _ _ (Permutation_map snd Hp)).
  apply tally_total.
Qed.

Lemma list_sum_firstn (n : nat) (l : list nat) :
  list_sum (firstn n l) <= list_sum l.
Proof.
  revert n. induction l as [|x t IH]; intros [|n]; simpl; try lia.
  specialize (IH n). lia.
Qed.

(** X11. On a table whose Status column is held as text, the Failed metric
    is the number of rows the failure filter keeps, and the bars of the
    top-5 chart never add up to more than it.  They add up to exactly it
    when the chart has fewer than five bars and every failed row has a
    pipeline name. *)
Theorem failed_metric_consistent
        (pf : counts -> value * nat -> value * nat -> bool)
        (df : DataFrame value) :
  has_column "Status" df = true ->
  has_column "Pipeline name" df = true ->
  has_str (column_values "Status" df) = true ->
  exists shown top,
    failure_filter true df = ret (shown, Some shown)
    /\ In (Metric "Failed" (List.length (rows shown)))
          (trace (key_metrics pf df))
    /\ top_failing pf df = ret top
    /\ list_sum (map snd top) <= List.length (rows shown)
    /\ (List.length top < 5 ->
        Forall (fun r => loc "Pipeline name" r <> NaN) (rows shown) ->
        list_sum (map snd top) = List.length (rows shown)).
Proof.
  intros Hs Hn Ht.
  destruct (nlargest_value_counts pf 5 (failure_names df))
    as [l [E [Hp Hsorted]]].
  exists (failed_subset df), (firstn 5 l).
  split; [apply failure_filter_on; assumption|].
  split.
  { rewrite (key_metrics_eq pf df Hs Ht). simpl. tauto. }
  split; [rewrite (top_failing_eq pf df Hs Hn Ht), E; reflexivity|].
  assert (Hall : list_sum (map snd l)
                 = List.length (dropna (failure_names df))).
  { rewrite (list_sum_Permutation _ _ (Permutation_map snd Hp)).
    apply tally_total. }
  assert (Hle : List.length (dropna (failure_names df))
                <= List.length (failed_rows df)).
  { unfold failure_names, dropna.
    rewrite <- (length_map (loc "Pipeline name") (failed_rows df)).
    apply filter_length_le. }
  simpl rows. split.
  - rewrite <- firstn_map.
    pose proof (list_sum_firstn 5 (map snd l)). lia.
  - intros Hshort Hnamed.
    assert (Hfull : firstn 5 l = l).
    { apply firstn_all2. rewrite length_firstn in Hshort. lia. }
    rewrite Hfull, Hall. unfold failure_names, dropna.
    rewrite length_filter_map.
    rewrite forallb_filter_id; [reflexivity|].
    apply forallb_forall. intros r Hr. rewrite Forall_forall in Hnamed.
    specialize (Hnamed r Hr). destruct (loc "Pipeline name" r);
      [congruence | reflexivity..].
Qed.

Lemma failed_metric_consistent_witness :
  exists shown top,
    failure_filter true Sample.logs = ret (shown, Some shown)
    /\ List.length (rows shown) = 3
    /\ top_failing Sample.name_descending Sample.logs = ret top
    /\ list_sum (map snd top) = 3.
Proof.
  destruct (failed_metric_consistent Sample.name_descending Sample.logs
              eq_refl eq_refl eq_refl)
    as [shown [top [Hshown [_ [Htop [_ Hsum]]]]]].
  exists shown, top. injection Hshown as <-.
  split; [reflexivity|]. split; [reflexivity|]. split; [exact Htop|].
  rewrite Hsum; [reflexivity | |].
  - injection Htop as <-. vm_compute. lia.
  - repeat constructor; discriminate.
Defined.

(** X12. The status chart has one slice per status as written in the file
    (case kept), holding the number of rows with exactly that status, by
    descending count; the slices add up to the number of rows whose status
    is present. *)
Theorem status_pie
        (pf : counts -> value * nat -> value * nat -> bool)
        (df : DataFrame value) :
  has_column "Status" df = true ->
  has_column "Pipeline name" df = true ->
  exists pie,
    In (PieChart pie) (trace (run_summary pf df))
    /\ NoDup (map fst pie)
    /\ (forall k, get k pie 0
                  = List.length
                      (filter (fun r => counted k (loc "Status" r))
                              (rows df)))
    /\ (forall s, get (Str s) pie 0
                  = List.length
                      (filter (fun r => eq_text s (loc "Status" r))
                              (rows df)))
    /\ StronglySorted (fun a b => snd b <= snd a) pie
    /\ list_sum (map snd pie)
       = List.length (filter (fun r => notna (loc "Status" r)) (rows df)).
Proof.
  intros Hs Hn. exists (value_counts pf (column_values "Status" df)).
  destruct (value_counts_spec pf (column_values "Status" df))
    as [_ [Hnd [_ [Hget Hsorted]]]].
  split; [apply run_summary_pie; assumption|].
  split; [exact Hnd|].
  assert (Hcount : forall k,
             get k (value_counts pf (column_values "Status" df)) 0
             = List.length
                 (filter (fun r => counted k (loc "Status" r)) (rows df))).
  { intros k. rewrite Hget. unfold column_values.
    apply length_filter_map. }
  split; [exact Hcount|]. split; [|split].
  - intros s. rewrite Hcount. f_equal. apply filter_ext. intros r.
    apply counted_text.
  - exact Hsorted.
  - rewrite value_counts_total. unfold dropna, column_values.
    apply length_filter_map.
Qed.

Lemma status_pie_witness :
  exists pie,
    In (PieChart pie) (trace (run_summary Sample.name_descending Sample.logs))
    /\ get (Str "Failed") pie 0 = 1 /\ get (Str "FAILED") pie 0 = 1
    /\ list_sum (map snd pie) = 5.
Proof.
  destruct (status_pie Sample.name_descending Sample.logs eq_refl eq_refl)
    as [pie [Hin [_ [_ [Hget [_ Hsum]]]]]].
  exists pie. split; [exact Hin|].
  split; [rewrite Hget; reflexivity|].
  split; [rewrite Hget; reflexivity|].
  rewrite Hsum. reflexivity.
Defined.

Lemma four_statuses_disjoint (l : list (row value)) :
  List.length
    (filter (fun r => eq_text "succeeded" (str_lower (loc "Status" r))) l)
  + List.length
      (filter (fun r => eq_text "failed" (str_lower (loc "Status" r))) l)
  + List.length
      (filter (fun r => eq_text "inprogress" (str_lower (loc "Status" r))) l)
  + List.length
      (filter (fun r => eq_text "queued" (str_lower (loc "Status" r))) l)
  <= List.length (filter (fun r => notna (loc "Status" r)) l).
Proof.
  induction l as [|r t IH]; simpl; [lia|].
  destruct (loc "Status" r) as [|s|n|b]; simpl; try exact IH; try lia.
  destruct (String.eqb_spec (PyStr.lower s) "succeeded") as [E1|E1];
    destruct (String.eqb_spec (PyStr.lower s) "failed") as [E2|E2];
    destruct (String.eqb_spec (PyStr.lower s) "inprogress") as [E3|E3];
    destruct (String.eqb_spec (PyStr.lower s) "queued") as [E4|E4];
    try (rewrite E1 in *; discriminate);
    try (rewrite E2 in *; discriminate);
    try (rewrite E3 in *; discriminate);
    simpl; lia.
Qed.

(** X13. On a Status column held as text no row is counted by two metrics:
    the four metrics together are at most the total of the status chart,
    which is at most the number of rows. *)
Theorem metrics_within_rows
        (pf : counts -> value * nat -> value * nat -> bool)
        (df : DataFrame value) :
  has_column "Status" df = true ->
  has_str (column_values "Status" df) = true ->
  exists succeeded failed inprogress queued,
    key_metrics pf df
    = ([Metric "Succeeded" succeeded; Metric "Failed" failed;
        Metric "In Progress" inprogress; Metric "Queued" queued],
       inr tt)
    /\ succeeded + failed + inprogress + queued
       <= list_sum (map snd (value_counts pf (column_values "Status" df)))
    /\ list_sum (map snd (value_counts pf (column_values "Status" df)))
       <= List.length (rows df).
Proof.
  intros Hs Ht. eexists. eexists. eexists. eexists.
  split; [apply key_metrics_eq; assumption|].
  rewrite value_counts_total. unfold dropna, column_values.
  rewrite length_filter_map. split.
  - apply four_statuses_disjoint.
  - apply filter_length_le.
Qed.

Lemma metrics_within_rows_witness :
  exists succeeded failed inprogress queued,
    key_metrics Sample.first_met Sample.logs
    = ([Metric "Succeeded" succeeded; Metric "Failed" failed;
        Metric "In Progress" inprogress; Metric "Queued" queued],
       inr tt)
    /\ succeeded + failed + inprogress + queued <= 5.
Proof.
  destruct (metrics_within_rows Sample.first_met Sample.logs eq_refl eq_refl)
    as [a [b [c [d [Hk [H1 H2]]]]]].
  exists a, b, c, d. split; [exact Hk|].
  change (List.length (rows Sample.logs)) with 5 in H2. lia.
Defined.

(* ================================================================== *)
(** ** What the column writes leave alone (lines 57 and 143-144) *)

Lemma has_column_converted (parse : value -> option (Z * Z)) (name : string)
      (df : DataFrame value) :
  name <> "Run start" -> name <> "Date" ->
  has_column name (converted parse df) = has_column name df.
Proof.
  intros Hr Hd. unfold converted. cbv zeta.
  rewrite has_column_assign_kept by exact Hd.
  rewrite has_column_assign_kept by exact Hr.
  apply has_column_as_cells.
Qed.

(** X14. The two tables a run ends with, when the toggle is on, no click is
    pending and nothing is raised: the variable of the uploaded table
    holds the converted table, which has no key column; the failed subset
    holds the keys, while its Run start column still holds the texts as
    read and its other columns their cells. *)
Theorem key_derivation_frame
        (pf : counts -> value * nat -> value * nat -> bool)
        (td : list value -> exn + (value -> option (Z * Z)))
        (mi : string -> string -> option string)
        (parse : value -> option (Z * Z))
        (w : widgets) (df : DataFrame value) :
  uploaded_file w = Some (Csv df) ->
  show_failed_only w = true ->
  analyze w = false ->
  has_column "Status" df = true ->
  has_column "Pipeline name" df = true ->
  has_column "Run start" df = true ->
  has_column "Error" df = true ->
  has_str (column_values "Status" df) = true ->
  failed_rows df <> [] ->
  derivable df (failed_subset df) = true ->
  reads td (column_values "Run start" df) parse ->
  outcome (app pf td mi w)
  = inr {| df_final := Some (converted parse df);
           failed_df_final := Some (with_keys (failed_subset df)) |}
  /\ has_column "PipelineKey" (converted parse df)
     = has_column "PipelineKey" df
  /\ has_column "PipelineKey" (with_keys (failed_subset df)) = true
  /\ has_column "Date" (with_keys (failed_subset df)) = has_column "Date" df
  /\ (forall other,
        other <> "PipelineKey" ->
        column_values other (with_keys (failed_subset df))
        = map (loc other) (failed_rows df)).
Proof.
  intros Hup Hon Hw Hs Hn Hr He Ht Hrows Hd Hread.
  split; [|split; [|split; [|split]]].
  - unfold app. run. rewrite outcome_after.
    rewrite (tab1_diagnose mi w df Hup Hon Hs Ht Hrows).
    rewrite (diagnose_resolve mi w df (failed_subset df) Hn Hr He Hd).
    assert (Hbutton : forall r,
               analyze_button mi w
                 (selectbox (map pipeline_key (rows (failed_subset df)))
                            (selection w)) (loc "Error" r)
               = ([Button], inr tt))
      by (intros r; apply analyze_button_idle; exact Hw).
    destruct (resolve _ (failed_subset df)) as [r|];
      [rewrite Hbutton|]; run; simpl fst; simpl snd;
      rewrite (tab2_eq pf td parse w (Csv df) df Hup Hs Hn Hr Ht Hread);
      reflexivity.
  - apply has_column_converted; discriminate.
  - apply has_column_assign.
  - apply (has_column_assign_kept "PipelineKey" "Date" _ (failed_subset df)).
    discriminate.
  - intros other Hne.
    apply (column_values_assign_other "PipelineKey" other pipeline_key
             (failed_subset df)).
    exact Hne.
Qed.

Lemma key_derivation_frame_witness :
  outcome (app Sample.first_met Sample.to_datetime Sample.model_invoke
               (Sample.view Sample.logs true))
  = inr {| df_final :=
             Some (converted
                     (Sample.parse (column_values "Run start" Sample.logs))
                     Sample.logs);
           failed_df_final := Some (with_keys (failed_subset Sample.logs)) |}
  /\ column_values "Run start" (with_keys (failed_subset Sample.logs))
     = [Str "2025-06-10"; Str "soon"; Str "2025-06-11"].
Proof.
  destruct (key_derivation_frame Sample.first_met Sample.to_datetime
              Sample.model_invoke
              (Sample.parse (column_values "Run start" Sample.logs))
              (Sample.view Sample.logs true) Sample.logs
              eq_refl eq_refl eq_refl eq_refl eq_refl eq_refl eq_refl
              eq_refl)
    as [Hout [_ [_ [_ Hkept]]]].
  - discriminate.
  - reflexivity.
  - right. reflexivity.
  - split; [exact Hout|]. rewrite Hkept; [reflexivity | discriminate].
Defined.

(** X15. When the dashboard converts the Run start column (the Status
    column is held as text and pandas accepts the Run start column), the
    conversion keeps the rows and their number and the order of the
    columns: an existing Date column is overwritten in place, otherwise
    Date is appended as the last column, once. *)
Theorem conversion_frame
        (pf : counts -> value * nat -> value * nat -> bool)
        (td : list value -> exn + (value -> option (Z * Z)))
        (parse : value -> option (Z * Z))
        (w : widgets) (f : upload) (df : DataFrame value) :
  uploaded_file w = Some f ->
  has_column "Status" df = true ->
  has_column "Pipeline name" df = true ->
  has_column "Run start" df = true ->
  has_str (column_values "Status" df) = true ->
  reads td (column_values "Run start" df) parse ->
  exists df',
    outcome (tab2 pf td w (Some df)) = inr (Some df')
    /\ columns df' = (if has_column "Date" df then columns df
                      else columns df ++ ["Date"])
    /\ List.length (rows df') = List.length (rows df).
Proof.
  intros Hup Hs Hn Hr Ht Hread. exists (converted parse df).
  split; [rewrite (tab2_eq pf td parse w f df Hup Hs Hn Hr Ht Hread);
          reflexivity|].
  pose proof (parsed_length parse df) as Hlen.
  split; [apply converted_columns; exact Hr|].
  unfold converted. cbv zeta. unfold assign at 1. simpl rows.
  rewrite assign_rows_length.
  - simpl rows. rewrite (assign_rows_length _ _ _ Hlen).
    apply rows_as_cells_length.
  - rewrite length_map. simpl rows.
    rewrite (assign_rows_length _ _ _ Hlen). exact Hlen.
Qed.

Lemma conversion_frame_witness :
  exists df',
    outcome (tab2 Sample.first_met Sample.to_datetime
                  (Sample.view Sample.logs false) (Some Sample.logs))
    = inr (Some df')
    /\ columns df'
       = ["Pipeline name"; "Run start"; "Status"; "Error"; "Date"]
    /\ List.length (rows df') = 5.
Proof.
  destruct (conversion_frame Sample.first_met Sample.to_datetime
              (Sample.parse (column_values "Run start" Sample.logs))
              (Sample.view Sample.logs false) (Csv Sample.logs) Sample.logs
              eq_refl eq_refl eq_refl eq_refl eq_refl (or_intror eq_refl))
    as [df' [Hout [Hcols Hlen]]].
  exists df'. split; [exact Hout|]. split; [exact Hcols | exact Hlen].
Defined.

(* ================================================================== *)
(** ** Which runs can stop (the whole script) *)

Lemma analyze_button_outcome (mi : string -> string -> option string)
      (w : widgets) (key error_text : value) :
  outcome (analyze_button mi w key error_text) = inr tt
  \/ (outcome (analyze_button mi w key error_text) = inl RemoteError
      /\ analyze w = true).
Proof.
  unfold analyze_button. destruct (analyze w); [|left; reflexivity].
  destruct (negb (truthy error_text)
            || String.eqb (PyStr.strip (py_str error_text)) "");
    [left; reflexivity|].
  destruct (mi system_prompt (human_prompt key error_text));
    [left | right; split]; reflexivity.
Qed.

Lemma tab1_outcome (mi : string -> string -> option string)
      (w : widgets) (df : DataFrame value) :
  uploaded_file w = Some (Csv df) ->
  has_column "Status" df = true ->
  has_column "Pipeline name" df = true ->
  has_column "Run start" df = true ->
  has_column "Error" df = true ->
  has_str (column_values "Status" df) = true ->
  derivable df (failed_subset df) = true ->
  (exists fd, outcome (tab1 mi w) = inr (Some df, fd))
  \/ (outcome (tab1 mi w) = inl RemoteError
      /\ analyze w = true /\ show_failed_only w = true).
Proof.
  intros Hup Hs Hn Hr He Ht Hd.
  destruct (show_failed_only w) eqn:Hon.
  - rewrite (tab1_with_status mi w df Hup Hs (or_intror Ht)), Hon.
    unfold ask_ai. rewrite Hon, outcome_after.
    destruct (empty (failed_subset df)); simpl negb; cbv iota.
    + left. eexists. reflexivity.
    + rewrite (diagnose_resolve mi w df (failed_subset df) Hn Hr He Hd).
      rewrite !outcome_bind, outcome_after, outcome_bind.
      destruct (resolve _ (failed_subset df)) as [r|].
      * destruct (analyze_button_outcome mi w
                    (selectbox (map pipeline_key (rows (failed_subset df)))
                               (selection w))
                    (loc "Error" r)) as [Hok | [Hfail Hw]].
        -- rewrite Hok. left. eexists. reflexivity.
        -- rewrite Hfail. right. auto.
      * left. eexists. reflexivity.
  - left. rewrite (toggle_off_run mi w df Hup Hon). eexists. reflexivity.
Qed.

(** X16. On a table with the four columns the script reads, whose Status
    column is text, whose failed rows are addable and whose Run start
    column pandas converts, the only exception a run can raise is the
    remote call's, and only on a click with the toggle on; a run with no
    click pending completes, whatever is selected and whether the toggle
    is on or off. *)
Theorem only_the_call_can_fail
        (pf : counts -> value * nat -> value * nat -> bool)
        (td : list value -> exn + (value -> option (Z * Z)))
        (mi : string -> string -> option string)
        (parse : value -> option (Z * Z))
        (w : widgets) (df : DataFrame value) :
  uploaded_file w = Some (Csv df) ->
  has_column "Status" df = true ->
  has_column "Pipeline name" df = true ->
  has_column "Run start" df = true ->
  has_column "Error" df = true ->
  has_str (column_values "Status" df) = true ->
  derivable df (failed_subset df) = true ->
  reads td (column_values "Run start" df) parse ->
  (forall e, outcome (app pf td mi w) = inl e ->
             e = RemoteError /\ analyze w = true
             /\ show_failed_only w = true)
  /\ (analyze w = false -> completes (app pf td mi w)).
Proof.
  intros Hup Hs Hn Hr He Ht Hd Hread.
  assert (Hrun : (exists s, outcome (app pf td mi w) = inr s)
                 \/ (outcome (app pf td mi w) = inl RemoteError
                     /\ analyze w = true /\ show_failed_only w = true)).
  { unfold app. rewrite bind_emit, outcome_after, outcome_bind.
    destruct (tab1_outcome mi w df Hup Hs Hn Hr He Ht Hd)
      as [[fd Hok] | [Hfail Hw]].
    - left. rewrite Hok. simpl fst. rewrite outcome_bind.
      rewrite (tab2_eq pf td parse w (Csv df) df Hup Hs Hn Hr Ht Hread).
      simpl outcome. eexists. reflexivity.
    - right. rewrite Hfail. auto. }
  split.
  - intros e Hstop. destruct Hrun as [[s Hok] | [Hfail Hw]].
    + rewrite Hok in Hstop. discriminate.
    + rewrite Hfail in Hstop. injection Hstop as <-. auto.
  - intros Hidle. destruct Hrun as [Hok | [_ [Hw _]]]; [exact Hok|].
    congruence.
Qed.

Lemma only_the_call_can_fail_witness :
  completes (app Sample.first_met Sample.to_datetime Cases.offline
                 (Sample.view Sample.logs true)).
Proof.
  destruct (only_the_call_can_fail Sample.first_met Sample.to_datetime
              Cases.offline
              (Sample.parse (column_values "Run start" Sample.logs))
              (Sample.view Sample.logs true) Sample.logs
              eq_refl eq_refl eq_refl eq_refl eq_refl eq_refl eq_refl
              (or_intror eq_refl)) as [_ Hidle].
  apply Hidle. reflexivity.
Defined.

(* ================================================================== *)
(** ** Columns that are not of the type a line needs *)

(** X17. On a table with the Status and Pipeline name columns whose Status
    column pandas does not hold as text (it has rows, and no Status field
    is a text), every run stops with AttributeError: at line 40, before
    the table view, with the toggle on; at line 98, under the dashboard's
    first subheader, with the toggle off. *)
Theorem status_not_text_stops_run
        (pf : counts -> value * nat -> value * nat -> bool)
        (td : list value -> exn + (value -> option (Z * Z)))
        (mi : string -> string -> option string)
        (w : widgets) (df : DataFrame value) :
  uploaded_file w = Some (Csv df) ->
  has_column "Status" df = true ->
  has_column "Pipeline name" df = true ->
  has_str (column_values "Status" df) = false ->
  app pf td mi w
  = if show_failed_only w
    then ([Title "Azure Data Factory Toolkit"; Header "ADF CSV Analyzer";
           FileUploader; Checkbox],
          inl AttributeError)
    else ([Title "Azure Data Factory Toolkit"; Header "ADF CSV Analyzer";
           FileUploader; Checkbox; Subheader "Pipeline Execution Logs";
           Dataframe df; Header "Pipeline Dashboard";
           Subheader "Key Metrics"],
          inl AttributeError).
Proof.
  intros Hup Hs Hn Ht. unfold app.
  destruct (show_failed_only w) eqn:Hon.
  - rewrite (tab1_status_not_text mi w df Hup Hon Hs Ht). reflexivity.
  - rewrite (toggle_off_run mi w df Hup Hon). run. simpl fst.
    rewrite (tab2_status_not_text pf td w (Csv df) df Hup Hs Hn Ht).
    reflexivity.
Qed.

Lemma status_not_text_stops_run_witness :
  outcome (app Sample.first_met Sample.to_datetime Sample.model_invoke
               (Sample.view Cases.blank_status false))
  = inl AttributeError.
Proof.
  rewrite (status_not_text_stops_run Sample.first_met Sample.to_datetime
             Sample.model_invoke (Sample.view Cases.blank_status false)
             Cases.blank_status eq_refl eq_refl eq_refl eq_refl).
  reflexivity.
Defined.

(** X18. With the toggle on and a failed row, when some failed row is not
    addable (its name is a number or a truth value, or it has a name and a
    number or truth value for its run start) or the name column is not
    held as objects, line 57 stops the run with TypeError: the section
    title is the last thing rendered, and neither the selector nor the
    dashboard follows. *)
Theorem key_derivation_type_error
        (pf : counts -> value * nat -> value * nat -> bool)
        (td : list value -> exn + (value -> option (Z * Z)))
        (mi : string -> string -> option string)
        (w : widgets) (df : DataFrame value) :
  uploaded_file w = Some (Csv df) ->
  show_failed_only w = true ->
  has_column "Status" df = true ->
  has_column "Pipeline name" df = true ->
  has_column "Run start" df = true ->
  has_str (column_values "Status" df) = true ->
  failed_rows df <> [] ->
  derivable df (failed_subset df) = false ->
  app pf td mi w
  = ([Title "Azure Data Factory Toolkit"; Header "ADF CSV Analyzer";
      FileUploader; Checkbox; Subheader "Pipeline Execution Logs";
      Dataframe (failed_subset df);
      Subheader "Ask AI to Debug a Failed Pipeline"],
     inl TypeError).
Proof.
  intros Hup Hon Hs Hn Hr Ht Hrows Hd. unfold app.
  rewrite (tab1_diagnose mi w df Hup Hon Hs Ht Hrows).
  rewrite (diagnose_type_error mi w df (failed_subset df) Hn Hr Hd).
  reflexivity.
Qed.

Lemma key_derivation_type_error_witness :
  outcome (app Sample.first_met Sample.to_datetime Sample.model_invoke
               (Sample.view Cases.numeric_start true))
  = inl TypeError.
Proof.
  rewrite (key_derivation_type_error Sample.first_met Sample.to_datetime
             Sample.model_invoke (Sample.view Cases.numeric_start true)
             Cases.numeric_start eq_refl eq_refl eq_refl eq_refl eq_refl
             eq_refl).
  - reflexivity.
  - discriminate.
  - reflexivity.
Defined.

(** X19. When pandas rejects the Run start column of a table with rows, the
    dashboard stops at line 143 with the parser's exception: the metrics
    and the two charts of the summary have been rendered, the line chart
    has not. *)
Theorem conversion_rejected
        (pf : counts -> value * nat -> value * nat -> bool)
        (td : list value -> exn + (value -> option (Z * Z)))
        (w : widgets) (f : upload) (df : DataFrame value) (e : exn) :
  uploaded_file w = Some f ->
  has_column "Status" df = true ->
  has_column "Pipeline name" df = true ->
  has_column "Run start" df = true ->
  has_str (column_values "Status" df) = true ->
  rows df <> [] ->
  td (column_values "Run start" df) = inl e ->
  tab2 pf td w (Some df)
  = ([Header "Pipeline Dashboard"; Subheader "Key Metrics";
      Metric "Succeeded" (status_count "succeeded" df);
      Metric "Failed" (status_count "failed" df);
      Metric "In Progress" (status_count "inprogress" df);
      Metric "Queued" (status_count "queued" df);
      Subheader "Pipeline Run Summary";
      PieChart (value_counts pf (column_values "Status" df));
      BarChart (nlargest pf 5 (value_counts pf (failure_names df)))],
     inl e).
Proof.
  intros Hup Hs Hn Hr Ht Hrows He.
  rewrite (tab2_summary pf td w f df Hup Hs Hn Ht).
  unfold runs_over_time. rewrite Hr.
  rewrite (daily_runs_rejected td df e Hr Hrows He). reflexivity.
Qed.

Lemma conversion_rejected_witness :
  outcome (tab2 Sample.first_met Cases.rejecting
                (Sample.view Sample.logs false) (Some Sample.logs))
  = inl ValueError.
Proof.
  rewrite (conversion_rejected Sample.first_met Cases.rejecting
             (Sample.view Sample.logs false) (Csv Sample.logs) Sample.logs
             ValueError eq_refl eq_refl eq_refl eq_refl eq_refl).
  - reflexivity.
  - discriminate.
  - reflexivity.
Defined.

(* ================================================================== *)
(** ** The ranking under a sort that keeps the order of equal counts *)

Section OrderFacts.

Lemma first_index_app_in (k : value) (l l' : list value) :
  In k l -> first_index k (l ++ l') = first_index k l.
Proof.
  induction l as [|x t IH]; simpl; [tauto|].
  intros Hin. destruct (value_eq_dec x k) as [->|Hx].
  - rewrite value_eqb_refl. reflexivity.
  - rewrite (proj2 (value_eqb_neq x k) Hx). f_equal. apply IH.
    destruct Hin; [congruence | assumption].
Qed.

Lemma first_index_lt (k : value) (l : list value) :
  In k l -> first_index k l < List.length l.
Proof.
  induction l as [|x t IH]; simpl; [tauto|].
  intros Hin. destruct (value_eq_dec x k) as [->|Hx].
  - rewrite value_eqb_refl. lia.
  - rewrite (proj2 (value_eqb_neq x k) Hx).
    destruct Hin as [->|Hin]; [congruence|]. specialize (IH Hin). lia.
Qed.

Lemma first_index_new (k : value) (l : list value) :
  ~ In k l -> first_index k (l ++ [k]) = List.length l.
Proof.
  induction l as [|x t IH]; simpl.
  - rewrite value_eqb_refl. reflexivity.
  - intros Hnin. destruct (value_eq_dec x k) as [->|Hx]; [tauto|].
    rewrite (proj2 (value_eqb_neq x k) Hx). f_equal. apply IH. tauto.
Qed.

Lemma StronglySorted_snoc {A} (R : A -> A -> Prop) (l : list A) (x : A) :
  StronglySorted R l -> Forall (fun a => R a x) l ->
  StronglySorted R (l ++ [x]).
Proof.
  intros Hs. induction Hs as [|a l Hs IH Hall]; simpl; intros Hx.
  - repeat constructor.
  - inversion Hx as [|? ? Hax Hlx]; subst. constructor; [auto|].
    apply Forall_app. split; [exact Hall | repeat constructor; exact Hax].
Qed.

Lemma StronglySorted_map {A B} (R : B -> B -> Prop) (f : A -> B)
      (l : list A) :
  StronglySorted R (map f l) ->
  StronglySorted (fun a b => R (f a) (f b)) l.
Proof.
  induction l as [|a t IH]; simpl; intros Hs; [constructor|].
  apply StronglySorted_inv in Hs as [Ht Ha]. constructor; [auto|].
  rewrite Forall_map in Ha. exact Ha.
Qed.

(** The tally lists the keys in the order in which they first occur. *)
Lemma tally_order (l : list value) :
  StronglySorted (fun a b => first_index a l < first_index b l)
                 (map fst (tally l)).
Proof.
  induction l as [|x l IH] using rev_ind; [constructor|].
  rewrite tally_snoc.
  assert (Hold : StronglySorted
                   (fun a b => first_index a (l ++ [x])
                               < first_index b (l ++ [x]))
                   (map fst (tally l))).
  { revert IH. apply StronglySorted_weaken. intros a b Ha Hb Hab.
    apply (proj1 (keys_tally _ _)) in Ha.
    apply (proj1 (keys_tally _ _)) in Hb.
    rewrite (first_index_app_in a l [x] Ha), (first_index_app_in b l [x] Hb).
    exact Hab. }
  destruct (in_dec value_eq_dec x (map fst (tally l))) as [Hin|Hnin].
  - rewrite (keys_bump_in _ _ Hin). exact Hold.
  - rewrite (keys_bump_new _ _ Hnin).
    apply StronglySorted_snoc; [exact Hold|].
    rewrite Forall_forall. intros a Ha.
    apply (proj1 (keys_tally _ _)) in Ha.
    rewrite (first_index_app_in _ _ _ Ha).
    rewrite first_index_new.
    + apply first_index_lt. exact Ha.
    + intros Hx. apply Hnin. apply keys_tally. exact Hx.
Qed.

Variable names : list value.
Variable prefer : value * nat -> value * nat -> bool.
Hypothesis keeps_order : forall x y, prefer x y = true.

Lemma before_stable (x y : value * nat) :
  before prefer x y = negb (snd x <? snd y)%nat.
Proof.
  unfold before. rewrite keeps_order, andb_true_r.
  destruct (Nat.ltb_spec (snd y) (snd x)) as [H1|H1];
    destruct (Nat.eqb_spec (snd x) (snd y)) as [H2|H2];
    destruct (Nat.ltb_spec (snd x) (snd y)) as [H3|H3];
    simpl; try reflexivity; lia.
Qed.

(** Inserting an entry met before all the entries of a ranking keeps the
    ranking in order. *)
Lemma insert_stable_sorted (x : value * nat) (s : counts) :
  StronglySorted (ranks_before names) s ->
  Forall (fun y => first_index (fst x) names < first_index (fst y) names) s ->
  StronglySorted (ranks_before names) (insert_by prefer x s).
Proof.
  intros Hs. induction Hs as [|y t Ht IH Hy]; simpl; intros Hx.
  - repeat constructor.
  - inversion Hx as [|? ? Hxy Hxt]; subst. rewrite before_stable.
    destruct (Nat.ltb_spec (snd x) (snd y)) as [Hlt|Hge]; simpl negb;
      cbv iota.
    + constructor; [auto|].
      eapply Permutation_Forall.
      * symmetry. apply insert_by_Permutation.
      * constructor; [left; exact Hlt | exact Hy].
    + constructor; [constructor; assumption|].
      constructor.
      * unfold ranks_before. lia.
      * rewrite Forall_forall in *. intros z Hz.
        specialize (Hy z Hz). specialize (Hxt z Hz).
        unfold ranks_before in *. lia.
Qed.

(** Sorting entries listed in order of first occurrence ranks them. *)
Lemma sort_stable_sorted (s : counts) :
  StronglySorted
    (fun a b => first_index (fst a) names < first_index (fst b) names) s ->
  StronglySorted (ranks_before names) (sort_by prefer s).
Proof.
  intros Hs. induction Hs as [|x t Ht IH Hx]; simpl; [constructor|].
  apply insert_stable_sorted; [exact IH|].
  eapply Permutation_Forall; [|exact Hx].
  symmetry. apply sort_by_Permutation.
Qed.

(** Sorting a ranking again changes nothing. *)
Lemma sort_stable_ranked (s : counts) :
  StronglySorted (ranks_before names) s -> sort_by prefer s = s.
Proof.
  intros Hs. induction Hs as [|x t Ht IH Hx]; simpl; [reflexivity|].
  rewrite IH. destruct t as [|y t']; [reflexivity|]. simpl.
  inversion Hx as [|? ? Hxy _]; subst. rewrite before_stable.
  destruct (Nat.ltb_spec (snd x) (snd y)) as [Hlt|Hge]; [|reflexivity].
  unfold ranks_before in Hxy. lia.
Qed.

End OrderFacts.

(** X20. Were pandas' sort to keep the order of entries of equal count, the
    ranking would be the one the specification asks for: larger counts
    first and, among equal counts, the pipeline whose first failed row is
    higher in the table. *)
Theorem stable_sort_ranks_by_first_failure
        (pf : counts -> value * nat -> value * nat -> bool)
        (df : DataFrame value) :
  (forall s x y, pf s x y = true) ->
  has_column "Status" df = true ->
  has_column "Pipeline name" df = true ->
  has_str (column_values "Status" df) = true ->
  exists ranking,
    top_failing pf df = ret (firstn 5 ranking)
    /\ Permutation ranking (tally (dropna (failure_names df)))
    /\ StronglySorted (ranks_before (dropna (failure_names df))) ranking.
Proof.
  intros Hpf Hs Hn Ht.
  set (names := dropna (failure_names df)).
  set (ranking := value_counts pf (failure_names df)).
  assert (Hranked : StronglySorted (ranks_before names) ranking).
  { unfold ranking, value_counts, sort_values. fold names.
    apply sort_stable_sorted; [apply Hpf|].
    apply (StronglySorted_map
             (fun a b => first_index a names < first_index b names) fst).
    apply tally_order. }
  exists ranking.
  split; [|split; [apply value_counts_spec | exact Hranked]].
  rewrite (top_failing_eq pf df Hs Hn Ht). fold ranking.
  unfold nlargest, sort_values, mergesort_desc.
  destruct (List.length ranking <=? 5)%nat.
  - rewrite (sort_stable_ranked names (pf ranking) (Hpf ranking) _ Hranked).
    reflexivity.
  - rewrite (sort_stable_ranked names (fun _ _ => true)
               (fun _ _ => eq_refl) _ Hranked).
    reflexivity.
Qed.

Lemma stable_sort_ranks_by_first_failure_witness :
  exists ranking,
    top_failing Sample.first_met Cases.tied = ret (firstn 5 ranking)
    /\ StronglySorted (ranks_before (dropna (failure_names Cases.tied)))
                      ranking.
Proof.
  destruct (stable_sort_ranks_by_first_failure Sample.first_met Cases.tied
              (fun _ _ _ => eq_refl) eq_refl eq_refl eq_refl)
    as [ranking [Htop [_ Hranked]]].
  exists ranking. split; [exact Htop | exact Hranked].
Defined.

(* ================================================================== *)
(** ** What the sort may return *)






Section Reachable.

Variable target : counts.
Hypothesis target_keys : NoDup (map fst target).
Hypothesis target_sorted :
  StronglySorted (fun a b => snd b <= snd a) target.

(** Among entries of equal count, the one that stands first in [target]
    goes first. *)
Variable rule : value * nat -> value * nat -> bool.
Hypothesis rule_eq :
  forall x y,
    rule x y = (first_index (fst x) (map fst target)
                <? first_index (fst y) (map fst target))%nat.






End Reachable.


